(** * ORSAC website monitor: the per-site check pipeline of [monitor_backend.py]

    A shallow embedding of [get_hostname], [get_domain_expiry], [send_email],
    [check_site] and [run_checks_and_log], followed by the properties of the
    emitted record.

    Conventions of the embedding:
    - a Python value that may be a number or a sentinel string is a [pyval];
    - the [site] and [results] dictionaries are [gmap string pyval];
    - Python floats are rationals ([Q]): what a float multiplication or
      division of the code returns is its exact result rounded to the nearest
      binary64 number ([to_double]), and what [round(x, 2)] returns is named
      by the two-decimal number it prints as ([round2]);
    - every call that leaves the process (DNS, ICMP, HTTP, TLS, WHOIS, mail)
      is recorded, in order, in a trace of [event]s, and the answer it gets is
      read from a [World], which may depend on everything that happened
      before;
    - library functions whose exact behaviour is outside the repository
      (URL parsing, [int] of a string, [str.lower], date formatting) are the
      fields of the class [PyLib]. *)

From Stdlib Require Import ZArith QArith Qround Qabs Qpower String Ascii DecimalString.
From stdpp Require Import gmap strings list fin_maps sorting.

Open Scope string_scope.

(** ** Python values *)

Inductive pyval :=
  | PNone
  | PBool (b : bool)
  | PInt (z : Z)
  | PFloat (q : Q)
  | PStr (s : string).

(** A [datetime]: microseconds since the epoch on its own wall clock, and the
    UTC offset (microseconds) when it is timezone-aware. *)
Record datetime := DateTime { dt_wall : Z; dt_tz : option Z }.

Class PyLib := {
  (** [int(s)] for a string; [None] when it raises [ValueError] *)
  int_of_str : string -> option Z;
  (** [s.lower()] *)
  str_lower : string -> string;
  (** [str(x)] for a float, as an f-string renders it *)
  float_repr : Q -> string;
  (** [urlparse(url).netloc]; [None] when the call raises *)
  urlparse_netloc : pyval -> option string;
  (** [d.isoformat()] *)
  isoformat : datetime -> string;
  (** [datetime.strptime(s, "%b %d %H:%M:%S %Y %Z")]; [None] when it raises *)
  strptime_cert : string -> option datetime;
  (** [datetime.now().strftime('%Y-%m-%d %H:%M:%S')] at the given instant *)
  strftime_local : Z -> string
}.

(** [bool(x)] *)
Definition py_bool (v : pyval) : bool :=
  match v with
  | PNone => false
  | PBool b => b
  | PInt z => negb (z =? 0)%Z
  | PFloat q => negb (Qeq_bool q 0)
  | PStr s => negb (String.eqb s "")
  end.

(** [int(x)]; [None] when it raises. A float is truncated toward zero. *)
Definition py_int `{PyLib} (v : pyval) : option Z :=
  match v with
  | PNone => None
  | PBool b => Some (if b then 1 else 0)%Z
  | PInt z => Some z
  | PFloat q => Some (Z.quot (Qnum q) (Z.pos (Qden q)))
  | PStr s => int_of_str s
  end.

Definition str_of_Z (z : Z) : string := NilEmpty.string_of_int (Z.to_int z).

(** [f"{x}"] *)
Definition py_format `{PyLib} (v : pyval) : string :=
  match v with
  | PNone => "None"
  | PBool true => "True"
  | PBool false => "False"
  | PInt z => str_of_Z z
  | PFloat q => float_repr q
  | PStr s => s
  end.

(** [isinstance(x, (int, float))]; [bool] is a subclass of [int]. *)
Definition is_number (v : pyval) : bool :=
  match v with
  | PBool _ | PInt _ | PFloat _ => true
  | PNone | PStr _ => false
  end.

Definition Qltb (a b : Q) : bool := negb (Qle_bool b a).

(** [x > t] for a number [x] and a float [t]. *)
Definition py_gt (v : pyval) (t : Q) : bool :=
  match v with
  | PBool b => Qltb t (if b then 1 else 0)
  | PInt z => Qltb t (inject_Z z)
  | PFloat q => Qltb t q
  | PNone | PStr _ => false
  end.

(** [round(x, 2)] of a float: the multiple of 1/100 nearest to its exact
    value, ties to the even one. *)
Definition round_half_even (x : Q) : Z :=
  let f := Qfloor x in
  match (x - inject_Z f ?= 1 # 2)%Q with
  | Lt => f
  | Gt => (f + 1)%Z
  | Eq => if Z.even f then f else (f + 1)%Z
  end.

Definition round2 (x : Q) : Q :=
  Qred (Qmake (round_half_even (x * 100)) 100).

(** ** Float operations *)

(** The binary64 number nearest to [q], ties to the even significand: [l] is
    the exponent of [q], and [q] is rounded to a multiple of [2 ^ e], with 53
    bits above the smallest exponent. Overflow is left out: the values here
    are far below it. *)
Definition to_double (q : Q) : Q :=
  match Qnum q with
  | Z0 => 0%Q
  | _ =>
    let a := Qabs q in
    let l0 := (Z.log2 (Qnum a) - Z.log2 (Zpos (Qden a)))%Z in
    let l := if Qle_bool (2 ^ l0)%Q a then l0 else (l0 - 1)%Z in
    let e := Z.max (l - 52) (-1074) in
    let v := (inject_Z (round_half_even (a / 2 ^ e)) * 2 ^ e)%Q in
    Qred (if Qle_bool 0 q then v else (- v)%Q)
  end.

(** [x * y] and [x / y] on floats, and [n / m] on ints *)
Definition float_mul (x y : Q) : Q := to_double (x * y)%Q.
Definition float_div (x y : Q) : Q := to_double (x / y)%Q.

(** [td.total_seconds()] of a [timedelta] of [us] microseconds *)
Definition float_total_seconds (us : Z) : Q := float_div (inject_Z us) 1000000.

(** ** Strings *)

(** [sub in s] *)
Fixpoint str_in (sub s : string) : bool :=
  String.prefix sub s ||
  match s with
  | EmptyString => false
  | String _ s' => str_in sub s'
  end.

(** [s.startswith(p)] *)
Definition startswith (s p : string) : bool := String.prefix p s.

(** Whitespace removed by [str.strip()] (the one-byte characters). *)
Definition is_space (a : ascii) : bool :=
  let n := nat_of_ascii a in
  ((9 <=? n) && (n <=? 13) || (28 <=? n) && (n <=? 32))%nat.

Fixpoint lstrip_l (l : list ascii) : list ascii :=
  match l with
  | [] => []
  | a :: l' => if is_space a then lstrip_l l' else l
  end.

Definition strip_l (l : list ascii) : list ascii :=
  rev (lstrip_l (rev (lstrip_l l))).

(** [s.strip()] *)
Definition strip (s : string) : string :=
  string_of_list_ascii (strip_l (list_ascii_of_string s)).

(** [netloc.split(":")[0]] *)
Fixpoint before_colon (s : string) : string :=
  match s with
  | EmptyString => EmptyString
  | String a s' => if Ascii.eqb a ":" then EmptyString else String a (before_colon s')
  end.

(** [s] has [x] as a contiguous part. *)
Definition contains (x s : string) : Prop :=
  exists a b, s = a +:+ x +:+ b.

(** ** The outside world *)

(** The resolver either raises or returns its answers, with the seconds
    measured by [time.perf_counter] around the call. *)
Inductive dns_outcome :=
  | DnsAnswers (elapsed : Q) (answers : list string)
  | DnsRaise.

(** [icmplib.ping]: a host object with [is_alive] and [avg_rtt] (absent or
    null: [None]), or an exception. *)
Inductive ping_outcome :=
  | PingHost (is_alive : bool) (avg_rtt : option Q)
  | PingRaise.

(** A [requests.Response]: [elapsed] is a [timedelta] (microseconds),
    [history] the intermediate redirect responses (their codes), [content]
    the body bytes and [text] the decoded body. *)
Record response := Response {
  status_code : Z;
  elapsed_us : Z;
  history : list Z;
  content : string;
  text : string
}.

(** [requests.get] returns, raises a [RequestException] (with its message),
    or raises something else. *)
Inductive http_outcome :=
  | HttpResponse (r : response)
  | HttpRequestException (e : string)
  | HttpOtherError.

(** The peer certificate's [notAfter] entry, or a failure of the connection
    or handshake. *)
Inductive tls_outcome :=
  | TlsCert (notAfter : option string)
  | TlsRaise.

(** What a WHOIS record holds in [expiration_date]. *)
Inductive whois_val :=
  | WNone
  | WDatetime (d : datetime)
  | WText (s : string).

Inductive whois_exp :=
  | WScalar (v : whois_val)
  | WList (l : list whois_val).

Inductive whois_outcome :=
  | WhoisEntry (expiration_date : whois_exp)
  | WhoisRaise.

(** One entry per call that leaves the process, with what came back. *)
Inductive event :=
  | EvResolve (hostname : pyval) (out : dns_outcome)
      (* resolver.resolve(hostname, "A", lifetime=5) *)
  | EvPing (ip : string) (out : ping_outcome)
      (* icmplib.ping(ip, count=1, timeout=2) *)
  | EvGet (url : pyval) (timeout : Z) (out : http_outcome)
      (* requests.get(url, timeout=timeout, allow_redirects=True) *)
  | EvTls (hostname : pyval) (out : tls_outcome)
      (* TLS handshake with (hostname, 443) and getpeercert() *)
  | EvWhois (hostname : pyval) (out : whois_outcome)
      (* whois_lookup.whois(hostname) *)
  | EvEmail (subject body : string).
      (* send_email(subject, body) *)

(** The answers of the world, each as a function of the events so far (oldest
    first). [whois_lookup] is the module-level name: [None] when the import
    of the [whois] package failed. [log_writable] tells whether the lock and
    the log file can be opened. *)
Record World := {
  clock : list event -> Z;
  resolve : list event -> pyval -> dns_outcome;
  ping : list event -> string -> ping_outcome;
  http_get : list event -> pyval -> Z -> http_outcome;
  tls_cert : list event -> pyval -> tls_outcome;
  whois_lookup : option (list event -> pyval -> whois_outcome);
  log_writable : list event -> bool
}.

(** The module-level settings read by [check_site]. *)
Record Settings := {
  DEFAULT_TIMEOUT : Z;
  USE_ICMP_BY_DEFAULT : bool;
  RESPONSE_TIME_THRESHOLD : Q
}.

(** ** Dates *)

(** [datetime.now(timezone.utc)] *)
Definition now_utc (w : World) (tr : list event) : datetime :=
  DateTime (clock w tr) (Some 0%Z).

(** [d.replace(tzinfo=timezone.utc)] *)
Definition replace_utc (d : datetime) : datetime :=
  DateTime (dt_wall d) (Some 0%Z).

(** [d.astimezone(timezone.utc)] for an aware [d] with offset [off] *)
Definition astimezone_utc (d : datetime) (off : Z) : datetime :=
  DateTime (dt_wall d - off) (Some 0%Z).

Definition us_per_day : Z := 86400000000.

(** [(a - b).days] for two datetimes in UTC: [timedelta] normalises with a
    floor division. *)
Definition days_until (a b : datetime) : Z :=
  ((dt_wall a - dt_wall b) / us_per_day)%Z.

(** ** The state of one call of [check_site] *)

(** The [results] dictionary, the [notes] accumulator and the events of this
    call so far. *)
Record ctx := Ctx {
  results : gmap string pyval;
  notes : string;
  trace : list event
}.

Definition set_result (k : string) (v : pyval) (c : ctx) : ctx :=
  Ctx (<[k := v]> (results c)) (notes c) (trace c).

Definition add_note (s : string) (c : ctx) : ctx :=
  Ctx (results c) (notes c +:+ s) (trace c).

Definition emit (e : event) (c : ctx) : ctx :=
  Ctx (results c) (notes c) (trace c ++ [e])%list.

(** A block that may let an exception escape: the state it reaches, or the
    events up to the exception. *)
Inductive attempt :=
  | Done (c : ctx)
  | Escaped (evs : list event).

(** What a call of [check_site] does: return [None], return the results, or
    raise. *)
Inductive returned :=
  | RetNone
  | RetResults (res : gmap string pyval)
  | Raised.

(** The mail transport is outside the core: the call is recorded. *)
Definition send_email (subject body : string) (c : ctx) : ctx :=
  emit (EvEmail subject body) c.

Definition init_results (name url : pyval) (now : string) : gmap string pyval :=
  <["DateTime" := PStr now]>
  (<["Website Name" := name]>
  (<["URL" := url]>
  (<["Status" := PStr "Down"]>
  (<["Ping (ms)" := PStr "Failed"]>
  (<["HTTP Time (ms)" := PStr "Failed"]>
  (<["DNS Time (ms)" := PStr "Failed"]>
  (<["Content Size (KB)" := PStr "Failed"]>
  (<["Redirects" := PInt 0]>
  (<["Keyword Check" := PStr "Skipped"]>
  (<["SSL Days Left" := PStr "N/A"]>
  (<["SSL Expiry Date" := PStr "N/A"]>
  (<["Domain Days Left" := PStr "N/A"]>
  (<["Domain Expiry Date" := PStr "N/A"]>
  (<["Notes" := PStr ""]> ∅)))))))))))))).

(** [answers[0].to_text()] when the resolver returned an answer. *)
Definition first_answer (out : dns_outcome) : option string :=
  match out with
  | DnsAnswers _ (a :: _) => Some a
  | _ => None
  end.

(** Truth value of [ip_addr]: [None] and the empty string are false. *)
Definition ip_truthy (ip_addr : option string) : option string :=
  match ip_addr with
  | Some ip => if String.eqb ip "" then None else Some ip
  | None => None
  end.

(** [use_icmp and ip_addr]: the address to ping, if any. *)
Definition ping_target (use_icmp : bool) (ip_addr : option string) : option string :=
  if use_icmp then ip_truthy ip_addr else None.

(** [days_left_dom in ("N/A", "WHOIS Failed")] *)
Definition is_domain_sentinel (v : pyval) : bool :=
  match v with
  | PStr s => String.eqb s "N/A" || String.eqb s "WHOIS Failed"
  | _ => false
  end.

(** The list comprehension of [get_domain_expiry]. *)
Definition exp_dates (l : list whois_val) : list datetime :=
  omap (fun e => match e with WDatetime d => Some d | _ => None end) l.

(** The expiration date as the specification words it: the value itself when
    it is a date, and for a list the first entry that is present and a
    date. *)
Fixpoint first_datetime (l : list whois_val) : option datetime :=
  match l with
  | [] => None
  | WDatetime d :: _ => Some d
  | _ :: l' => first_datetime l'
  end.

Definition usable_date (e : whois_exp) : option datetime :=
  match e with
  | WScalar (WDatetime d) => Some d
  | WScalar _ => None
  | WList l => first_datetime l
  end.

(** A naive datetime is taken as UTC, an aware one is converted. *)
Definition to_utc (d : datetime) : datetime :=
  match dt_tz d with
  | None => replace_utc d
  | Some off => astimezone_utc d off
  end.

Definition status_note (expected code : Z) : string :=
  "Expected status " +:+ str_of_Z expected +:+ ", but got " +:+ str_of_Z code +:+ ".".

Definition status_down (code : Z) : string :=
  "Down (" +:+ str_of_Z code +:+ ")".

Section Backend.
Context `{PyLib}.
Variable w : World.
Variable cfg : Settings.

Definition get_hostname (url : pyval) : pyval :=
  match urlparse_netloc url with
  | Some netloc => PStr (before_colon netloc)
  | None => url
  end.

Definition alert_subject (name : pyval) : string :=
  "Alert: Website '" +:+ py_format name +:+ "' is Down".

Definition body_status (name url : pyval) (code : Z) (at_ : string) : string :=
  "The website '" +:+ py_format name +:+ "' (" +:+ py_format url +:+
  ") returned a status code of " +:+ str_of_Z code +:+ " at " +:+ at_ +:+ ". ".

Definition body_error (name url : pyval) (at_ e : string) : string :=
  "The website '" +:+ py_format name +:+ "' (" +:+ py_format url +:+
  ") could not be reached at " +:+ at_ +:+ " due to an HTTP error: " +:+ e.

(** The configuration of a site, as [check_site] reads it. *)
Definition site_name (site : gmap string pyval) : pyval :=
  default (PStr "") (site !! "name").

Definition site_url (site : gmap string pyval) : pyval :=
  default (PStr "") (site !! "url").

Definition enabled (site : gmap string pyval) : bool :=
  py_bool (default (PBool true) (site !! "enabled")).

Definition site_timeout (site : gmap string pyval) : option Z :=
  py_int (default (PInt (DEFAULT_TIMEOUT cfg)) (site !! "timeout")).

Definition site_use_icmp (site : gmap string pyval) : bool :=
  py_bool (default (PBool (USE_ICMP_BY_DEFAULT cfg)) (site !! "use_icmp")).

Definition site_expected_status (site : gmap string pyval) : option Z :=
  py_int (default (PInt 200) (site !! "expected_status")).

Definition site_check_keyword (site : gmap string pyval) : bool :=
  py_bool (default (PBool (py_bool (default PNone (site !! "keyword"))))
                   (site !! "check_keyword")).

(** Mark slow if HTTP time exceeds threshold. A [Status] that is not a string
    would raise inside the [try], which the [except] discards. *)
Definition mark_slow (c : ctx) : ctx :=
  match results c !! "HTTP Time (ms)", results c !! "Status" with
  | Some t, Some (PStr s) =>
    if is_number t && py_gt t (RESPONSE_TIME_THRESHOLD cfg) then
      if startswith s "Up" then set_result "Status" (PStr "Up (Slow)") c else c
    else c
  | _, _ => c
  end.

Section Call.
(** The events before this call. *)
Variable past : list event.

(** [get_domain_expiry(hostname)], called after the events [tr] of the
    current call: [(expiry, days_left)] and the event of the lookup, if any. *)
Definition get_domain_expiry (tr : list event) (hostname : pyval)
  : (option datetime * pyval) * list event :=
  match whois_lookup w with
  | None => ((None, PStr "N/A"), [])
  | Some whois =>
    let out := whois (past ++ tr)%list hostname in
    let ev := [EvWhois hostname out] in
    match out with
    | WhoisEntry e =>
      let exp :=
        match e with
        | WList l => match exp_dates l with d :: _ => WDatetime d | [] => WNone end
        | WScalar v => v
        end in
      match exp with
      | WDatetime d =>
        let exp_utc := to_utc d in
        ((Some exp_utc, PInt (days_until exp_utc (now_utc w (past ++ tr ++ ev)%list))), ev)
      | _ => ((None, PStr "N/A"), ev)
      end
    | WhoisRaise => ((None, PStr "WHOIS Failed"), ev)
    end
  end.

(** DNS timing; returns the state and [ip_addr]. *)
Definition dns_probe (hostname : pyval) (c : ctx) : ctx * option string :=
  let failed c :=
    (set_result "DNS Time (ms)" (PStr "Failed") (add_note "DNS lookup failed. " c), None) in
  let out := resolve w (past ++ trace c)%list hostname in
  let c := emit (EvResolve hostname out) c in
  match out with
  | DnsAnswers elapsed answers =>
    let dns_time := round2 (float_mul elapsed 1000) in
    let c := set_result "DNS Time (ms)" (PFloat dns_time) c in
    match answers with
    | a :: _ => (c, Some a)
    | [] => failed c
    end
  | DnsRaise => failed c
  end.

(** ICMP ping (optional). *)
Definition icmp_probe (use_icmp : bool) (ip_addr : option string) (c : ctx) : ctx :=
  match ping_target use_icmp ip_addr with
  | Some ip =>
    let out := ping w (past ++ trace c)%list ip in
    let c := emit (EvPing ip out) c in
    match out with
    | PingHost true (Some rtt) => set_result "Ping (ms)" (PFloat (round2 rtt)) c
    | PingHost _ _ => set_result "Ping (ms)" (PStr "Failed") c
    | PingRaise => set_result "Ping (ms)" (PStr "Error") (add_note "ICMP ping failed. " c)
    end
  | None => set_result "Ping (ms)" (PStr "N/A") c
  end.

(** The keyword check inside the HTTP block. Calling [lower] on a keyword
    that is not a string raises, which the inner [except] turns into
    ["Error"]. *)
Definition keyword_check (site : gmap string pyval) (check_keyword_flag : bool)
    (r : response) (c : ctx) : ctx :=
  let keyword := default PNone (site !! "keyword") in
  if check_keyword_flag && py_bool keyword then
    match keyword with
    | PStr kw =>
      if str_in (str_lower kw) (str_lower (text r)) then
        set_result "Keyword Check" (PStr "Pass") c
      else
        add_note ("Keyword '" +:+ kw +:+ "' not found in content. ")
          (set_result "Keyword Check" (PStr "Fail") c)
    | _ => set_result "Keyword Check" (PStr "Error") c
    end
  else c.

(** HTTP request + keyword + redirects + content size. Only a
    [RequestException] is caught. *)
Definition http_probe (site : gmap string pyval) (name url : pyval)
    (timeout expected_status : Z) (check_keyword_flag : bool) (c : ctx) : attempt :=
  let out := http_get w (past ++ trace c)%list url timeout in
  let c := emit (EvGet url timeout out) c in
  match out with
  | HttpResponse r =>
    let http_ms := round2 (float_mul (float_total_seconds (elapsed_us r)) 1000) in
    let c := set_result "HTTP Time (ms)" (PFloat http_ms) c in
    let c := set_result "Redirects" (PInt (Z.of_nat (length (history r)))) c in
    let c := set_result "Content Size (KB)"
               (PFloat (round2 (float_div (inject_Z (Z.of_nat (String.length (content r))))
                                 1024))) c in
    let c :=
      if (status_code r =? expected_status)%Z then
        set_result "Status" (PStr "Up") c
      else
        let c := set_result "Status" (PStr (status_down (status_code r))) c in
        let c := add_note (status_note expected_status (status_code r) +:+ " ") c in
        send_email (alert_subject name)
          (body_status name url (status_code r)
             (strftime_local (clock w (past ++ trace c)%list))) c in
    Done (keyword_check site check_keyword_flag r c)
  | HttpRequestException e =>
    let c := set_result "Status" (PStr "Down (HTTP Error)") c in
    let c := add_note "HTTP request failed. " c in
    Done (send_email (alert_subject name)
            (body_error name url (strftime_local (clock w (past ++ trace c)%list)) e) c)
  | HttpOtherError => Escaped (trace c)
  end.

(** SSL check (attempt). *)
Definition ssl_probe (hostname : pyval) (c : ctx) : ctx :=
  let failed c :=
    set_result "SSL Days Left" (PStr "Failed") (add_note "SSL check failed. " c) in
  let out := tls_cert w (past ++ trace c)%list hostname in
  let c := emit (EvTls hostname out) c in
  match out with
  | TlsCert (Some not_after) =>
    match strptime_cert not_after with
    | Some expiry =>
      let expiry_utc := replace_utc expiry in
      let days_left := days_until expiry_utc (now_utc w (past ++ trace c)%list) in
      set_result "SSL Days Left" (PInt days_left)
        (set_result "SSL Expiry Date" (PStr (isoformat expiry_utc)) c)
    | None => failed c
    end
  | TlsCert None => failed c
  | TlsRaise => failed c
  end.

(** Domain (WHOIS) expiry. *)
Definition domain_probe (hostname : pyval) (c : ctx) : ctx :=
  let '((exp_dt, days_left_dom), evs) := get_domain_expiry (trace c) hostname in
  let c := Ctx (results c) (notes c) (trace c ++ evs)%list in
  let c :=
    match exp_dt with
    | Some d => set_result "Domain Expiry Date" (PStr (isoformat d)) c
    | None => c
    end in
  let c := set_result "Domain Days Left" days_left_dom c in
  if is_domain_sentinel days_left_dom then
    add_note ("Domain check failed: " +:+ py_format days_left_dom +:+ ". ") c
  else c.

(** The state before the HTTP block: the initial [results], then DNS and
    ICMP. *)
Definition before_http (site : gmap string pyval) : ctx :=
  let c := Ctx (init_results (site_name site) (site_url site)
                  (isoformat (now_utc w past))) "" [] in
  let '(c, ip_addr) := dns_probe (get_hostname (site_url site)) c in
  icmp_probe (site_use_icmp site) ip_addr c.

(** [check_site] from the reading of the configuration to the end of the
    HTTP block, for an enabled site. A value that [int] rejects raises before
    any probe. *)
Definition check_site_http (site : gmap string pyval) : attempt :=
  match site_timeout site with
  | None => Escaped []
  | Some timeout =>
    match site_expected_status site with
    | None => Escaped []
    | Some expected_status =>
      http_probe site (site_name site) (site_url site) timeout expected_status
        (site_check_keyword site) (before_http site)
    end
  end.

(** The rest of [check_site]: SSL, WHOIS, the slow mark and the final
    [Notes]. *)
Definition check_site_finish (site : gmap string pyval) (c : ctx) : ctx :=
  let hostname := get_hostname (site_url site) in
  let c := ssl_probe hostname c in
  let c := domain_probe hostname c in
  let c := mark_slow c in
  set_result "Notes" (PStr (strip (notes c))) c.

(** [check_site(site)] after the events [past]: what it returns and the
    events it adds. *)
Definition check_site (site : gmap string pyval) : returned * list event :=
  if negb (enabled site) then (RetNone, [])
  else
    match check_site_http site with
    | Done c =>
      let c := check_site_finish site c in
      (RetResults (results c), trace c)
    | Escaped evs => (Raised, evs)
    end.

End Call.

(** ** [run_checks_and_log] *)

(** The loop over [sites]: the rows collected and the events added. *)
Fixpoint check_all (past : list event) (sites : list (gmap string pyval))
    (rows : list (gmap string pyval)) : list (gmap string pyval) * list event :=
  match sites with
  | [] => (rows, past)
  | site :: rest =>
    match check_site past site with
    | (RetResults res, evs) => check_all (past ++ evs)%list rest (rows ++ [res])%list
    | (RetNone, evs) => check_all (past ++ evs)%list rest rows
    | (Raised, evs) => check_all (past ++ evs)%list rest rows
    end
  end.

Definition fieldnames : list string :=
  [ "DateTime"; "Website Name"; "URL"; "Status"; "Ping (ms)";
    "HTTP Time (ms)"; "DNS Time (ms)"; "Content Size (KB)"; "Redirects";
    "Keyword Check"; "SSL Days Left"; "SSL Expiry Date";
    "Domain Days Left"; "Domain Expiry Date"; "Notes" ]%list.

(** [csv.DictWriter.writerow]: the cells of a row in the order of
    [fieldnames]. *)
Definition csv_row (r : gmap string pyval) : list pyval :=
  map (fun k => default (PStr "") (r !! k)) fieldnames.

(** One round after the events [past], on a log file holding the rows [file]
    (empty when the file is missing or empty): the events after the round and
    the log file. *)
Definition run_checks_and_log (sites : list (gmap string pyval))
    (past : list event) (file : list (list pyval))
  : list event * list (list pyval) :=
  let '(rows, tr) := check_all past sites [] in
  match rows with
  | [] => (tr, file)
  | _ =>
    if log_writable w tr then
      let header := match file with [] => [map PStr fieldnames] | _ => [] end in
      (tr, (file ++ header ++ map csv_row rows)%list)
    else (tr, file)
  end.

End Backend.

Arguments check_site : simpl never.
Arguments check_site_http : simpl never.
Arguments check_site_finish : simpl never.
Arguments before_http : simpl never.
Arguments get_domain_expiry : simpl never.

(** ** What the statements about a call use *)

(** Whether the HTTP block calls [send_email]: after a [RequestException],
    and after a response whose code is not the expected one. *)
Definition alerting (o : http_outcome) (expected_status : Z) : bool :=
  match o with
  | HttpResponse r => negb (status_code r =? expected_status)%Z
  | HttpRequestException _ => true
  | HttpOtherError => false
  end.

Definition is_email (e : event) : bool :=
  match e with
  | EvEmail _ _ => true
  | _ => false
  end.

(** The log file as [run_checks_and_log] leaves it: empty, or the header
    line and then rows of fifteen cells, none of them the header. *)
Definition log_ok (file : list (list pyval)) : Prop :=
  match file with
  | [] => True
  | h :: rows =>
    h = map PStr fieldnames /\
    Forall (fun l => length l = 15%nat /\ l <> map PStr fieldnames) rows
  end.

(** ** The mail transport of [send_email] *)

(** [s.split(sep)] for a separator of one character. *)
Fixpoint split_on (sep : ascii) (s : string) : list string :=
  match s with
  | EmptyString => [EmptyString]
  | String a s' =>
    if Ascii.eqb a sep then EmptyString :: split_on sep s'
    else match split_on sep s' with
         | x :: r => String a x :: r
         | [] => [String a EmptyString]
         end
  end.

(** [sep.join(l)] *)
Fixpoint join (sep : string) (l : list string) : string :=
  match l with
  | [] => ""
  | [x] => x
  | x :: r => x +:+ sep +:+ join sep r
  end.

Module Mail.

(** The module-level e-mail configuration. *)
Record Config := {
  EMAIL_ENABLED : bool;
  EMAIL_SMTP : string;
  EMAIL_PORT : Z;
  EMAIL_USER : string;
  EMAIL_PASS : string;
  EMAIL_FROM : string;
  EMAIL_TO : list string
}.

(** The configuration read from the environment when the module is
    imported; [None] when [int] rejects [EMAIL_PORT]. *)
Definition load `{PyLib} (environ : gmap string string) : option Config :=
  let getenv k d := default d (environ !! k) in
  let enabled := str_lower (getenv "EMAIL_ENABLED" "false") in
  let port :=
    match environ !! "EMAIL_PORT" with
    | Some s => int_of_str s
    | None => Some 587%Z
    end in
  match port with
  | None => None
  | Some port =>
    let user := getenv "EMAIL_USER" "" in
    Some {| EMAIL_ENABLED :=
              String.eqb enabled "true" || String.eqb enabled "1" || String.eqb enabled "yes";
            EMAIL_SMTP := getenv "EMAIL_SMTP" "";
            EMAIL_PORT := port;
            EMAIL_USER := user;
            EMAIL_PASS := getenv "EMAIL_PASS" "";
            EMAIL_FROM := getenv "EMAIL_FROM" user;
            EMAIL_TO := split_on "," (getenv "EMAIL_TO" "") |}
  end.

(** [EMAIL_SMTP.split('?')[-1].split('=')[-1] if '?' in EMAIL_SMTP else
    EMAIL_SMTP] *)
Definition smtp_server (smtp : string) : string :=
  if str_in "?" smtp then
    List.last (split_on "=" (List.last (split_on "?" smtp) "")) ""
  else smtp.

(** How the server is reached: [SMTP_SSL], or [SMTP] followed by
    [starttls]. *)
Inductive connection :=
  | SMTP_SSL (host : string) (port : Z)
  | SMTP_starttls (host : string) (port : Z).

(** What [send_email] hands to [smtplib]: the connection, the login, the
    envelope and the message. *)
Record sending := {
  conn : connection;
  login_user : string;
  login_pass : string;
  from_addr : string;
  to_addrs : list string;
  msg_subject : string;
  msg_from : string;
  msg_to : string;
  msg_body : string
}.

(** [send_email(subject, body)]: [None] when the mail is skipped, otherwise
    the sending that is attempted; what [smtplib] raises is logged and goes
    no further. *)
Definition send_email (c : Config) (subject body : string) : option sending :=
  if negb (EMAIL_ENABLED c)
     || match EMAIL_TO c with [] => true | _ => false end
     || String.eqb (EMAIL_USER c) ""
     || String.eqb (EMAIL_PASS c) ""
  then None
  else
    let server := smtp_server (EMAIL_SMTP c) in
    Some {| conn := if str_in "gmail.com" server then SMTP_SSL "smtp.gmail.com" 465
                    else SMTP_starttls server (EMAIL_PORT c);
            login_user := EMAIL_USER c;
            login_pass := EMAIL_PASS c;
            from_addr := EMAIL_FROM c;
            to_addrs := EMAIL_TO c;
            msg_subject := subject;
            msg_from := EMAIL_FROM c;
            msg_to := join ", " (EMAIL_TO c);
            msg_body := body |}.

End Mail.

(** What [send_email] hands to [smtplib] for the calls recorded among the
    events, under the mail configuration [c]. *)
Definition sendings (c : Mail.Config) (evs : list event) : list Mail.sending :=
  omap (fun e => match e with
                 | EvEmail subject body => Mail.send_email c subject body
                 | _ => None
                 end) evs.

(** ** [monitor_loop] *)

(** [datetime.now()] at the top of an iteration is an input of the loop: a
    reading of the local wall clock, in microseconds. *)

(** [d.total_seconds()] of a [timedelta] of [us] microseconds. *)
Definition total_seconds (us : Z) : Q := us # 1000000.

(** [now.date()], as a number of days. *)
Definition date_of (now : Z) : Z := (now / us_per_day)%Z.

(** A [datetime.time] parsed with ["%H:%M"]. *)
Record time_of_day := Time { hour : Z; minute : Z }.

#[global] Instance time_of_day_eq_dec : EqDecision time_of_day.
Proof. solve_decision. Defined.

(** [now.replace(hour=t.hour, minute=t.minute, second=0, microsecond=0)] *)
Definition target_datetime (now : Z) (t : time_of_day) : Z :=
  (date_of now * us_per_day + (hour t * 3600 + minute t * 60) * 1000000)%Z.

(** [abs((now - target_datetime).total_seconds()) < 30] *)
Definition in_window (now : Z) (t : time_of_day) : bool :=
  Qltb (Qabs (total_seconds (now - target_datetime now t))) 30.

(** [last_run is None or last_run.date() != now.date()] *)
Definition not_run_today (last_run : option Z) (now : Z) : bool :=
  match last_run with
  | None => true
  | Some last => negb (date_of last =? date_of now)%Z
  end.

(** [last_run_time is None or
     (now - last_run_time).total_seconds() >= MONITOR_INTERVAL] *)
Definition interval_due (MONITOR_INTERVAL : Z) (last_run_time : option Z) (now : Z) : bool :=
  match last_run_time with
  | None => true
  | Some last => Qle_bool (inject_Z MONITOR_INTERVAL) (total_seconds (now - last))
  end.

(** The keys of the dict [{time_obj: None for time_obj in scheduled_times}],
    in insertion order: a time that comes again keeps its first place. *)
Fixpoint dict_keys (scheduled_times : list time_of_day) : list time_of_day :=
  match scheduled_times with
  | [] => []
  | t :: rest => t :: filter (fun t' => t' <> t) (dict_keys rest)
  end.

Section Loop.
(** What the rounds work on, and one round. *)
Context {state : Type}.
Variable round : state -> state.

(** The interval loop over the readings [nows], one for each iteration: the
    readings at which a round was started, then [last_run_time] and the
    state. *)
Fixpoint interval_loop (MONITOR_INTERVAL : Z) (last_run_time : option Z) (st : state)
    (nows : list Z) : list Z * (option Z * state) :=
  match nows with
  | [] => ([], (last_run_time, st))
  | now :: rest =>
    if interval_due MONITOR_INTERVAL last_run_time now then
      let '(ran, fin) := interval_loop MONITOR_INTERVAL (Some now) (round st) rest in
      (now :: ran, fin)
    else interval_loop MONITOR_INTERVAL last_run_time st rest
  end.

(** The [for] loop over [last_run_date_times.items()] at the reading [now]:
    the dict after it, the state, and the times whose round was run. The
    dict is its items in insertion order; assigning to a key that is there
    keeps the order. *)
Fixpoint scheduled_tick (now : Z) (items : list (time_of_day * option Z)) (st : state)
  : list (time_of_day * option Z) * state * list time_of_day :=
  match items with
  | [] => ([], st, [])
  | (scheduled_time, last_run) :: rest =>
    if in_window now scheduled_time && not_run_today last_run now then
      let '(items', st', ran) := scheduled_tick now rest (round st) in
      ((scheduled_time, Some now) :: items', st', scheduled_time :: ran)
    else
      let '(items', st', ran) := scheduled_tick now rest st in
      ((scheduled_time, last_run) :: items', st', ran)
  end.

(** The scheduled loop over the readings [nows]: the rounds that were run,
    each with its reading and its scheduled time, then the dict and the
    state. *)
Fixpoint scheduled_loop (items : list (time_of_day * option Z)) (st : state)
    (nows : list Z)
  : list (Z * time_of_day) * (list (time_of_day * option Z) * state) :=
  match nows with
  | [] => ([], (items, st))
  | now :: rest =>
    let '(items', st', ran) := scheduled_tick now items st in
    let '(runs, fin) := scheduled_loop items' st' rest in
    ((map (pair now) ran ++ runs)%list, fin)
  end.

End Loop.

Section MonitorLoop.
Context `{PyLib}.
Variable w : World.
Variable cfg : Settings.
Variable sites : list (gmap string pyval).

(** One round on the events so far and the log file. *)
Definition one_round (st : list event * list (list pyval))
  : list event * list (list pyval) :=
  run_checks_and_log w cfg sites st.1 st.2.

(** [monitor_loop()] in interval mode, for the first iterations. *)
Definition monitor_loop_interval (MONITOR_INTERVAL : Z) (nows : list Z)
    (past : list event) (file : list (list pyval)) :=
  interval_loop one_round MONITOR_INTERVAL None (past, file) nows.

(** [monitor_loop()] in scheduled mode, for the first iterations. *)
Definition monitor_loop_scheduled (scheduled_times : list time_of_day) (nows : list Z)
    (past : list event) (file : list (list pyval)) :=
  scheduled_loop one_round (map (fun t => (t, None)) (dict_keys scheduled_times))
    (past, file) nows.

End MonitorLoop.

(** ** Concrete inputs

    A small instance of the library functions, enough to run the model: it
    handles URLs of the form [scheme://netloc/path] and ASCII letters, reads
    decimal integers, and renders an instant as its count of microseconds. *)

Module Sample.

Fixpoint after_colon (s : string) : string :=
  match s with
  | EmptyString => EmptyString
  | String a s' => if Ascii.eqb a ":" then s' else after_colon s'
  end.

Fixpoint until_delim (s : string) : string :=
  match s with
  | EmptyString => EmptyString
  | String a s' =>
    if Ascii.eqb a "/" || Ascii.eqb a "?" || Ascii.eqb a "#" then EmptyString
    else String a (until_delim s')
  end.

Definition netloc (s : string) : string :=
  match after_colon s with
  | String "/" (String "/" r) => until_delim r
  | _ => EmptyString
  end.

Definition lower_ascii (a : ascii) : ascii :=
  let n := nat_of_ascii a in
  if ((65 <=? n) && (n <=? 90))%nat then ascii_of_nat (n + 32) else a.

Fixpoint lower (s : string) : string :=
  match s with
  | EmptyString => EmptyString
  | String a s' => String (lower_ascii a) (lower s')
  end.

Definition read_int (s : string) : option Z :=
  option_map Z.of_int (NilEmpty.int_of_string s).

#[local] Instance lib : PyLib := {|
  int_of_str := read_int;
  str_lower := lower;
  float_repr := fun q => str_of_Z (Qnum q) +:+ "/" +:+ str_of_Z (Z.pos (Qden q));
  urlparse_netloc := fun v => match v with PStr s => Some (netloc s) | _ => None end;
  isoformat := fun d => str_of_Z (dt_wall d);
  strptime_cert := fun s => option_map (fun z => DateTime z None) (read_int s);
  strftime_local := str_of_Z
|}.

(** A world that gives the same answer to every call of a kind. *)
Definition world (d : dns_outcome) (p : ping_outcome) (h : http_outcome)
    (t : tls_outcome) (wh : option whois_outcome) : World := {|
  clock := fun _ => 1700000000000000%Z;
  resolve := fun _ _ => d;
  ping := fun _ _ => p;
  http_get := fun _ _ _ => h;
  tls_cert := fun _ _ => t;
  whois_lookup := option_map (fun o _ _ => o) wh;
  log_writable := fun _ => true
|}.

Definition settings : Settings := {|
  DEFAULT_TIMEOUT := 10;
  USE_ICMP_BY_DEFAULT := true;
  RESPONSE_TIME_THRESHOLD := 3000
|}.

(** An enabled site with ICMP on, expecting 200. *)
Definition site : gmap string pyval :=
  <["name" := PStr "ORSAC"]>
  (<["url" := PStr "https://example.org/status"]>
  (<["enabled" := PBool true]>
  (<["use_icmp" := PBool true]>
  (<["expected_status" := PInt 200]> ∅)))).

(** The same site with a keyword to look for. *)
Definition site_kw : gmap string pyval :=
  <["keyword" := PStr "Odisha"]> (<["check_keyword" := PBool true]> site).

(** The same site, switched off. *)
Definition site_off : gmap string pyval := <["enabled" := PBool false]> site.

(** The same site with a timeout that is not a number. *)
Definition site_bad : gmap string pyval := <["timeout" := PStr "soon"]> site.

(** The mail configuration of an empty environment: mail is off. *)
Definition mail_off : Mail.Config := {|
  Mail.EMAIL_ENABLED := false;
  Mail.EMAIL_SMTP := "";
  Mail.EMAIL_PORT := 587;
  Mail.EMAIL_USER := "";
  Mail.EMAIL_PASS := "";
  Mail.EMAIL_FROM := "";
  Mail.EMAIL_TO := [""]
|}.

(** Mail switched on, with the server given as a query string. *)
Definition mail_on : Mail.Config := {|
  Mail.EMAIL_ENABLED := true;
  Mail.EMAIL_SMTP := "smtp://relay?server=smtp.gmail.com";
  Mail.EMAIL_PORT := 587;
  Mail.EMAIL_USER := "ops@example.org";
  Mail.EMAIL_PASS := "secret";
  Mail.EMAIL_FROM := "ops@example.org";
  Mail.EMAIL_TO := ["admin@example.org"]
|}.

(** An environment with mail switched on, without [EMAIL_TO]. *)
Definition environ : gmap string string :=
  <["EMAIL_ENABLED" := "true"]>
  (<["EMAIL_USER" := "ops@example.org"]>
  (<["EMAIL_PASS" := "secret"]> ∅)).

Definition dns_ok : dns_outcome := DnsAnswers (12 # 1000) ["93.184.216.34"].
Definition ping_ok : ping_outcome := PingHost true (Some (8125 # 1000)).

(** A response with the given code after the given microseconds. *)
Definition resp (code us : Z) : response := {|
  status_code := code;
  elapsed_us := us;
  history := [];
  content := "<html>ORSAC</html>";
  text := "<html>ORSAC</html>"
|}.

Definition whois_ok : whois_outcome :=
  WhoisEntry (WList [WNone; WText "2030"; WDatetime (DateTime 1900000000000000 None);
                     WDatetime (DateTime 1800000000000000 None)]).

(** Scenario A: everything answers, 200 after 50 ms. *)
Definition w_up : World :=
  world dns_ok ping_ok (HttpResponse (resp 200 50000))
    (TlsCert (Some "1701000000000000")) (Some whois_ok).

(** The same, after 5 s. *)
Definition w_slow : World :=
  world dns_ok ping_ok (HttpResponse (resp 200 5000000))
    (TlsCert (Some "1701000000000000")) (Some whois_ok).

(** Scenarios B, C and E: the name does not resolve, the server answers 503,
    and the [whois] module is missing. *)
Definition w_503 : World :=
  world DnsRaise ping_ok (HttpResponse (resp 503 50000)) TlsRaise None.

(** The request times out, the ping and the WHOIS lookup raise. *)
Definition w_error : World :=
  world dns_ok PingRaise (HttpRequestException "timed out") TlsRaise (Some WhoisRaise).

End Sample.

(** * Properties *)

(** ** Strings *)

Lemma append_cons (a : ascii) (s t : string) : String a s +:+ t = String a (s +:+ t).
Proof. reflexivity. Qed.

Lemma append_nil_l (s : string) : "" +:+ s = s.
Proof. reflexivity. Qed.

Lemma append_nil_r (s : string) : s +:+ "" = s.
Proof. induction s as [|a s IH]; [done | by rewrite append_cons, IH]. Qed.

Lemma append_assoc (a b c : string) : (a +:+ b) +:+ c = a +:+ (b +:+ c).
Proof. induction a as [|x a IH]; [done | by rewrite !append_cons, IH]. Qed.

Lemma list_of_append (a b : string) :
  list_ascii_of_string (a +:+ b) = (list_ascii_of_string a ++ list_ascii_of_string b)%list.
Proof. induction a as [|x a IH]; [done | by rewrite append_cons; simpl; rewrite IH]. Qed.

Lemma string_of_app (a b : list ascii) :
  string_of_list_ascii (a ++ b)%list = string_of_list_ascii a +:+ string_of_list_ascii b.
Proof. induction a as [|x a IH]; simpl; [done | by rewrite append_cons, IH]. Qed.

Lemma contains_app_r (x s n : string) : contains x s -> contains x (s +:+ n).
Proof.
  intros (a & b & ->). exists a, (b +:+ n).
  by rewrite !append_assoc.
Qed.

Lemma contains_app_l (x s n : string) : contains x s -> contains x (n +:+ s).
Proof.
  intros (a & b & ->). exists (n +:+ a), b.
  by rewrite !append_assoc.
Qed.

(** Stripping on the left keeps a part that starts with a visible
    character. *)
Lemma lstrip_l_keeps (a x b : list ascii) (c : ascii) (x' : list ascii) :
  x = c :: x' -> is_space c = false ->
  exists a', lstrip_l (a ++ x ++ b)%list = (a' ++ x ++ b)%list.
Proof.
  intros -> Hc. induction a as [|h a IH]; simpl.
  - rewrite Hc. by exists [].
  - destruct (is_space h); [exact IH | by exists (h :: a)].
Qed.

Lemma strip_l_keeps (a b m : list ascii) (c d : ascii) :
  is_space c = false -> is_space d = false ->
  exists a' b', strip_l (a ++ (c :: m ++ [d]) ++ b)%list = (a' ++ (c :: m ++ [d]) ++ b')%list.
Proof.
  intros Hc Hd. unfold strip_l.
  destruct (lstrip_l_keeps a (c :: m ++ [d]) b c (m ++ [d])%list eq_refl Hc) as [a' ->].
  assert (rev (a' ++ (c :: m ++ [d]) ++ b) = rev b ++ (d :: rev m ++ [c]) ++ rev a')%list
    as ->.
  { rewrite !rev_app_distr. simpl. rewrite rev_app_distr.
    by repeat (first [rewrite <- app_assoc | progress simpl]). }
  destruct (lstrip_l_keeps (rev b) (d :: rev m ++ [c]) (rev a') d (rev m ++ [c])%list
              eq_refl Hd) as [b' ->].
  exists a', (rev b').
  rewrite !rev_app_distr. simpl. rewrite !rev_app_distr, !rev_involutive.
  by repeat (first [rewrite <- app_assoc | progress simpl]).
Qed.

(** [strip] keeps every part that starts and ends with a visible
    character. *)
Lemma strip_contains (c d : ascii) (m s : string) :
  is_space c = false -> is_space d = false ->
  contains (String c (m +:+ String d "")) s ->
  contains (String c (m +:+ String d "")) (strip s).
Proof.
  intros Hc Hd (a & b & ->). unfold strip.
  rewrite !list_of_append. simpl. rewrite list_of_append. simpl.
  pose proof (strip_l_keeps (list_ascii_of_string a) (list_ascii_of_string b)
                (list_ascii_of_string m) c d Hc Hd) as (a' & b' & E).
  simpl in E. rewrite E.
  exists (string_of_list_ascii a'), (string_of_list_ascii b').
  rewrite string_of_app. simpl. rewrite !string_of_app. simpl.
  by rewrite string_of_list_ascii_of_string, !append_cons.
Qed.

(** A string that has a part with a character in it is not empty. *)
Lemma contains_nonempty (c : ascii) (m s : string) : contains (String c m) s -> s ≠ "".
Proof.
  intros (a & b & ->) E.
  destruct a; [rewrite append_nil_l, append_cons in E | rewrite append_cons in E];
    discriminate.
Qed.

Lemma concat_split (l1 l2 : list string) (n : string) :
  foldr String.append "" (l1 ++ n :: l2)%list
  = foldr String.append "" l1 +:+ n +:+ foldr String.append "" l2.
Proof.
  induction l1 as [|x l1 IH]; cbn [foldr app]; [done | by rewrite IH, append_assoc].
Qed.

(** A note that starts with a visible character and ends with a full stop
    and a space is kept, up to its full stop, when the notes are joined and
    stripped. *)
Lemma note_kept (l : list string) (c : ascii) (m : string) :
  is_space c = false ->
  String c (m +:+ ". ") ∈ l ->
  contains (String c (m +:+ ".")) (strip (foldr String.append "" l)).
Proof.
  intros Hc Hin. apply list_elem_of_split in Hin as (l1 & l2 & ->).
  rewrite concat_split. apply (strip_contains c "." m); [done | done |].
  exists (foldr String.append "" l1), (" " +:+ foldr String.append "" l2).
  f_equal. rewrite !append_cons. f_equal. by rewrite !append_assoc.
Qed.

(** Joined notes strip to the empty string only when every note is
    empty. *)
Lemma notes_all_empty (l : list string) :
  Forall (fun n => n = "" \/
                   exists c m, is_space c = false /\ n = String c (m +:+ ". ")) l ->
  strip (foldr String.append "" l) = "" ->
  Forall (fun n => n = "") l.
Proof.
  intros Hall E. apply Forall_forall. intros n Hin.
  destruct (proj1 (Forall_forall _ _) Hall n Hin) as [-> | (c & m & Hc & ->)]; [done |].
  exfalso. by apply (contains_nonempty c (m +:+ ".") _ (note_kept l c m Hc Hin)).
Qed.

(** ** Numbers *)

Lemma Qltb_lt (a b : Q) : Qltb a b = true <-> (a < b)%Q.
Proof.
  unfold Qltb. rewrite negb_true_iff, <- not_true_iff_false, Qle_bool_iff.
  split; [apply Qnot_le_lt | apply Qlt_not_le].
Qed.

Lemma round_half_even_nonneg (x : Q) : (0 <= x)%Q -> (0 <= round_half_even x)%Z.
Proof.
  intros Hx. unfold round_half_even.
  assert (0 <= Qfloor x)%Z as Hf.
  { change 0%Z with (Qfloor (inject_Z 0)). by apply Qfloor_resp_le. }
  repeat case_match; lia.
Qed.

Lemma round2_nonneg (x : Q) : (0 <= x)%Q -> (0 <= round2 x)%Q.
Proof.
  intros Hx. unfold round2. rewrite Qred_correct.
  assert (0 <= round_half_even (x * 100))%Z as Hr.
  { apply round_half_even_nonneg.
    apply Qmult_le_0_compat; [done | by compute]. }
  unfold Qle. simpl. lia.
Qed.

(** Rounding to a float keeps the sign. *)
Lemma to_double_nonneg (q : Q) : (0 <= q)%Q -> (0 <= to_double q)%Q.
Proof.
  intros Hq. unfold to_double. destruct (Qnum q); [done | |];
    rewrite Qred_correct; rewrite (proj2 (Qle_bool_iff 0 q) Hq);
    (apply Qmult_le_0_compat; [| by apply Qpower_0_le]);
    change 0%Q with (inject_Z 0); rewrite <- Zle_Qle;
    apply round_half_even_nonneg, Qle_shift_div_l;
      [by apply Qpower_0_lt | | by apply Qpower_0_lt |];
      rewrite Qmult_0_l; apply Qabs_nonneg.
Qed.

(** The milliseconds of a [timedelta] that is not negative are not
    negative. *)
Lemma elapsed_ms_nonneg (us : Z) :
  (0 <= us)%Z -> (0 <= float_mul (float_total_seconds us) 1000)%Q.
Proof.
  intros Hus. unfold float_mul, float_total_seconds, float_div.
  apply to_double_nonneg, Qmult_le_0_compat; [| done].
  apply to_double_nonneg. unfold Qle, Qdiv, Qmult. simpl. lia.
Qed.

(** The days left are negative exactly when the expiry is in the past. *)
Lemma days_until_neg (a b : datetime) :
  (days_until a b < 0)%Z <-> (dt_wall a < dt_wall b)%Z.
Proof.
  unfold days_until, us_per_day. split; intros Hlt.
  - destruct (Z_lt_le_dec (dt_wall a) (dt_wall b)) as [? | Hle]; [done |].
    assert (0 <= (dt_wall a - dt_wall b) / 86400000000)%Z by (apply Z.div_pos; lia).
    lia.
  - apply Z.div_lt_upper_bound; lia.
Qed.

(** ** The probes, one at a time *)

Ltac look := repeat first [ rewrite lookup_insert_eq | rewrite lookup_insert_ne by done ].

Section Probes.
Context `{PyLib}.
Variable w : World.
Variable cfg : Settings.
Variable past : list event.

(** *** DNS *)

Lemma dns_results (h : pyval) (c : ctx) (k : string) :
  k ≠ "DNS Time (ms)" -> results (dns_probe w past h c).1 !! k = results c !! k.
Proof. intros Hk. unfold dns_probe. repeat case_match; simpl; by look. Qed.

Lemma dns_trace (h : pyval) (c : ctx) :
  trace (dns_probe w past h c).1
  = (trace c ++ [EvResolve h (resolve w (past ++ trace c) h)])%list.
Proof. unfold dns_probe. by repeat case_match. Qed.

Lemma dns_ip (h : pyval) (c : ctx) :
  (dns_probe w past h c).2 = first_answer (resolve w (past ++ trace c) h).
Proof. unfold dns_probe. by repeat case_match. Qed.

(** *** ICMP *)

Lemma icmp_results (u : bool) (ip : option string) (c : ctx) (k : string) :
  k ≠ "Ping (ms)" -> results (icmp_probe w past u ip c) !! k = results c !! k.
Proof. intros Hk. unfold icmp_probe. repeat case_match; simpl; by look. Qed.

(** Without ICMP, or without an address, nothing is sent. *)
Lemma icmp_skipped (u : bool) (ip : option string) (c : ctx) :
  ping_target u ip = None ->
  trace (icmp_probe w past u ip c) = trace c /\
  results (icmp_probe w past u ip c) !! "Ping (ms)" = Some (PStr "N/A").
Proof. intros E. unfold icmp_probe. rewrite E. simpl. by look. Qed.

(** With ICMP and an address, one ping is sent, and its outcome decides the
    field. *)
Lemma icmp_sent (u : bool) (ip : option string) (c : ctx) (a : string) :
  ping_target u ip = Some a ->
  let out := ping w (past ++ trace c) a in
  let c' := icmp_probe w past u ip c in
  trace c' = (trace c ++ [EvPing a out])%list /\
  match out with
  | PingHost true (Some rtt) => results c' !! "Ping (ms)" = Some (PFloat (round2 rtt))
  | PingHost _ _ => results c' !! "Ping (ms)" = Some (PStr "Failed")
  | PingRaise =>
    results c' !! "Ping (ms)" = Some (PStr "Error") /\
    notes c' = notes c +:+ "ICMP ping failed. "
  end.
Proof.
  intros E. unfold icmp_probe. rewrite E. simpl.
  destruct (ping w (past ++ trace c) a) as [[] []|]; simpl; by look.
Qed.

(** *** HTTP *)

Lemma keyword_results (site : gmap string pyval) (f : bool) (r : response) (c : ctx)
    (k : string) :
  k ≠ "Keyword Check" -> results (keyword_check site f r c) !! k = results c !! k.
Proof. intros Hk. unfold keyword_check. repeat case_match; simpl; by look. Qed.

Lemma keyword_trace (site : gmap string pyval) (f : bool) (r : response) (c : ctx) :
  trace (keyword_check site f r c) = trace c.
Proof. unfold keyword_check. by repeat case_match. Qed.

Lemma keyword_notes (site : gmap string pyval) (f : bool) (r : response) (c : ctx) :
  exists n, notes (keyword_check site f r c) = notes c +:+ n.
Proof.
  unfold keyword_check. repeat case_match; simpl;
    first [ by exists ""; rewrite append_nil_r | by eexists ].
Qed.

(** The request returned a response. *)
Lemma http_response (site : gmap string pyval) (name url : pyval) (t x : Z) (f : bool)
    (c : ctx) (r : response) :
  http_get w (past ++ trace c) url t = HttpResponse r ->
  exists c',
    http_probe w past site name url t x f c = Done c' /\
    results c' !! "HTTP Time (ms)"
      = Some (PFloat (round2 (float_mul (float_total_seconds (elapsed_us r)) 1000))) /\
    results c' !! "Redirects" = Some (PInt (Z.of_nat (length (history r)))) /\
    results c' !! "Status"
      = Some (PStr (if (status_code r =? x)%Z then "Up" else status_down (status_code r))) /\
    (forall k, k ∉ [ "HTTP Time (ms)"; "Redirects"; "Content Size (KB)"; "Status";
                     "Keyword Check" ]%list ->
               results c' !! k = results c !! k) /\
    (exists n, notes c' = notes c +:+ n) /\
    ((status_code r =? x)%Z = false ->
       exists n, notes c' = notes c +:+ status_note x (status_code r) +:+ " " +:+ n) /\
    exists mails,
      trace c' = (trace c ++ EvGet url t (HttpResponse r) :: mails)%list /\
      mails = (if (status_code r =? x)%Z then []
               else [EvEmail (alert_subject name)
                       (body_status name url (status_code r)
                          (strftime_local
                             (clock w (past ++ trace c ++ [EvGet url t (HttpResponse r)]))))])%list.
Proof.
  intros E. unfold http_probe. rewrite E. eexists. split; [done |].
  split_and!.
  - rewrite keyword_results by done. case_match; simpl; by look.
  - rewrite keyword_results by done. case_match; simpl; by look.
  - rewrite keyword_results by done. case_match; simpl; by look.
  - intros k Hk. rewrite !not_elem_of_cons in Hk. destruct Hk as (?&?&?&?&?&_).
    rewrite keyword_results by done. case_match; simpl; by look.
  - match goal with |- context [keyword_check site f r ?c0] =>
      destruct (keyword_notes site f r c0) as [n ->] end.
    case_match; simpl; [by eexists |].
    eexists. by rewrite append_assoc.
  - intros Hne. rewrite Hne.
    match goal with |- context [keyword_check site f r ?c0] =>
      destruct (keyword_notes site f r c0) as [n ->] end.
    simpl. exists n. by rewrite !append_assoc.
  - eexists. split; [| done].
    rewrite keyword_trace. case_match; simpl; [done |].
    by rewrite <- app_assoc.
Qed.

(** The request raised a [RequestException]. *)
Lemma http_request_exception (site : gmap string pyval) (name url : pyval) (t x : Z)
    (f : bool) (c : ctx) (e : string) :
  http_get w (past ++ trace c) url t = HttpRequestException e ->
  exists c' body,
    http_probe w past site name url t x f c = Done c' /\
    results c' = <["Status" := PStr "Down (HTTP Error)"]> (results c) /\
    notes c' = notes c +:+ "HTTP request failed. " /\
    trace c' = (trace c ++ [EvGet url t (HttpRequestException e);
                            EvEmail (alert_subject name) body])%list.
Proof.
  intros E. unfold http_probe. rewrite E. do 2 eexists. split; [done |].
  simpl. split_and!; [done .. |]. by rewrite <- app_assoc.
Qed.

(** The request raised something else: the exception leaves [check_site]. *)
Lemma http_other_error (site : gmap string pyval) (name url : pyval) (t x : Z)
    (f : bool) (c : ctx) :
  http_get w (past ++ trace c) url t = HttpOtherError ->
  http_probe w past site name url t x f c
  = Escaped (trace c ++ [EvGet url t HttpOtherError]).
Proof. intros E. unfold http_probe. by rewrite E. Qed.

(** *** SSL *)

Lemma ssl_results (h : pyval) (c : ctx) (k : string) :
  k ≠ "SSL Days Left" -> k ≠ "SSL Expiry Date" ->
  results (ssl_probe w past h c) !! k = results c !! k.
Proof. intros ??. unfold ssl_probe. repeat case_match; simpl; by look. Qed.

Lemma ssl_trace (h : pyval) (c : ctx) :
  trace (ssl_probe w past h c)
  = (trace c ++ [EvTls h (tls_cert w (past ++ trace c) h)])%list.
Proof. unfold ssl_probe. by repeat case_match. Qed.

Lemma ssl_notes (h : pyval) (c : ctx) :
  exists n, notes (ssl_probe w past h c) = notes c +:+ n.
Proof.
  unfold ssl_probe. repeat case_match; simpl;
    first [ by exists ""; rewrite append_nil_r | by eexists ].
Qed.

(** *** WHOIS *)

Lemma exp_dates_first (l : list whois_val) : head (exp_dates l) = first_datetime l.
Proof.
  unfold exp_dates. induction l as [|[] l IH]; simpl; done.
Qed.

(** The three outcomes of [get_domain_expiry] when the [whois] module was
    imported, and the single event it adds. *)
Lemma get_domain_expiry_available (whois : list event -> pyval -> whois_outcome)
    (tr : list event) (h : pyval) :
  whois_lookup w = Some whois ->
  let out := whois (past ++ tr)%list h in
  get_domain_expiry w past tr h =
  (match out with
   | WhoisEntry e =>
     match usable_date e with
     | Some d =>
       (Some (to_utc d),
        PInt (days_until (to_utc d) (now_utc w (past ++ tr ++ [EvWhois h out])%list)))
     | None => (None, PStr "N/A")
     end
   | WhoisRaise => (None, PStr "WHOIS Failed")
   end, [EvWhois h out]).
Proof.
  intros E. unfold get_domain_expiry. rewrite E. simpl.
  destruct (whois (past ++ tr)%list h) as [[[]|l]|]; simpl; try done.
  rewrite <- exp_dates_first. by destruct (exp_dates l).
Qed.

(** Without the module there is no lookup at all. *)
Lemma get_domain_expiry_unavailable (tr : list event) (h : pyval) :
  whois_lookup w = None ->
  get_domain_expiry w past tr h = ((None, PStr "N/A"), []).
Proof. intros E. unfold get_domain_expiry. by rewrite E. Qed.

Lemma domain_results (h : pyval) (c : ctx) (k : string) :
  k ≠ "Domain Days Left" -> k ≠ "Domain Expiry Date" ->
  results (domain_probe w past h c) !! k = results c !! k.
Proof.
  intros ??. unfold domain_probe.
  destruct (get_domain_expiry w past (trace c) h) as [[[d|] v] evs];
    repeat case_match; simpl; by look.
Qed.

Lemma domain_trace (h : pyval) (c : ctx) :
  trace (domain_probe w past h c)
  = (trace c ++ (get_domain_expiry w past (trace c) h).2)%list.
Proof.
  unfold domain_probe.
  destruct (get_domain_expiry w past (trace c) h) as [[[d|] v] evs];
    by repeat case_match.
Qed.

Lemma domain_notes (h : pyval) (c : ctx) :
  exists n, notes (domain_probe w past h c) = notes c +:+ n.
Proof.
  unfold domain_probe.
  destruct (get_domain_expiry w past (trace c) h) as [[[d|] v] evs];
    repeat case_match; simpl;
    first [ by exists ""; rewrite append_nil_r | by eexists ].
Qed.

(** The two fields the probe writes. *)
Lemma domain_fields (h : pyval) (c : ctx) :
  let '(exp_dt, days_left, _) := get_domain_expiry w past (trace c) h in
  results (domain_probe w past h c) !! "Domain Days Left" = Some days_left /\
  results (domain_probe w past h c) !! "Domain Expiry Date"
  = match exp_dt with
    | Some d => Some (PStr (isoformat d))
    | None => results c !! "Domain Expiry Date"
    end.
Proof.
  unfold domain_probe.
  destruct (get_domain_expiry w past (trace c) h) as [[[d|] v] evs];
    repeat case_match; simpl; by look.
Qed.

(** *** The slow mark *)

Lemma mark_slow_results (c : ctx) (k : string) :
  k ≠ "Status" -> results (mark_slow cfg c) !! k = results c !! k.
Proof. intros ?. unfold mark_slow. repeat case_match; simpl; by look. Qed.

Lemma mark_slow_trace (c : ctx) : trace (mark_slow cfg c) = trace c.
Proof. unfold mark_slow. by repeat case_match. Qed.

Lemma mark_slow_notes (c : ctx) : notes (mark_slow cfg c) = notes c.
Proof. unfold mark_slow. by repeat case_match. Qed.

(** A measured time: the status becomes ["Up (Slow)"] exactly when it began
    with ["Up"] and the time is above the threshold. *)
Lemma mark_slow_measured (c : ctx) (q : Q) (s : string) :
  results c !! "HTTP Time (ms)" = Some (PFloat q) ->
  results c !! "Status" = Some (PStr s) ->
  results (mark_slow cfg c) !! "Status"
  = Some (PStr (if Qltb (RESPONSE_TIME_THRESHOLD cfg) q && startswith s "Up"
                then "Up (Slow)" else s)).
Proof.
  intros Ht Hs. unfold mark_slow. rewrite Ht, Hs. simpl.
  destruct (Qltb _ q), (startswith s "Up"); simpl; by look.
Qed.

(** A sentinel string in place of the time: the status is left alone. *)
Lemma mark_slow_sentinel (c : ctx) (t : string) :
  results c !! "HTTP Time (ms)" = Some (PStr t) ->
  results (mark_slow cfg c) !! "Status" = results c !! "Status".
Proof. intros Ht. unfold mark_slow. rewrite Ht. by repeat case_match. Qed.

(** ** The blocks of [check_site] *)

(** *** Before the HTTP block *)

Lemma before_http_results (site : gmap string pyval) (k : string) :
  k ≠ "DNS Time (ms)" -> k ≠ "Ping (ms)" ->
  results (before_http w cfg past site) !! k
  = init_results (site_name site) (site_url site) (isoformat (now_utc w past)) !! k.
Proof.
  intros ??. unfold before_http.
  match goal with |- context [dns_probe w past ?h ?c] =>
    pose proof (dns_results h c k) as Hd;
    destruct (dns_probe w past h c) as [c1 ip] end.
  rewrite icmp_results by done. by apply Hd.
Qed.

(** The events before the request: the resolution, then the ping if there is
    one. *)
Lemma before_http_trace (site : gmap string pyval) :
  let host := get_hostname (site_url site) in
  let dout := resolve w past host in
  trace (before_http w cfg past site)
  = (EvResolve host dout ::
     match ping_target (site_use_icmp cfg site) (first_answer dout) with
     | Some a => [EvPing a (ping w (past ++ [EvResolve host dout]) a)]
     | None => []
     end)%list.
Proof.
  simpl. unfold before_http.
  match goal with |- context [dns_probe w past ?h ?c] =>
    pose proof (dns_trace h c) as Ht;
    pose proof (dns_ip h c) as Hi;
    destruct (dns_probe w past h c) as [c1 ip] end.
  simpl in Ht, Hi. rewrite app_nil_r in Ht, Hi. subst ip.
  destruct (ping_target _ _) as [a|] eqn:E.
  - destruct (icmp_sent _ _ c1 a E) as [-> _]. by rewrite Ht.
  - destruct (icmp_skipped _ _ c1 E) as [-> _]. by rewrite Ht.
Qed.

(** The [Ping (ms)] field before the request, and the note of a ping that
    raised. *)
Lemma before_http_ping (site : gmap string pyval) :
  let host := get_hostname (site_url site) in
  let dout := resolve w past host in
  let c := before_http w cfg past site in
  match ping_target (site_use_icmp cfg site) (first_answer dout) with
  | None => results c !! "Ping (ms)" = Some (PStr "N/A")
  | Some a =>
    match ping w (past ++ [EvResolve host dout]) a with
    | PingHost true (Some rtt) => results c !! "Ping (ms)" = Some (PFloat (round2 rtt))
    | PingHost _ _ => results c !! "Ping (ms)" = Some (PStr "Failed")
    | PingRaise =>
      results c !! "Ping (ms)" = Some (PStr "Error") /\
      contains "ICMP ping failed." (notes c)
    end
  end.
Proof.
  simpl. unfold before_http.
  match goal with |- context [dns_probe w past ?h ?c] =>
    pose proof (dns_trace h c) as Ht;
    pose proof (dns_ip h c) as Hi;
    destruct (dns_probe w past h c) as [c1 ip] end.
  simpl in Ht, Hi. rewrite app_nil_r in Ht, Hi. subst ip.
  destruct (ping_target _ _) as [a|] eqn:E.
  - destruct (icmp_sent _ _ c1 a E) as [_ Hp]. rewrite Ht in Hp.
    destruct (ping w _ a) as [[] []|]; try done.
    destruct Hp as [-> ->]. split; [done |].
    apply contains_app_l. exists "", " ". by rewrite append_nil_l.
  - by destruct (icmp_skipped _ _ c1 E) as [_ ->].
Qed.

(** *** After the HTTP block *)

Lemma finish_results (site : gmap string pyval) (c : ctx) (k : string) :
  k ≠ "SSL Days Left" -> k ≠ "SSL Expiry Date" -> k ≠ "Domain Days Left" ->
  k ≠ "Domain Expiry Date" -> k ≠ "Status" -> k ≠ "Notes" ->
  results (check_site_finish w cfg past site c) !! k = results c !! k.
Proof.
  intros ??????. unfold check_site_finish. simpl. look.
  by rewrite mark_slow_results, domain_results, ssl_results.
Qed.

Lemma finish_status_measured (site : gmap string pyval) (c : ctx) (q : Q) (s : string) :
  results c !! "HTTP Time (ms)" = Some (PFloat q) ->
  results c !! "Status" = Some (PStr s) ->
  results (check_site_finish w cfg past site c) !! "Status"
  = Some (PStr (if Qltb (RESPONSE_TIME_THRESHOLD cfg) q && startswith s "Up"
                then "Up (Slow)" else s)).
Proof.
  intros Ht Hs. unfold check_site_finish. simpl. look.
  apply mark_slow_measured; by rewrite domain_results, ssl_results.
Qed.

Lemma finish_status_sentinel (site : gmap string pyval) (c : ctx) (t : string) :
  results c !! "HTTP Time (ms)" = Some (PStr t) ->
  results (check_site_finish w cfg past site c) !! "Status" = results c !! "Status".
Proof.
  intros Ht. unfold check_site_finish. simpl. look.
  rewrite (mark_slow_sentinel _ t) by (by rewrite domain_results, ssl_results).
  by rewrite domain_results, ssl_results.
Qed.

(** The final [Notes]: the accumulated notes, with what the SSL and WHOIS
    checks add, stripped. *)
Lemma finish_notes (site : gmap string pyval) (c : ctx) :
  exists n,
    results (check_site_finish w cfg past site c) !! "Notes"
    = Some (PStr (strip (notes c +:+ n))).
Proof.
  unfold check_site_finish. simpl. look. rewrite mark_slow_notes.
  match goal with |- context [domain_probe w past ?h ?c0] =>
    destruct (domain_notes h c0) as [n2 ->] end.
  match goal with |- context [ssl_probe w past ?h ?c0] =>
    destruct (ssl_notes h c0) as [n1 ->] end.
  exists (n1 +:+ n2). by rewrite append_assoc.
Qed.

(** A note that starts and ends with a visible character and was added
    before the end of the HTTP block is in the final [Notes]. *)
Lemma finish_keeps_note (site : gmap string pyval) (c : ctx) (a d : ascii) (m : string) :
  is_space a = false -> is_space d = false ->
  contains (String a (m +:+ String d "")) (notes c) ->
  exists n,
    results (check_site_finish w cfg past site c) !! "Notes" = Some (PStr n) /\
    contains (String a (m +:+ String d "")) n.
Proof.
  intros Ha Hd Hc. destruct (finish_notes site c) as [n ->].
  eexists. split; [done |].
  apply strip_contains; [done .. |]. by apply contains_app_r.
Qed.

(** The events after the request: the TLS handshake, then the WHOIS lookup
    if the module is there. *)
Lemma finish_trace (site : gmap string pyval) (c : ctx) :
  let host := get_hostname (site_url site) in
  let tout := tls_cert w (past ++ trace c) host in
  trace (check_site_finish w cfg past site c)
  = (trace c ++ EvTls host tout ::
       (get_domain_expiry w past (trace c ++ [EvTls host tout]) host).2)%list.
Proof.
  simpl. unfold check_site_finish. simpl.
  rewrite mark_slow_trace, domain_trace, ssl_trace.
  by rewrite <- app_assoc.
Qed.

(** The two WHOIS fields of the record, when the fields were still at their
    initial value before the probe. *)
Lemma finish_domain (site : gmap string pyval) (c : ctx) :
  let host := get_hostname (site_url site) in
  let tout := tls_cert w (past ++ trace c) host in
  let '(exp_dt, days_left, _) :=
    get_domain_expiry w past (trace c ++ [EvTls host tout]) host in
  results (check_site_finish w cfg past site c) !! "Domain Days Left" = Some days_left /\
  results (check_site_finish w cfg past site c) !! "Domain Expiry Date"
  = match exp_dt with
    | Some d => Some (PStr (isoformat d))
    | None => results c !! "Domain Expiry Date"
    end.
Proof.
  simpl. unfold check_site_finish. simpl. look. rewrite !mark_slow_results by done.
  match goal with |- context [domain_probe w past ?h ?c0] =>
    pose proof (domain_fields h c0) as Hf end.
  rewrite ssl_trace in Hf.
  destruct (get_domain_expiry _ _ _ _) as [[exp_dt days_left] evs].
  destruct Hf as [-> ->]. split; [done |].
  destruct exp_dt; [done |]. by rewrite ssl_results.
Qed.

(** ** One call of [check_site] *)

Lemma check_site_cases (site : gmap string pyval) :
  check_site w cfg past site =
  if enabled site then
    match site_timeout cfg site, site_expected_status site with
    | Some t, Some x =>
      match http_probe w past site (site_name site) (site_url site) t x
              (site_check_keyword site) (before_http w cfg past site) with
      | Done c =>
        (RetResults (results (check_site_finish w cfg past site c)),
         trace (check_site_finish w cfg past site c))
      | Escaped evs => (Raised, evs)
      end
    | _, _ => (Raised, [])
    end
  else (RetNone, []).
Proof.
  unfold check_site, check_site_http.
  destruct (enabled site); cbn [negb]; [| done].
  destruct (site_timeout cfg site); [| done].
  by destruct (site_expected_status site).
Qed.

(** No request is sent before the HTTP block. *)
Lemma before_http_no_get (site : gmap string pyval) (u : pyval) (t : Z) (o : http_outcome) :
  EvGet u t o ∉ trace (before_http w cfg past site).
Proof.
  rewrite before_http_trace. intros Hin.
  apply elem_of_cons in Hin as [? | Hin]; [done |].
  destruct (ping_target _ _).
  - apply elem_of_cons in Hin as [? | Hin]; [done |]. by apply elem_of_nil in Hin.
  - by apply elem_of_nil in Hin.
Qed.

(** [get_domain_expiry] adds nothing but its lookup. *)
Lemma get_domain_expiry_events (tr : list event) (h : pyval) (e : event) :
  e ∈ (get_domain_expiry w past tr h).2 ->
  exists whois, whois_lookup w = Some whois /\ e = EvWhois h (whois (past ++ tr)%list h).
Proof.
  destruct (whois_lookup w) as [whois|] eqn:E.
  - rewrite (get_domain_expiry_available whois tr h E). simpl.
    intros Hin. apply elem_of_cons in Hin as [-> | Hin]; [by exists whois |].
    by apply elem_of_nil in Hin.
  - rewrite (get_domain_expiry_unavailable tr h E). simpl.
    intros Hin. by apply elem_of_nil in Hin.
Qed.

(** No request is sent after the HTTP block. *)
Lemma finish_get (site : gmap string pyval) (c : ctx) (u : pyval) (t : Z)
    (o : http_outcome) :
  EvGet u t o ∈ trace (check_site_finish w cfg past site c) -> EvGet u t o ∈ trace c.
Proof.
  rewrite finish_trace. intros Hin.
  apply elem_of_app in Hin as [Hin | Hin]; [done |].
  apply elem_of_cons in Hin as [? | Hin]; [done |].
  by apply get_domain_expiry_events in Hin as (? & _ & ?).
Qed.

Lemma finish_keeps_events (site : gmap string pyval) (c : ctx) (e : event) :
  e ∈ trace c -> e ∈ trace (check_site_finish w cfg past site c).
Proof. intros Hin. rewrite finish_trace. apply elem_of_app. by left. Qed.

(** A call sends at most one request: the one of its HTTP block. *)
Lemma check_site_get (site : gmap string pyval) (ret : returned) (evs : list event)
    (u : pyval) (t : Z) (o : http_outcome) :
  check_site w cfg past site = (ret, evs) ->
  EvGet u t o ∈ evs ->
  enabled site = true /\
  u = site_url site /\
  site_timeout cfg site = Some t /\
  (exists x, site_expected_status site = Some x) /\
  o = http_get w (past ++ trace (before_http w cfg past site)) u t.
Proof.
  rewrite check_site_cases. intros Hrun Hin.
  destruct (enabled site); [| injection Hrun as <- <-; by apply elem_of_nil in Hin].
  destruct (site_timeout cfg site) as [t'|];
    [| injection Hrun as <- <-; by apply elem_of_nil in Hin].
  destruct (site_expected_status site) as [x|];
    [| injection Hrun as <- <-; by apply elem_of_nil in Hin].
  assert (EvGet u t o ∈
            (trace (before_http w cfg past site) ++
             [EvGet (site_url site) t'
                (http_get w (past ++ trace (before_http w cfg past site))
                   (site_url site) t')])%list) as Hin'.
  { destruct (http_get w (past ++ trace (before_http w cfg past site)) (site_url site) t')
      as [r | e |] eqn:E.
    - destruct (http_response site (site_name site) _ t' x (site_check_keyword site) _ r E)
        as (c & Hc & _ & _ & _ & _ & _ & _ & mails & Ht & Hm).
      rewrite Hc in Hrun. apply pair_equal_spec in Hrun as [<- <-].
      apply finish_get in Hin. rewrite Ht in Hin.
      apply elem_of_app in Hin as [Hin | Hin]; apply elem_of_app; [by left |].
      apply elem_of_cons in Hin as [-> | Hin]; [right; by apply list_elem_of_singleton |].
      subst mails. destruct (status_code r =? x)%Z.
      + by apply elem_of_nil in Hin.
      + apply elem_of_cons in Hin as [? | Hin]; [done |]. by apply elem_of_nil in Hin.
    - destruct (http_request_exception site (site_name site) _ t' x
                  (site_check_keyword site) _ e E) as (c & body & Hc & _ & _ & Ht).
      rewrite Hc in Hrun. apply pair_equal_spec in Hrun as [<- <-].
      apply finish_get in Hin. rewrite Ht in Hin.
      apply elem_of_app in Hin as [Hin | Hin]; apply elem_of_app; [by left |].
      apply elem_of_cons in Hin as [-> | Hin]; [right; by apply list_elem_of_singleton |].
      apply elem_of_cons in Hin as [? | Hin]; [done |]. by apply elem_of_nil in Hin.
    - rewrite (http_other_error site (site_name site) _ t' x (site_check_keyword site) _ E)
        in Hrun.
      by injection Hrun as <- <-. }
  apply elem_of_app in Hin' as [Hin' | Hin']; [by apply before_http_no_get in Hin' |].
  apply list_elem_of_singleton in Hin'. injection Hin' as -> -> ->.
  split_and!; by eauto.
Qed.

(** The fields that DNS and ICMP leave at their initial value. *)
Lemma before_http_initial (site : gmap string pyval) :
  let c := before_http w cfg past site in
  results c !! "Status" = Some (PStr "Down") /\
  results c !! "HTTP Time (ms)" = Some (PStr "Failed") /\
  results c !! "Redirects" = Some (PInt 0) /\
  results c !! "Keyword Check" = Some (PStr "Skipped") /\
  results c !! "Domain Days Left" = Some (PStr "N/A") /\
  results c !! "Domain Expiry Date" = Some (PStr "N/A").
Proof.
  simpl. rewrite !before_http_results by done.
  unfold init_results. split_and!; by look.
Qed.

(** A call that returns a record went through the HTTP block, and its
    request did not raise past the [except]. *)
Lemma run_record (site : gmap string pyval) (res : gmap string pyval) (evs : list event) :
  check_site w cfg past site = (RetResults res, evs) ->
  exists t x c,
    site_timeout cfg site = Some t /\
    site_expected_status site = Some x /\
    http_probe w past site (site_name site) (site_url site) t x
      (site_check_keyword site) (before_http w cfg past site) = Done c /\
    res = results (check_site_finish w cfg past site c) /\
    evs = trace (check_site_finish w cfg past site c) /\
    http_get w (past ++ trace (before_http w cfg past site)) (site_url site) t
      ≠ HttpOtherError /\
    EvGet (site_url site) t
      (http_get w (past ++ trace (before_http w cfg past site)) (site_url site) t) ∈ evs.
Proof.
  rewrite check_site_cases. intros Hrun.
  destruct (enabled site); [| done].
  destruct (site_timeout cfg site) as [t|]; [| done].
  destruct (site_expected_status site) as [x|]; [| done].
  destruct (http_probe _ _ _ _ _ _ _ _ _) as [c|] eqn:Hc; [| done].
  apply pair_equal_spec in Hrun as [[= <-] <-]. exists t, x, c. split_and!; try done.
  - intros E. by rewrite (http_other_error _ _ _ _ _ _ _ E) in Hc.
  - apply finish_keeps_events.
    destruct (http_get w _ (site_url site) t) as [r | e |] eqn:E.
    + destruct (http_response site (site_name site) _ t x (site_check_keyword site) _ r E)
        as (c' & Hc' & _ & _ & _ & _ & _ & _ & mails & Htr & _).
      rewrite Hc in Hc'. injection Hc' as <-. rewrite Htr.
      apply elem_of_app. right. by apply elem_of_cons; left.
    + destruct (http_request_exception site (site_name site) _ t x
                  (site_check_keyword site) _ e E) as (c' & body & Hc' & _ & _ & Htr).
      rewrite Hc in Hc'. injection Hc' as <-. rewrite Htr.
      apply elem_of_app. right. by apply elem_of_cons; left.
    + by rewrite (http_other_error _ _ _ _ _ _ _ E) in Hc.
Qed.

(** The record of a call whose request returned a response. *)
Lemma record_of_response (site : gmap string pyval) (ret : returned) (evs : list event)
    (u : pyval) (t : Z) (r : response) :
  check_site w cfg past site = (ret, evs) ->
  EvGet u t (HttpResponse r) ∈ evs ->
  let ms := round2 (float_mul (float_total_seconds (elapsed_us r)) 1000) in
  exists x c,
    site_expected_status site = Some x /\
    check_site_http w cfg past site = Done c /\
    results c !! "HTTP Time (ms)" = Some (PFloat ms) /\
    results c !! "Status"
      = Some (PStr (if (status_code r =? x)%Z then "Up" else status_down (status_code r))) /\
    ret = RetResults (results (check_site_finish w cfg past site c)) /\
    results (check_site_finish w cfg past site c) !! "HTTP Time (ms)" = Some (PFloat ms) /\
    results (check_site_finish w cfg past site c) !! "Redirects"
      = Some (PInt (Z.of_nat (length (history r)))) /\
    results (check_site_finish w cfg past site c) !! "Status"
      = Some (PStr (if (status_code r =? x)%Z
                    then (if Qltb (RESPONSE_TIME_THRESHOLD cfg) ms then "Up (Slow)" else "Up")
                    else status_down (status_code r))) /\
    ((status_code r =? x)%Z = false ->
       (exists n, results (check_site_finish w cfg past site c) !! "Notes" = Some (PStr n) /\
                  contains (status_note x (status_code r)) n) /\
       exists body, EvEmail (alert_subject (site_name site)) body ∈ evs).
Proof.
  intros Hrun Hin ms.
  destruct (check_site_get _ _ _ _ _ _ Hrun Hin) as (Hen & -> & Ht & [x Hx] & Ho).
  rewrite check_site_cases, Hen, Ht, Hx in Hrun. symmetry in Ho.
  destruct (http_response site (site_name site) _ t x (site_check_keyword site) _ r Ho)
    as (c & Hc & Htime & Hred & Hst & _ & _ & Hnote & mails & Htr & Hm).
  rewrite Hc in Hrun. apply pair_equal_spec in Hrun as [<- <-].
  exists x, c. split_and!; try done.
  - unfold check_site_http. by rewrite Ht, Hx.
  - by rewrite finish_results by done.
  - by rewrite finish_results by done.
  - rewrite (finish_status_measured site c ms _ Htime Hst).
    destruct (status_code r =? x)%Z.
    + change (startswith "Up" "Up") with true. by rewrite andb_true_r.
    + change (startswith (status_down (status_code r)) "Up") with false.
      by rewrite andb_false_r.
  - intros Hne. destruct (Hnote Hne) as [n Hn]. split.
    + destruct (finish_keeps_note site c "E" "."
                  ("xpected status " +:+ str_of_Z x +:+ ", but got " +:+
                   str_of_Z (status_code r))) as (n' & Hn' & Hc'); [done | done | |].
      * rewrite Hn. exists (notes (before_http w cfg past site)), (" " +:+ n).
        unfold status_note.
        by repeat first [rewrite append_cons | rewrite append_assoc].
      * exists n'. split; [done |].
        unfold status_note. by rewrite !append_assoc in Hc'.
    + rewrite Hne in Hm. subst mails. eexists.
      apply finish_keeps_events. rewrite Htr.
      apply elem_of_app. right. apply elem_of_cons. right. by apply elem_of_cons; left.
Qed.

(** The record of a call whose request raised a [RequestException]. *)
Lemma record_of_request_exception (site : gmap string pyval) (ret : returned)
    (evs : list event) (u : pyval) (t : Z) (e : string) :
  check_site w cfg past site = (ret, evs) ->
  EvGet u t (HttpRequestException e) ∈ evs ->
  exists res,
    ret = RetResults res /\
    res !! "Status" = Some (PStr "Down (HTTP Error)") /\
    res !! "HTTP Time (ms)" = Some (PStr "Failed") /\
    res !! "Redirects" = Some (PInt 0) /\
    res !! "Keyword Check" = Some (PStr "Skipped") /\
    (exists n, res !! "Notes" = Some (PStr n) /\ contains "HTTP request failed." n) /\
    exists body, EvEmail (alert_subject (site_name site)) body ∈ evs.
Proof.
  intros Hrun Hin.
  destruct (check_site_get _ _ _ _ _ _ Hrun Hin) as (Hen & -> & Ht & [x Hx] & Ho).
  rewrite check_site_cases, Hen, Ht, Hx in Hrun. symmetry in Ho.
  destruct (http_request_exception site (site_name site) _ t x (site_check_keyword site)
              _ e Ho) as (c & body & Hc & Hres & Hnotes & Htr).
  rewrite Hc in Hrun. apply pair_equal_spec in Hrun as [<- <-].
  destruct (before_http_initial site) as (_ & Htime & Hred & Hkw & _).
  assert (results c !! "HTTP Time (ms)" = Some (PStr "Failed")) as Htime'.
  { rewrite Hres. by look. }
  exists (results (check_site_finish w cfg past site c)). split; [done |]. split_and!.
  - rewrite (finish_status_sentinel site c "Failed" Htime'). rewrite Hres. by look.
  - by rewrite finish_results by done.
  - rewrite finish_results by done. rewrite Hres. by look.
  - rewrite finish_results by done. rewrite Hres. by look.
  - apply (finish_keeps_note site c "H" "." "TTP request failed"); [done .. |].
    rewrite Hnotes. apply contains_app_l. exists "", " ". by rewrite append_nil_l.
  - exists body. apply finish_keeps_events. rewrite Htr.
    apply elem_of_app. right. apply elem_of_cons. right. by apply elem_of_cons; left.
Qed.

(** What the HTTP block leaves alone, whatever the request did. *)
Lemma http_probe_frame (site : gmap string pyval) (name url : pyval) (t x : Z) (f : bool)
    (c c' : ctx) :
  http_probe w past site name url t x f c = Done c' ->
  (forall k, k ∉ [ "HTTP Time (ms)"; "Redirects"; "Content Size (KB)"; "Status";
                   "Keyword Check" ]%list ->
             results c' !! k = results c !! k) /\
  (exists n, notes c' = notes c +:+ n) /\
  (forall e, e ∈ trace c' ->
     e ∈ trace c \/ (exists u t' o, e = EvGet u t' o) \/ (exists s b, e = EvEmail s b)) /\
  (forall e, e ∈ trace c -> e ∈ trace c').
Proof.
  intros Hc.
  destruct (http_get w (past ++ trace c) url t) as [r | e |] eqn:E.
  - destruct (http_response site name url t x f c r E)
      as (c0 & Hc0 & _ & _ & _ & Hfr & Hn & _ & mails & Htr & Hm).
    rewrite Hc in Hc0. injection Hc0 as <-. split_and!; try done.
    + intros ev Hin. rewrite Htr in Hin.
      apply elem_of_app in Hin as [Hin | Hin]; [by left |]. right.
      apply elem_of_cons in Hin as [-> | Hin]; [left; by eauto |]. right.
      subst mails. destruct (status_code r =? x)%Z; [by apply elem_of_nil in Hin |].
      apply list_elem_of_singleton in Hin. by eauto.
    + intros ev Hin. rewrite Htr. apply elem_of_app. by left.
  - destruct (http_request_exception site name url t x f c e E)
      as (c0 & body & Hc0 & Hres & Hn & Htr).
    rewrite Hc in Hc0. injection Hc0 as <-. split_and!.
    + intros k Hk. rewrite !not_elem_of_cons in Hk. destruct Hk as (?&?&?&?&?&_).
      rewrite Hres. by look.
    + by eexists.
    + intros ev Hin. rewrite Htr in Hin.
      apply elem_of_app in Hin as [Hin | Hin]; [by left |]. right.
      apply elem_of_cons in Hin as [-> | Hin]; [left; by eauto |]. right.
      apply list_elem_of_singleton in Hin. by eauto.
    + intros ev Hin. rewrite Htr. apply elem_of_app. by left.
  - by rewrite (http_other_error _ _ _ _ _ _ _ E) in Hc.
Qed.

(** The events of a call, by kind: those of DNS and ICMP, then requests,
    mails, handshakes and lookups. *)
Lemma run_events (site : gmap string pyval) (ret : returned) (evs : list event)
    (e : event) :
  check_site w cfg past site = (ret, evs) ->
  e ∈ evs ->
  e ∈ trace (before_http w cfg past site) \/
  (exists u t o, e = EvGet u t o) \/ (exists s b, e = EvEmail s b) \/
  (exists h o, e = EvTls h o) \/ (exists h o, e = EvWhois h o).
Proof.
  rewrite check_site_cases. intros Hrun Hin.
  destruct (enabled site);
    [| apply pair_equal_spec in Hrun as [_ <-]; by apply elem_of_nil in Hin].
  destruct (site_timeout cfg site) as [t|];
    [| apply pair_equal_spec in Hrun as [_ <-]; by apply elem_of_nil in Hin].
  destruct (site_expected_status site) as [x|];
    [| apply pair_equal_spec in Hrun as [_ <-]; by apply elem_of_nil in Hin].
  destruct (http_probe _ _ _ _ _ _ _ _ _) as [c | evs'] eqn:Hc.
  - apply pair_equal_spec in Hrun as [_ <-].
    destruct (http_probe_frame _ _ _ _ _ _ _ _ Hc) as (_ & _ & Htr & _).
    rewrite finish_trace in Hin.
    apply elem_of_app in Hin as [Hin | Hin].
    + destruct (Htr e Hin) as [? | [? | ?]]; by eauto.
    + apply elem_of_cons in Hin as [-> | Hin]; [by eauto 10 |].
      apply get_domain_expiry_events in Hin as (? & _ & ->). by eauto 10.
  - apply pair_equal_spec in Hrun as [_ <-].
    destruct (http_get w (past ++ trace (before_http w cfg past site)) (site_url site) t)
      as [r | e' |] eqn:E.
    + destruct (http_response site (site_name site) _ t x (site_check_keyword site) _ r E)
        as (c0 & Hc0 & _). by rewrite Hc in Hc0.
    + destruct (http_request_exception site (site_name site) _ t x
                  (site_check_keyword site) _ e' E) as (c0 & body & Hc0 & _).
      by rewrite Hc in Hc0.
    + rewrite (http_other_error _ _ _ _ _ _ _ E) in Hc. injection Hc as <-.
      apply elem_of_app in Hin as [Hin | Hin]; [by left |].
      apply list_elem_of_singleton in Hin. by eauto 10.
Qed.

(** What a returned record keeps from the state before the HTTP block. *)
Lemma run_keeps (site : gmap string pyval) (res : gmap string pyval) (evs : list event) :
  check_site w cfg past site = (RetResults res, evs) ->
  let c := before_http w cfg past site in
  res !! "Ping (ms)" = results c !! "Ping (ms)" /\
  (forall e, e ∈ trace c -> e ∈ evs) /\
  (forall (a d : ascii) (m : string),
     is_space a = false -> is_space d = false ->
     contains (String a (m +:+ String d "")) (notes c) ->
     exists n, res !! "Notes" = Some (PStr n) /\
               contains (String a (m +:+ String d "")) n).
Proof.
  intros Hrun.
  destruct (run_record site res evs Hrun) as (t & x & c & _ & _ & Hc & -> & -> & _).
  destruct (http_probe_frame _ _ _ _ _ _ _ _ Hc) as (Hfr & [n Hn] & _ & Hsub).
  cbv zeta. split_and!.
  - rewrite finish_results by done. apply Hfr.
    rewrite !not_elem_of_cons. split_and!; try done. apply not_elem_of_nil.
  - intros e Hin. by apply finish_keeps_events, Hsub.
  - intros a d m Ha Hd Hin. apply finish_keeps_note; [done .. |].
    rewrite Hn. by apply contains_app_r.
Qed.

(** The WHOIS fields of a returned record and the events of the call, from
    what [get_domain_expiry] returned at the end of the call. *)
Lemma run_domain (site : gmap string pyval) (res : gmap string pyval) (evs : list event) :
  check_site w cfg past site = (RetResults res, evs) ->
  exists pre,
    let '(exp_dt, days_left, wevs) :=
      get_domain_expiry w past pre (get_hostname (site_url site)) in
    evs = (pre ++ wevs)%list /\
    res !! "Domain Days Left" = Some days_left /\
    res !! "Domain Expiry Date"
    = Some (PStr (match exp_dt with Some d => isoformat d | None => "N/A" end)).
Proof.
  intros Hrun.
  destruct (run_record site res evs Hrun) as (t & x & c & _ & _ & Hc & -> & -> & _).
  destruct (http_probe_frame _ _ _ _ _ _ _ _ Hc) as (Hfr & _).
  destruct (before_http_initial site) as (_ & _ & _ & _ & _ & Hd).
  pose proof (finish_domain site c) as Hf. pose proof (finish_trace site c) as Ht.
  cbv zeta in Hf, Ht.
  exists (trace c ++ [EvTls (get_hostname (site_url site))
                         (tls_cert w (past ++ trace c) (get_hostname (site_url site)))])%list.
  destruct (get_domain_expiry _ _ _ _) as [[exp_dt days_left] wevs].
  destruct Hf as [Hf1 Hf2]. split_and!; [| done |].
  - rewrite Ht. simpl. by rewrite <- app_assoc.
  - rewrite Hf2. destruct exp_dt; [done |].
    rewrite Hfr; [done |].
    rewrite !not_elem_of_cons. split_and!; try done. apply not_elem_of_nil.
Qed.

(** ** The fields of the record *)

(** C1. In every emitted record the field "HTTP Time (ms)" is either the
    measured time of the response, rounded to two decimals and not negative
    (the library reports a [timedelta] that is not negative), or the string
    ["Failed"]; after a request that failed it is ["Failed"], never a
    number. *)
Theorem http_time_measured_or_failed (site res : gmap string pyval) (evs : list event) :
  check_site w cfg past site = (RetResults res, evs) ->
  (forall u t r, EvGet u t (HttpResponse r) ∈ evs -> (0 <= elapsed_us r)%Z) ->
  ((exists u t r,
      EvGet u t (HttpResponse r) ∈ evs /\
      res !! "HTTP Time (ms)"
      = Some (PFloat (round2 (float_mul (float_total_seconds (elapsed_us r)) 1000))) /\
      (0 <= round2 (float_mul (float_total_seconds (elapsed_us r)) 1000))%Q)
   \/
   (exists u t e,
      EvGet u t (HttpRequestException e) ∈ evs /\
      res !! "HTTP Time (ms)" = Some (PStr "Failed")))
  /\
  (forall u t e,
     EvGet u t (HttpRequestException e) ∈ evs ->
     res !! "HTTP Time (ms)" = Some (PStr "Failed") /\
     forall q, res !! "HTTP Time (ms)" ≠ Some (PFloat q)).
Proof.
  intros Hrun Hpos.
  assert (forall u t e, EvGet u t (HttpRequestException e) ∈ evs ->
            res !! "HTTP Time (ms)" = Some (PStr "Failed")) as Hfail.
  { intros u t e Hin.
    destruct (record_of_request_exception _ _ _ _ _ _ Hrun Hin)
      as (res' & [= <-] & _ & Htime & _). done. }
  split.
  - destruct (run_record site res evs Hrun) as (t & x & c & _ & _ & _ & _ & _ & Hne & Hin).
    destruct (http_get w _ (site_url site) t) as [r | e |]; [| | done].
    + left. exists (site_url site), t, r. split; [done |].
      destruct (record_of_response _ _ _ _ _ _ Hrun Hin)
        as (x' & c' & _ & _ & _ & _ & [= ->] & Htime & _).
      split; [done |].
      apply round2_nonneg, elapsed_ms_nonneg. by eapply Hpos.
    + right. exists (site_url site), t, e. split; [done |]. by eapply Hfail.
  - intros u t e Hin. split; [by eapply Hfail |].
    intros q. by rewrite (Hfail u t e Hin).
Qed.


(** C6. When the request itself fails, a record is emitted with Status
    ["Down (HTTP Error)"], "HTTP Time (ms)" still ["Failed"], Notes
    containing ["HTTP request failed."], and a mail is sent. *)
Theorem http_error_record (site : gmap string pyval) (ret : returned)
    (evs : list event) (u : pyval) (t : Z) (e : string) :
  check_site w cfg past site = (ret, evs) ->
  EvGet u t (HttpRequestException e) ∈ evs ->
  exists res,
    ret = RetResults res /\
    res !! "Status" = Some (PStr "Down (HTTP Error)") /\
    res !! "HTTP Time (ms)" = Some (PStr "Failed") /\
    (exists n, res !! "Notes" = Some (PStr n) /\ contains "HTTP request failed." n) /\
    exists body, EvEmail (alert_subject (site_name site)) body ∈ evs.
Proof.
  intros Hrun Hin.
  destruct (record_of_request_exception _ _ _ _ _ _ Hrun Hin)
    as (res & -> & Hst & Htime & _ & _ & Hn & Hmail).
  by exists res.
Qed.

(** C9. After a request that failed, "Keyword Check" is ["Skipped"],
    whatever keyword the site configures; a record with another value there
    comes from a call whose request returned a response. *)
Theorem keyword_skipped_on_http_failure (site : gmap string pyval) (ret : returned)
    (evs : list event) :
  check_site w cfg past site = (ret, evs) ->
  (forall u t e,
     EvGet u t (HttpRequestException e) ∈ evs ->
     exists res, ret = RetResults res /\ res !! "Keyword Check" = Some (PStr "Skipped")) /\
  (forall res,
     ret = RetResults res ->
     res !! "Keyword Check" ≠ Some (PStr "Skipped") ->
     exists u t r, EvGet u t (HttpResponse r) ∈ evs).
Proof.
  intros Hrun. split.
  - intros u t e Hin.
    destruct (record_of_request_exception _ _ _ _ _ _ Hrun Hin)
      as (res & -> & _ & _ & _ & Hkw & _).
    by exists res.
  - intros res -> Hkw.
    destruct (run_record site res evs Hrun) as (t & x & c & _ & _ & _ & _ & _ & Hne & Hin).
    destruct (http_get w _ (site_url site) t) as [r | e |]; [by eauto | | done].
    destruct (record_of_request_exception _ _ _ _ _ _ Hrun Hin)
      as (res' & [= <-] & _ & _ & _ & Hkw' & _).
    done.
Qed.

(** C10. After a request that failed, "Redirects" is the integer 0, the
    same value as after a response that followed no redirect. *)
Theorem redirects_zero_on_http_failure (site : gmap string pyval) (ret : returned)
    (evs : list event) :
  check_site w cfg past site = (ret, evs) ->
  (forall u t e,
     EvGet u t (HttpRequestException e) ∈ evs ->
     exists res, ret = RetResults res /\ res !! "Redirects" = Some (PInt 0)) /\
  (forall u t r,
     EvGet u t (HttpResponse r) ∈ evs ->
     exists res,
       ret = RetResults res /\
       res !! "Redirects" = Some (PInt (Z.of_nat (length (history r)))) /\
       (history r = [] -> res !! "Redirects" = Some (PInt 0))).
Proof.
  intros Hrun. split.
  - intros u t e Hin.
    destruct (record_of_request_exception _ _ _ _ _ _ Hrun Hin)
      as (res & -> & _ & _ & Hred & _).
    by exists res.
  - intros u t r Hin.
    destruct (record_of_response _ _ _ _ _ _ Hrun Hin)
      as (x & c & _ & _ & _ & _ & -> & _ & Hred & _).
    eexists. split; [done |]. split; [done |].
    intros Hh. by rewrite Hred, Hh.
Qed.

(** After the HTTP block the time is a float or ["Failed"], and the status is
    a string other than ["Up (Slow)"]. *)
Lemma http_block_fields (site : gmap string pyval) (c : ctx) :
  check_site_http w cfg past site = Done c ->
  (exists q s,
     results c !! "HTTP Time (ms)" = Some (PFloat q) /\
     results c !! "Status" = Some (PStr s) /\ s ≠ "Up (Slow)") \/
  (results c !! "HTTP Time (ms)" = Some (PStr "Failed") /\
   results c !! "Status" = Some (PStr "Down (HTTP Error)")).
Proof.
  unfold check_site_http.
  destruct (site_timeout cfg site) as [t|]; [| done].
  destruct (site_expected_status site) as [x|]; [| done].
  intros Hc.
  destruct (http_get w (past ++ trace (before_http w cfg past site)) (site_url site) t)
    as [r | e |] eqn:E.
  - destruct (http_response site (site_name site) _ t x (site_check_keyword site) _ r E)
      as (c0 & Hc0 & Htime & _ & Hst & _).
    rewrite Hc in Hc0. injection Hc0 as <-.
    left. do 2 eexists. split_and!; [done .. |].
    destruct (status_code r =? x)%Z; [done |].
    unfold status_down. by rewrite append_cons.
  - destruct (http_request_exception site (site_name site) _ t x
                (site_check_keyword site) _ e E) as (c0 & body & Hc0 & Hres & _).
    rewrite Hc in Hc0. injection Hc0 as <-.
    destruct (before_http_initial site) as (_ & Htime & _).
    right. rewrite Hres. split; by look.
  - by rewrite (http_other_error _ _ _ _ _ _ _ E) in Hc.
Qed.

(** C2. The final Status is ["Up (Slow)"] if and only if the Status set by
    the HTTP block begins with ["Up"], "HTTP Time (ms)" is a number and that
    number is above the threshold. *)
Theorem up_slow_iff (site : gmap string pyval) (c : ctx) :
  enabled site = true ->
  check_site_http w cfg past site = Done c ->
  exists res evs,
    check_site w cfg past site = (RetResults res, evs) /\
    res !! "HTTP Time (ms)" = results c !! "HTTP Time (ms)" /\
    (res !! "Status" = Some (PStr "Up (Slow)") <->
     exists s q,
       results c !! "Status" = Some (PStr s) /\
       startswith s "Up" = true /\
       results c !! "HTTP Time (ms)" = Some (PFloat q) /\
       (RESPONSE_TIME_THRESHOLD cfg < q)%Q).
Proof.
  intros Hen Hc.
  exists (results (check_site_finish w cfg past site c)),
         (trace (check_site_finish w cfg past site c)).
  split; [| split].
  - unfold check_site. by rewrite Hen, Hc.
  - by rewrite finish_results by done.
  - destruct (http_block_fields site c Hc) as [(q & s & Htime & Hst & Hs) | [Htime Hst]].
    + rewrite (finish_status_measured site c q s Htime Hst). split.
      * destruct (Qltb _ q) eqn:Hq; simpl; [| by intros [= ?]].
        destruct (startswith s "Up") eqn:Hup; [| by intros [= ?]].
        intros _. exists s, q. split_and!; try done. by apply Qltb_lt.
      * intros (s' & q' & Hst' & Hup & Htime' & Hq).
        rewrite Hst in Hst'. injection Hst' as <-.
        rewrite Htime in Htime'. injection Htime' as <-.
        apply Qltb_lt in Hq. by rewrite Hq, Hup.
    + rewrite (finish_status_sentinel site c "Failed" Htime), Hst. split; [done |].
      intros (s' & q' & _ & _ & Htime' & _). by rewrite Htime in Htime'.
Qed.

(** *** DNS and ICMP in the events of a call *)

Lemma run_resolve (site : gmap string pyval) (ret : returned) (evs : list event)
    (h : pyval) (out : dns_outcome) :
  check_site w cfg past site = (ret, evs) ->
  EvResolve h out ∈ evs ->
  h = get_hostname (site_url site) /\ out = resolve w past h.
Proof.
  intros Hrun Hin.
  destruct (run_events _ _ _ _ Hrun Hin)
    as [Hb | [(?&?&?&?) | [(?&?&?) | [(?&?&?) | (?&?&?)]]]]; try done.
  rewrite before_http_trace in Hb.
  apply elem_of_cons in Hb as [[= -> ->] | Hb]; [done |].
  destruct (ping_target _ _); [| by apply elem_of_nil in Hb].
  by apply list_elem_of_singleton in Hb.
Qed.

Lemma run_ping (site : gmap string pyval) (ret : returned) (evs : list event)
    (ip : string) (o : ping_outcome) :
  check_site w cfg past site = (ret, evs) ->
  EvPing ip o ∈ evs ->
  let host := get_hostname (site_url site) in
  ping_target (site_use_icmp cfg site) (first_answer (resolve w past host)) = Some ip /\
  o = ping w (past ++ [EvResolve host (resolve w past host)]) ip.
Proof.
  intros Hrun Hin.
  destruct (run_events _ _ _ _ Hrun Hin)
    as [Hb | [(?&?&?&?) | [(?&?&?) | [(?&?&?) | (?&?&?)]]]]; try done.
  rewrite before_http_trace in Hb. cbv zeta.
  apply elem_of_cons in Hb as [? | Hb]; [done |].
  destruct (ping_target _ _); [| by apply elem_of_nil in Hb].
  by apply list_elem_of_singleton in Hb as [= -> ->].
Qed.

(** C3 (as the code has it). When ICMP is enabled and the DNS probe resolves
    no address, no ping is sent and "Ping (ms)" is ["N/A"]. *)
Theorem no_address_no_ping (site res : gmap string pyval) (evs : list event)
    (h : pyval) (out : dns_outcome) :
  check_site w cfg past site = (RetResults res, evs) ->
  site_use_icmp cfg site = true ->
  EvResolve h out ∈ evs ->
  first_answer out = None ->
  (forall ip o, EvPing ip o ∉ evs) /\
  res !! "Ping (ms)" = Some (PStr "N/A").
Proof.
  intros Hrun Hicmp Hin Hno.
  destruct (run_resolve _ _ _ _ _ Hrun Hin) as [-> ->].
  split.
  - intros ip o Hp. destruct (run_ping _ _ _ _ _ Hrun Hp) as [Ht _].
    by rewrite Hno, Hicmp in Ht.
  - destruct (run_keeps site res evs Hrun) as (-> & _).
    pose proof (before_http_ping site) as Hp. cbv zeta in Hp.
    by rewrite Hno, Hicmp in Hp.
Qed.

(** C4. "Ping (ms)" is ["N/A"] when ICMP is disabled or no address was
    resolved (and then no ping is sent); with ICMP and an address a ping is
    sent, and the field is its rounded round-trip time when it reports both
    liveness and a round-trip time, else ["Failed"]; when the ping raises the
    field is ["Error"] and Notes contain ["ICMP ping failed."]. *)
Theorem ping_field_outcomes (site res : gmap string pyval) (evs : list event) :
  check_site w cfg past site = (RetResults res, evs) ->
  ((site_use_icmp cfg site = false \/
    exists h out, EvResolve h out ∈ evs /\ first_answer out = None) ->
   res !! "Ping (ms)" = Some (PStr "N/A") /\ forall ip o, EvPing ip o ∉ evs) /\
  (site_use_icmp cfg site = true ->
   forall h out a,
     EvResolve h out ∈ evs -> first_answer out = Some a -> a ≠ "" ->
     exists o, EvPing a o ∈ evs) /\
  (forall ip alive rtt,
     EvPing ip (PingHost alive rtt) ∈ evs ->
     res !! "Ping (ms)"
     = Some (match alive, rtt with
             | true, Some r => PFloat (round2 r)
             | _, _ => PStr "Failed"
             end)) /\
  (forall ip,
     EvPing ip PingRaise ∈ evs ->
     res !! "Ping (ms)" = Some (PStr "Error") /\
     exists n, res !! "Notes" = Some (PStr n) /\ contains "ICMP ping failed." n).
Proof.
  intros Hrun.
  destruct (run_keeps site res evs Hrun) as (Hping & Hsub & Hnote).
  pose proof (before_http_ping site) as Hp.
  pose proof (before_http_trace site) as Ht. cbv zeta in Hp, Ht.
  split_and!.
  - intros Hskip.
    assert (ping_target (site_use_icmp cfg site)
              (first_answer (resolve w past (get_hostname (site_url site)))) = None) as E.
    { destruct Hskip as [-> | (h & out & Hin & Hno)]; [done |].
      destruct (run_resolve _ _ _ _ _ Hrun Hin) as [-> ->].
      rewrite Hno. by destruct (site_use_icmp cfg site). }
    rewrite E in Hp. split; [by rewrite Hping |].
    intros ip o Hin. destruct (run_ping _ _ _ _ _ Hrun Hin) as [Ht' _].
    by rewrite E in Ht'.
  - intros Hicmp h out a Hin Ha Hne.
    destruct (run_resolve _ _ _ _ _ Hrun Hin) as [-> ->].
    rewrite Ha, Hicmp in Ht. simpl in Ht.
    destruct (String.eqb a "") eqn:Ea; [by apply String.eqb_eq in Ea |].
    eexists. apply Hsub. rewrite Ht. apply elem_of_cons. right.
    by apply elem_of_cons; left.
  - intros ip alive rtt Hin.
    destruct (run_ping _ _ _ _ _ Hrun Hin) as [Et Eo]. cbv zeta in Et.
    rewrite Et, <- Eo in Hp. rewrite Hping.
    by destruct alive, rtt.
  - intros ip Hin.
    destruct (run_ping _ _ _ _ _ Hrun Hin) as [Et Eo]. cbv zeta in Et.
    rewrite Et, <- Eo in Hp. destruct Hp as [Hp Hn].
    split; [by rewrite Hping |].
    by apply (Hnote "I"%char "."%char "CMP ping failed").
Qed.

(** *** WHOIS in the record of a call *)

(** Without the module both fields keep ["N/A"]; with it the lookup is the
    last event of the call and its outcome decides the two fields. *)
Lemma run_domain_outcome (site res : gmap string pyval) (evs : list event) :
  check_site w cfg past site = (RetResults res, evs) ->
  match whois_lookup w with
  | None =>
    res !! "Domain Days Left" = Some (PStr "N/A") /\
    res !! "Domain Expiry Date" = Some (PStr "N/A")
  | Some whois =>
    exists h pre,
      evs = (pre ++ [EvWhois h (whois (past ++ pre)%list h)])%list /\
      match whois (past ++ pre)%list h with
      | WhoisEntry e =>
        match usable_date e with
        | Some d =>
          res !! "Domain Days Left"
          = Some (PInt (days_until (to_utc d)
                          (now_utc w ((past ++ pre) ++
                                      [EvWhois h (whois (past ++ pre) h)])%list))) /\
          res !! "Domain Expiry Date" = Some (PStr (isoformat (to_utc d)))
        | None =>
          res !! "Domain Days Left" = Some (PStr "N/A") /\
          res !! "Domain Expiry Date" = Some (PStr "N/A")
        end
      | WhoisRaise =>
        res !! "Domain Days Left" = Some (PStr "WHOIS Failed") /\
        res !! "Domain Expiry Date" = Some (PStr "N/A")
      end
  end.
Proof.
  intros Hrun. destruct (run_domain site res evs Hrun) as [pre Hd].
  destruct (whois_lookup w) as [whois|] eqn:E.
  - rewrite (get_domain_expiry_available whois pre _ E) in Hd. cbv zeta in Hd.
    exists (get_hostname (site_url site)), pre.
    destruct (whois (past ++ pre)%list (get_hostname (site_url site))) as [e|].
    + destruct (usable_date e) as [d|]; destruct Hd as (-> & -> & ->);
        split_and!; try done.
      by rewrite <- app_assoc.
    + by destruct Hd as (-> & -> & ->).
  - rewrite (get_domain_expiry_unavailable pre _ E) in Hd.
    by destruct Hd as (_ & -> & ->).
Qed.

(** A call on an enabled site whose configuration [int] accepts and whose
    request does not raise past the [except] returns a record. *)
Lemma check_site_returns (site : gmap string pyval) (t x : Z) :
  enabled site = true ->
  site_timeout cfg site = Some t ->
  site_expected_status site = Some x ->
  http_get w (past ++ trace (before_http w cfg past site)) (site_url site) t
    ≠ HttpOtherError ->
  exists c res evs,
    check_site_http w cfg past site = Done c /\
    check_site w cfg past site = (RetResults res, evs) /\
    EvGet (site_url site) t
      (http_get w (past ++ trace (before_http w cfg past site)) (site_url site) t) ∈ evs.
Proof.
  intros Hen Ht Hx Hne.
  assert (exists c, http_probe w past site (site_name site) (site_url site) t x
                      (site_check_keyword site) (before_http w cfg past site) = Done c)
    as [c Hc].
  { destruct (http_get w (past ++ trace (before_http w cfg past site)) (site_url site) t)
      as [r | e |] eqn:E; [| | done].
    - destruct (http_response site (site_name site) _ t x (site_check_keyword site) _ r E)
        as (c & Hc & _). by exists c.
    - destruct (http_request_exception site (site_name site) _ t x
                  (site_check_keyword site) _ e E) as (c & body & Hc & _). by exists c. }
  assert (check_site w cfg past site
          = (RetResults (results (check_site_finish w cfg past site c)),
             trace (check_site_finish w cfg past site c))) as Hrun.
  { by rewrite check_site_cases, Hen, Ht, Hx, Hc. }
  exists c, (results (check_site_finish w cfg past site c)),
         (trace (check_site_finish w cfg past site c)).
  split_and!; [| done |].
  - unfold check_site_http. by rewrite Ht, Hx.
  - destruct (run_record _ _ _ Hrun) as (t' & _ & _ & Ht' & _ & _ & _ & _ & _ & Hin).
    rewrite Ht in Ht'. by injection Ht' as <-.
Qed.

(** Without a resolved address the field is ["N/A"], with or without
    ICMP. *)
Lemma ping_na_without_address (site res : gmap string pyval) (evs : list event) :
  check_site w cfg past site = (RetResults res, evs) ->
  first_answer (resolve w past (get_hostname (site_url site))) = None ->
  res !! "Ping (ms)" = Some (PStr "N/A").
Proof.
  intros Hrun Hno. destruct (run_keeps site res evs Hrun) as (-> & _).
  pose proof (before_http_ping site) as Hp. cbv zeta in Hp.
  rewrite Hno in Hp. by destruct (site_use_icmp cfg site).
Qed.

(** The resolution is among the events of a call that returned a record. *)
Lemma run_has_resolve (site res : gmap string pyval) (evs : list event) :
  check_site w cfg past site = (RetResults res, evs) ->
  EvResolve (get_hostname (site_url site))
    (resolve w past (get_hostname (site_url site))) ∈ evs.
Proof.
  intros Hrun. destruct (run_keeps site res evs Hrun) as (_ & Hsub & _).
  apply Hsub. rewrite before_http_trace. by apply elem_of_cons; left.
Qed.

(** ** More about one call *)

(** The events of the HTTP block, by what the request did. *)
Lemma http_probe_events (site : gmap string pyval) (name url : pyval) (t x : Z) (f : bool)
    (c c' : ctx) :
  http_probe w past site name url t x f c = Done c' ->
  let o := http_get w (past ++ trace c) url t in
  o ≠ HttpOtherError /\
  exists mails,
    trace c' = (trace c ++ EvGet url t o :: mails)%list /\
    (alerting o x = true -> exists body, mails = [EvEmail (alert_subject name) body]) /\
    (alerting o x = false -> mails = []).
Proof.
  intros Hc. cbv zeta.
  destruct (http_get w (past ++ trace c) url t) as [r | e |] eqn:E.
  - destruct (http_response site name url t x f c r E)
      as (c0 & Hc0 & _ & _ & _ & _ & _ & _ & mails & Htr & Hm).
    rewrite Hc in Hc0. injection Hc0 as <-. split; [done |].
    exists mails. split; [done |]. simpl.
    destruct (status_code r =? x)%Z; simpl; split; try done.
    intros _. by eexists.
  - destruct (http_request_exception site name url t x f c e E)
      as (c0 & body & Hc0 & _ & _ & Htr).
    rewrite Hc in Hc0. injection Hc0 as <-. split; [done |].
    eexists. split; [exact Htr |]. simpl. split; [| done].
    intros _. by eexists.
  - by rewrite (http_other_error _ _ _ _ _ _ _ E) in Hc.
Qed.

(** The events of a call that returned a record, in order. *)
Lemma run_shape (site res : gmap string pyval) (evs : list event) :
  check_site w cfg past site = (RetResults res, evs) ->
  let h := get_hostname (site_url site) in
  let d := resolve w past h in
  exists t x o mails tl wh,
    site_timeout cfg site = Some t /\
    site_expected_status site = Some x /\
    o ≠ HttpOtherError /\
    evs = (EvResolve h d ::
           match ping_target (site_use_icmp cfg site) (first_answer d) with
           | Some ip => [EvPing ip (ping w (past ++ [EvResolve h d]) ip)]
           | None => []
           end ++ EvGet (site_url site) t o :: mails ++ EvTls h tl :: wh)%list /\
    (alerting o x = true ->
       exists body, mails = [EvEmail (alert_subject (site_name site)) body]) /\
    (alerting o x = false -> mails = []) /\
    (whois_lookup w = None -> wh = []) /\
    (whois_lookup w <> None -> exists wo, wh = [EvWhois h wo]).
Proof.
  intros Hrun. cbv zeta.
  destruct (run_record site res evs Hrun) as (t & x & c & Ht & Hx & Hc & _ & -> & _).
  destruct (http_probe_events _ _ _ _ _ _ _ _ Hc) as (Hne & mails & Htr & Hm1 & Hm0).
  exists t, x, (http_get w (past ++ trace (before_http w cfg past site)) (site_url site) t),
    mails, (tls_cert w (past ++ trace c) (get_hostname (site_url site))),
    (get_domain_expiry w past
       (trace c ++ [EvTls (get_hostname (site_url site))
                      (tls_cert w (past ++ trace c) (get_hostname (site_url site)))])
       (get_hostname (site_url site))).2.
  split_and!; try done.
  - rewrite finish_trace, Htr, before_http_trace. simpl.
    by repeat (first [rewrite <- app_assoc | progress simpl]).
  - intros E. by rewrite (get_domain_expiry_unavailable _ _ E).
  - intros E. destruct (whois_lookup w) as [whois|] eqn:Ew; [| done].
    rewrite (get_domain_expiry_available whois _ _ Ew). by eexists.
Qed.

(** X1. The probes of a call run once each and in a fixed order: the
    resolution, the ping if there is an address to ping, the request, the
    mail if the block alerts, the TLS handshake, and the WHOIS lookup if the
    module is there; the handshake and the lookup go to the host that was
    resolved. *)
Theorem probes_in_order (site res : gmap string pyval) (evs : list event) :
  check_site w cfg past site = (RetResults res, evs) ->
  let h := get_hostname (site_url site) in
  let d := resolve w past h in
  exists t x o mails tl wh,
    site_timeout cfg site = Some t /\
    site_expected_status site = Some x /\
    o ≠ HttpOtherError /\
    evs = (EvResolve h d ::
           match ping_target (site_use_icmp cfg site) (first_answer d) with
           | Some ip => [EvPing ip (ping w (past ++ [EvResolve h d]) ip)]
           | None => []
           end ++ EvGet (site_url site) t o :: mails ++ EvTls h tl :: wh)%list /\
    (alerting o x = true ->
       exists body, mails = [EvEmail (alert_subject (site_name site)) body]) /\
    (alerting o x = false -> mails = []) /\
    (whois_lookup w = None -> wh = []) /\
    (whois_lookup w <> None -> exists wo, wh = [EvWhois h wo]).
Proof. apply run_shape. Qed.

(** The mails among the events of a call. *)
Lemma run_emails (site res : gmap string pyval) (evs : list event) :
  check_site w cfg past site = (RetResults res, evs) ->
  exists t x o,
    site_expected_status site = Some x /\
    EvGet (site_url site) t o ∈ evs /\
    (alerting o x = true ->
       exists body, List.filter is_email evs = [EvEmail (alert_subject (site_name site)) body]) /\
    (alerting o x = false -> List.filter is_email evs = []).
Proof.
  intros Hrun.
  destruct (run_shape site res evs Hrun)
    as (t & x & o & mails & tl & wh & _ & Hx & _ & -> & Hm1 & Hm0 & Hw0 & Hw1).
  exists t, x, o. split; [done |].
  assert (forall l : list event,
            List.filter is_email
              (EvResolve (get_hostname (site_url site))
                 (resolve w past (get_hostname (site_url site))) ::
               match ping_target (site_use_icmp cfg site)
                       (first_answer (resolve w past (get_hostname (site_url site)))) with
               | Some ip =>
                 [EvPing ip
                    (ping w (past ++ [EvResolve (get_hostname (site_url site))
                                        (resolve w past (get_hostname (site_url site)))]) ip)]
               | None => []
               end ++ EvGet (site_url site) t o :: l ++ EvTls (get_hostname (site_url site)) tl
                        :: wh)%list
            = List.filter is_email l) as Hf.
  { intros l. repeat first [rewrite List.filter_app | progress simpl].
    assert (List.filter is_email wh = []) as ->.
    { destruct (whois_lookup w).
      - by destruct (Hw1 ltac:(done)) as [wo ->].
      - by rewrite (Hw0 eq_refl). }
    rewrite app_nil_r. by destruct (ping_target _ _). }
  split_and!.
  - apply elem_of_cons. right. apply elem_of_app. right. by apply elem_of_cons; left.
  - intros Ha. destruct (Hm1 Ha) as [body ->]. exists body. by rewrite Hf.
  - intros Ha. rewrite (Hm0 Ha). by rewrite Hf.
Qed.

(** The mails among the events of a call, by the Status of its record. *)
Lemma run_alerts (site res : gmap string pyval) (evs : list event) :
  check_site w cfg past site = (RetResults res, evs) ->
  exists s,
    res !! "Status" = Some (PStr s) /\
    if startswith s "Down" then
      exists body, List.filter is_email evs = [EvEmail (alert_subject (site_name site)) body]
    else List.filter is_email evs = [].
Proof.
  intros Hrun.
  destruct (run_emails site res evs Hrun) as (t & x & o & Hx & Hin & Hm1 & Hm0).
  destruct o as [r | e |].
  - destruct (record_of_response _ _ _ _ _ _ Hrun Hin)
      as (x' & c & Hx' & _ & _ & _ & [= ->] & _ & _ & Hst & _).
    rewrite Hx in Hx'. injection Hx' as <-. simpl in Hm1, Hm0.
    eexists. split; [exact Hst |].
    destruct (status_code r =? x)%Z; simpl in *.
    + destruct (Qltb _ _); exact (Hm0 eq_refl).
    + exact (Hm1 eq_refl).
  - destruct (record_of_request_exception _ _ _ _ _ _ Hrun Hin)
      as (res' & [= <-] & Hst & _).
    eexists. split; [exact Hst |]. exact (Hm1 eq_refl).
  - destruct (check_site_get _ _ _ _ _ _ Hrun Hin) as (_ & _ & Ht & _ & Ho).
    destruct (run_record site res evs Hrun) as (t' & _ & _ & Ht' & _ & _ & _ & _ & Hne & _).
    rewrite Ht in Ht'. injection Ht' as <-. by rewrite <- Ho in Hne.
Qed.

(** The guard of [send_email]. *)
Lemma send_email_guard (c : Mail.Config) (subject body : string) :
  is_Some (Mail.send_email c subject body) <->
  Mail.EMAIL_ENABLED c = true /\ Mail.EMAIL_TO c ≠ [] /\
  Mail.EMAIL_USER c ≠ "" /\ Mail.EMAIL_PASS c ≠ "".
Proof.
  unfold Mail.send_email. rewrite <- !String.eqb_neq.
  destruct (Mail.EMAIL_ENABLED c), (Mail.EMAIL_TO c),
    (String.eqb (Mail.EMAIL_USER c) ""), (String.eqb (Mail.EMAIL_PASS c) "");
    cbn [negb orb]; split;
    first [ by intros [? [=]] | by intros (? & ? & ? & ?) | by eauto ].
Qed.

Lemma send_email_subject (c : Mail.Config) (subject body : string) (m : Mail.sending) :
  Mail.send_email c subject body = Some m ->
  Mail.msg_subject m = subject /\ Mail.msg_body m = body /\
  Mail.to_addrs m = Mail.EMAIL_TO c.
Proof.
  unfold Mail.send_email. case_match; [done |]. by intros [= <-].
Qed.

(** Only the calls of [send_email] count for the sendings. *)
Lemma sendings_filter (c : Mail.Config) (evs : list event) :
  sendings c evs = sendings c (List.filter is_email evs).
Proof.
  unfold sendings. induction evs as [|e evs IH]; [done |].
  destruct e; cbn [List.filter is_email omap list_omap]; try exact IH.
  by rewrite IH.
Qed.

(** X2. [check_site] calls [send_email] exactly when the record's Status
    begins with ["Down"], and at most once: DNS, ping, TLS and WHOIS failures
    and slow responses never alert. The call hands a mail to [smtplib]
    exactly when, moreover, mail is enabled and the recipients, the user and
    the password are not empty; otherwise (the default) nothing is sent. *)
Theorem alert_iff_down (site res : gmap string pyval) (evs : list event)
    (c : Mail.Config) :
  check_site w cfg past site = (RetResults res, evs) ->
  exists s,
    res !! "Status" = Some (PStr s) /\
    ((exists subject body, EvEmail subject body ∈ evs) <-> startswith s "Down" = true) /\
    (length (List.filter is_email evs) <= 1)%nat /\
    (sendings c evs ≠ [] <->
     startswith s "Down" = true /\
     Mail.EMAIL_ENABLED c = true /\ Mail.EMAIL_TO c ≠ [] /\
     Mail.EMAIL_USER c ≠ "" /\ Mail.EMAIL_PASS c ≠ "") /\
    (length (sendings c evs) <= 1)%nat /\
    (forall m, m ∈ sendings c evs ->
               Mail.msg_subject m = alert_subject (site_name site) /\
               Mail.to_addrs m = Mail.EMAIL_TO c).
Proof.
  intros Hrun.
  destruct (run_alerts site res evs Hrun) as (s & Hst & Hf).
  assert (forall subject body,
            EvEmail subject body ∈ evs <-> EvEmail subject body ∈ List.filter is_email evs)
    as Hmem.
  { intros subject body. rewrite !list_elem_of_In, List.filter_In. simpl. tauto. }
  exists s. split; [exact Hst |]. rewrite sendings_filter.
  destruct (startswith s "Down").
  - destruct Hf as [body Hf]. rewrite Hf. unfold sendings. cbn [omap list_omap].
    pose proof (send_email_guard c (alert_subject (site_name site)) body) as Hg.
    pose proof (send_email_subject c (alert_subject (site_name site)) body) as Hs.
    split_and!.
    + split; [done |]. intros _. do 2 eexists. apply Hmem. rewrite Hf.
      apply list_elem_of_here.
    + simpl. lia.
    + destruct (Mail.send_email c (alert_subject (site_name site)) body) as [m |].
      * split; [| done]. intros _. split; [done |]. apply Hg. by eauto.
      * split; [done |]. intros [_ Hon]. by apply Hg in Hon as [? [=]].
    + destruct (Mail.send_email c _ body); simpl; lia.
    + intros m Hm.
      destruct (Mail.send_email c (alert_subject (site_name site)) body) as [m' |];
        [| by apply elem_of_nil in Hm].
      apply list_elem_of_singleton in Hm as ->.
      destruct (Hs m' eq_refl) as (? & _ & ?). done.
  - rewrite Hf. unfold sendings. cbn [omap list_omap]. split_and!.
    + split; [| done]. intros (subject & body & Hmail). apply Hmem in Hmail.
      rewrite Hf in Hmail. by apply elem_of_nil in Hmail.
    + simpl. lia.
    + split; [done | by intros [[=] _]].
    + simpl. lia.
    + intros m Hm. by apply elem_of_nil in Hm.
Qed.

(** *** The keys of the record *)

Lemma init_results_keys (n u : pyval) (d k : string) :
  is_Some (init_results n u d !! k) <-> k ∈ fieldnames.
Proof.
  unfold init_results, fieldnames.
  rewrite !lookup_insert_is_Some, lookup_empty, !elem_of_cons, elem_of_nil.
  split.
  - intros Hk. repeat (destruct Hk as [<- | [_ Hk]]; [tauto |]).
    by destruct Hk.
  - intros Hk.
    repeat (destruct Hk as [-> | Hk];
            [clear; repeat first [by left | right; split; [done |]] |]).
    done.
Qed.

(** Writing a field that is a column keeps the keys. *)
Lemma insert_keys (k0 : string) (v : pyval) (m : gmap string pyval) :
  k0 ∈ fieldnames ->
  (forall k, is_Some (m !! k) <-> k ∈ fieldnames) ->
  forall k, is_Some (<[k0 := v]> m !! k) <-> k ∈ fieldnames.
Proof.
  intros Hk0 Hc k. rewrite lookup_insert_is_Some, Hc.
  destruct (decide (k0 = k)) as [<- | Hne]; tauto.
Qed.

Ltac keys :=
  cbn [results set_result add_note emit send_email];
  repeat first
    [ assumption
    | apply insert_keys;
      [ unfold fieldnames;
        repeat first [ apply list_elem_of_here | apply list_elem_of_further ] | ] ].

Lemma before_http_keys (site : gmap string pyval) (k : string) :
  is_Some (results (before_http w cfg past site) !! k) <-> k ∈ fieldnames.
Proof.
  revert k. unfold before_http.
  pose proof (init_results_keys (site_name site) (site_url site)
                (isoformat (now_utc w past))) as Hi.
  unfold dns_probe.
  destruct (resolve w _ _) as [el [|a l] |]; unfold icmp_probe;
    (destruct (ping_target _ _); [destruct (ping w _ _) as [[] [] |] |]); keys.
Qed.

Lemma http_probe_keys (site : gmap string pyval) (name url : pyval) (t x : Z) (f : bool)
    (c c' : ctx) :
  http_probe w past site name url t x f c = Done c' ->
  (forall k, is_Some (results c !! k) <-> k ∈ fieldnames) ->
  forall k, is_Some (results c' !! k) <-> k ∈ fieldnames.
Proof.
  unfold http_probe. intros Hc Hk.
  destruct (http_get w _ url t) as [r | e |]; [| | done]; injection Hc as <-.
  - unfold keyword_check.
    destruct (f && py_bool (default PNone (site !! "keyword")));
      [destruct (default PNone (site !! "keyword")) as [| | | | kw];
       [| | | | destruct (str_in _ _)] |];
      destruct (status_code r =? x)%Z; keys.
  - keys.
Qed.

Lemma finish_keys (site : gmap string pyval) (c : ctx) :
  (forall k, is_Some (results c !! k) <-> k ∈ fieldnames) ->
  forall k, is_Some (results (check_site_finish w cfg past site c) !! k) <-> k ∈ fieldnames.
Proof.
  intros Hk. unfold check_site_finish.
  assert (forall k, is_Some (results (ssl_probe w past (get_hostname (site_url site)) c) !! k)
                    <-> k ∈ fieldnames) as H1.
  { unfold ssl_probe.
    destruct (tls_cert w _ _) as [[na|] |]; [destruct (strptime_cert na) | |]; keys. }
  assert (forall k, is_Some (results (domain_probe w past (get_hostname (site_url site))
                                        (ssl_probe w past (get_hostname (site_url site)) c))
                               !! k) <-> k ∈ fieldnames) as H2.
  { unfold domain_probe.
    destruct (get_domain_expiry _ _ _ _) as [[[d|] v] evs];
      destruct (is_domain_sentinel v); keys. }
  assert (forall k, is_Some (results (mark_slow cfg
                                        (domain_probe w past (get_hostname (site_url site))
                                           (ssl_probe w past (get_hostname (site_url site)) c)))
                               !! k) <-> k ∈ fieldnames) as H3.
  { unfold mark_slow.
    destruct (results _ !! "HTTP Time (ms)") as [tm|]; [| keys].
    destruct (results _ !! "Status") as [[| | | | st]|]; try keys.
    destruct (is_number tm && py_gt tm (RESPONSE_TIME_THRESHOLD cfg)); [| keys].
    destruct (startswith st "Up"); keys. }
  keys.
Qed.

(** The keys of a returned record are the columns of the log. *)
Lemma run_keys (site res : gmap string pyval) (evs : list event) (k : string) :
  check_site w cfg past site = (RetResults res, evs) ->
  is_Some (res !! k) <-> k ∈ fieldnames.
Proof.
  intros Hrun.
  destruct (run_record site res evs Hrun) as (t & x & c & _ & _ & Hc & -> & _).
  apply finish_keys. eapply http_probe_keys; [exact Hc |].
  intros k'. apply before_http_keys.
Qed.

(** X3. A returned record has exactly the fifteen columns of the log as its
    keys, so [DictWriter] finds every column and no other key: each cell of
    the row is the value the record holds for its column. *)
Theorem record_has_the_columns (site res : gmap string pyval) (evs : list event) :
  check_site w cfg past site = (RetResults res, evs) ->
  (forall k, is_Some (res !! k) <-> k ∈ fieldnames) /\
  length (csv_row res) = 15%nat /\
  Forall2 (fun k v => res !! k = Some v) fieldnames (csv_row res).
Proof.
  intros Hrun.
  assert (forall k, is_Some (res !! k) <-> k ∈ fieldnames) as Hk.
  { intros k. by eapply run_keys. }
  split; [exact Hk |]. split; [reflexivity |].
  unfold csv_row, fieldnames. cbn [map].
  repeat first
    [ apply Forall2_nil_2
    | apply Forall2_cons_2;
      [ match goal with
        | |- ?r !! ?k = Some _ =>
          assert (is_Some (r !! k)) as [? ->]
            by (apply Hk; unfold fieldnames;
                repeat first [ apply list_elem_of_here | apply list_elem_of_further ]);
          reflexivity
        end | ] ].
Qed.

(** The notes after the ICMP block: one more note exactly when the field
    says ["Error"]. *)
Lemma icmp_notes_exact (u : bool) (ip : option string) (c : ctx) :
  (notes (icmp_probe w past u ip c) = notes c +:+ "ICMP ping failed. " /\
   results (icmp_probe w past u ip c) !! "Ping (ms)" = Some (PStr "Error")) \/
  (notes (icmp_probe w past u ip c) = notes c /\
   results (icmp_probe w past u ip c) !! "Ping (ms)" ≠ Some (PStr "Error")).
Proof.
  unfold icmp_probe.
  destruct (ping_target u ip); [destruct (ping w _ _) as [[] [] |] |];
    cbn [results set_result add_note emit notes];
    first [ left; split; [done |]; by look | right; split; [done |]; by look ].
Qed.

(** *** Status, DNS and raises *)

(** X4. The Status of a returned record is ["Up"], ["Up (Slow)"],
    ["Down (<code>)"] or ["Down (HTTP Error)"]: the initial ["Down"] never
    reaches the log, because a call that does not finish its HTTP block
    returns no record. *)
Theorem status_of_a_record (site res : gmap string pyval) (evs : list event) :
  check_site w cfg past site = (RetResults res, evs) ->
  exists s,
    res !! "Status" = Some (PStr s) /\
    (s = "Up" \/ s = "Up (Slow)" \/ s = "Down (HTTP Error)" \/
     exists code, s = status_down code) /\
    s ≠ "Down".
Proof.
  intros Hrun.
  destruct (run_record site res evs Hrun) as (t & x & c & _ & _ & _ & _ & _ & Hne & Hin).
  destruct (http_get w _ (site_url site) t) as [r | e |]; [| | done].
  - destruct (record_of_response _ _ _ _ _ _ Hrun Hin)
      as (x' & c' & _ & _ & _ & _ & [= ->] & _ & _ & Hst & _).
    eexists. split; [exact Hst |].
    destruct (status_code r =? x')%Z.
    + destruct (Qltb _ _); split; try done; tauto.
    + split; [by eauto 6 |]. unfold status_down. by rewrite append_cons.
  - destruct (record_of_request_exception _ _ _ _ _ _ Hrun Hin)
      as (res' & [= <-] & Hst & _).
    eexists. split; [exact Hst |]. split; [tauto | done].
Qed.

(** The DNS field before the HTTP block. *)
Lemma before_http_dns (site : gmap string pyval) :
  let c := before_http w cfg past site in
  match resolve w past (get_hostname (site_url site)) with
  | DnsAnswers elapsed (_ :: _) =>
    results c !! "DNS Time (ms)" = Some (PFloat (round2 (float_mul elapsed 1000))) /\
    (results c !! "Ping (ms)" ≠ Some (PStr "Error") -> notes c = "")
  | _ =>
    results c !! "DNS Time (ms)" = Some (PStr "Failed") /\
    contains "DNS lookup failed." (notes c)
  end.
Proof.
  cbv zeta. unfold before_http, dns_probe. cbn [trace]. rewrite app_nil_r.
  destruct (resolve w past (get_hostname (site_url site))) as [el [|a l] |];
    match goal with
    | |- context [icmp_probe w past ?u ?ip ?c0] =>
      rewrite (icmp_results u ip c0 "DNS Time (ms)") by done;
      pose proof (icmp_notes_exact u ip c0) as Hn
    end; cbn [results set_result add_note emit notes] in *.
  - split; [by look |]. destruct Hn as [[-> _] | [-> _]].
    + apply contains_app_r. by exists "", " ".
    + exists "", " ". by rewrite append_nil_l.
  - split; [by look |]. intros Hp. by destruct Hn as [[_ Hn] | [-> _]].
  - split; [by look |]. destruct Hn as [[-> _] | [-> _]].
    + apply contains_app_r. by exists "", " ".
    + exists "", " ". by rewrite append_nil_l.
Qed.

(** *** The notes, block by block *)

(** What the HTTP block adds to the notes: the note of the status or of the
    failed request, then the note of the keyword. *)
Lemma http_probe_notes (site : gmap string pyval) (name url : pyval) (t x : Z) (f : bool)
    (c c' : ctx) :
  http_probe w past site name url t x f c = Done c' ->
  results c !! "Keyword Check" = Some (PStr "Skipped") ->
  exists n3 n4,
    notes c' = notes c +:+ n3 +:+ n4 /\
    n3 = match http_get w (past ++ trace c) url t with
         | HttpResponse r =>
           if (status_code r =? x)%Z then "" else status_note x (status_code r) +:+ " "
         | HttpRequestException _ => "HTTP request failed. "
         | HttpOtherError => ""
         end /\
    ((n4 = "" /\ results c' !! "Keyword Check" ≠ Some (PStr "Fail")) \/
     (exists kw, site !! "keyword" = Some (PStr kw) /\
                 n4 = "Keyword '" +:+ kw +:+ "' not found in content. " /\
                 results c' !! "Keyword Check" = Some (PStr "Fail"))).
Proof.
  intros Hc Hk. unfold http_probe in Hc.
  destruct (http_get w (past ++ trace c) url t) as [r | e |]; [| | done].
  - injection Hc as <-. eexists _, _. split; [| split; [reflexivity |]].
    + unfold keyword_check.
      instantiate (1 :=
        match default PNone (site !! "keyword") with
        | PStr kw =>
          if f && py_bool (PStr kw) then
            if str_in (str_lower kw) (str_lower (text r)) then ""
            else "Keyword '" +:+ kw +:+ "' not found in content. "
          else ""
        | _ => ""
        end).
      destruct (default PNone (site !! "keyword")) as [| b | z | q | kw];
        destruct (status_code r =? x)%Z;
        repeat case_match;
        cbn [results set_result add_note emit send_email notes];
        by rewrite ?append_nil_r, ?append_assoc.
    + unfold keyword_check.
      destruct (default PNone (site !! "keyword")) as [| b | z | q | kw] eqn:Ekw;
        try (left; split; [done |]; repeat case_match;
             cbn [results set_result add_note emit send_email notes];
             look; by rewrite ?Hk).
      assert (site !! "keyword" = Some (PStr kw)) as Ekw'.
      { destruct (site !! "keyword"); [by simpl in Ekw; subst | done]. }
      destruct (f && py_bool (PStr kw)) eqn:Ef.
      * destruct (str_in _ _).
        -- left. split; [done |].
           cbn [results set_result add_note emit send_email notes]. by look.
        -- right. exists kw. split; [done |]. split; [done |].
           cbn [results set_result add_note emit send_email notes]. by look.
      * left. split; [done |]. case_match;
          cbn [results set_result add_note emit send_email notes]; look; by rewrite Hk.
  - injection Hc as <-. exists "HTTP request failed. ", "". split; [| split; [done |]].
    + cbn [results set_result add_note emit send_email notes]. by rewrite append_nil_r.
    + left. split; [done |].
      cbn [results set_result add_note emit send_email notes]. look. by rewrite Hk.
Qed.

(** The SSL block: both fields from the certificate, or ["Failed"] and a
    note. *)
Lemma ssl_fields (h : pyval) (c : ctx) :
  let out := tls_cert w (past ++ trace c) h in
  let c' := ssl_probe w past h c in
  match out with
  | TlsCert (Some not_after) =>
    match strptime_cert not_after with
    | Some expiry =>
      results c' !! "SSL Days Left"
        = Some (PInt (days_until (replace_utc expiry)
                        (now_utc w (past ++ trace c ++ [EvTls h out])))) /\
      results c' !! "SSL Expiry Date" = Some (PStr (isoformat (replace_utc expiry))) /\
      notes c' = notes c
    | None =>
      results c' !! "SSL Days Left" = Some (PStr "Failed") /\
      results c' !! "SSL Expiry Date" = results c !! "SSL Expiry Date" /\
      notes c' = notes c +:+ "SSL check failed. "
    end
  | _ =>
    results c' !! "SSL Days Left" = Some (PStr "Failed") /\
    results c' !! "SSL Expiry Date" = results c !! "SSL Expiry Date" /\
    notes c' = notes c +:+ "SSL check failed. "
  end.
Proof.
  cbv zeta. unfold ssl_probe.
  destruct (tls_cert w (past ++ trace c) h) as [[na |] |];
    [destruct (strptime_cert na) |..];
    cbn [results set_result add_note emit notes trace]; split_and!; by look.
Qed.

(** The WHOIS block: the note it adds, by the value of the days left. *)
Lemma domain_notes_exact (h : pyval) (c : ctx) :
  let c' := domain_probe w past h c in
  (exists z, results c' !! "Domain Days Left" = Some (PInt z) /\ notes c' = notes c) \/
  (exists s, results c' !! "Domain Days Left" = Some (PStr s) /\
             (s = "N/A" \/ s = "WHOIS Failed") /\
             notes c' = notes c +:+ "Domain check failed: " +:+ s +:+ ". ").
Proof.
  cbv zeta. unfold domain_probe.
  destruct (whois_lookup w) as [whois |] eqn:E.
  - rewrite (get_domain_expiry_available whois (trace c) h E). cbv zeta.
    destruct (whois (past ++ trace c)%list h) as [e |]; [destruct (usable_date e) |];
      cbn [is_domain_sentinel String.eqb Ascii.eqb Bool.eqb orb py_format
           results set_result add_note emit notes].
    + left. eexists. split; [by look | done].
    + right. exists "N/A". split; [by look |]. split; [by left |].
      by rewrite ?append_assoc.
    + right. exists "WHOIS Failed". split; [by look |]. split; [by right |].
      by rewrite ?append_assoc.
  - rewrite (get_domain_expiry_unavailable (trace c) h E).
    cbn [is_domain_sentinel String.eqb Ascii.eqb Bool.eqb orb py_format
         results set_result add_note emit notes].
    right. exists "N/A". split; [by look |]. split; [by left |].
    by rewrite ?append_assoc.
Qed.

(** The notes before the HTTP block: the note of the resolution, then the
    note of the ping, each told by its field. *)
Lemma before_http_notes (site : gmap string pyval) :
  let c := before_http w cfg past site in
  exists n1 n2,
    notes c = n1 +:+ n2 /\
    ((n1 = "DNS lookup failed. " /\ results c !! "DNS Time (ms)" = Some (PStr "Failed")) \/
     (n1 = "" /\ exists q, results c !! "DNS Time (ms)" = Some (PFloat q))) /\
    ((n2 = "ICMP ping failed. " /\ results c !! "Ping (ms)" = Some (PStr "Error")) \/
     (n2 = "" /\ results c !! "Ping (ms)" ≠ Some (PStr "Error"))).
Proof.
  cbv zeta. unfold before_http, dns_probe. cbn [trace]. rewrite app_nil_r.
  destruct (resolve w past (get_hostname (site_url site))) as [el [|a l] |];
    match goal with
    | |- context [icmp_probe w past ?u ?ip ?c0] =>
      rewrite (icmp_results u ip c0 "DNS Time (ms)") by done;
      destruct (icmp_notes_exact u ip c0) as [[Hn Hp] | [Hn Hp]];
      rewrite Hn
    end; cbn [results set_result add_note emit notes].
  - exists "DNS lookup failed. ", "ICMP ping failed. ".
    split; [done |]. split; [left; split; [done | by look] | by left].
  - exists "DNS lookup failed. ", "".
    split; [done |]. split; [left; split; [done | by look] | by right].
  - exists "", "ICMP ping failed. ".
    split; [done |]. split; [right; split; [done | eexists; by look] | by left].
  - exists "", "".
    split; [done |]. split; [right; split; [done | eexists; by look] | by right].
  - exists "DNS lookup failed. ", "ICMP ping failed. ".
    split; [done |]. split; [left; split; [done | by look] | by left].
  - exists "DNS lookup failed. ", "".
    split; [done |]. split; [left; split; [done | by look] | by right].
Qed.

Lemma ssl_notes_exact (h : pyval) (c : ctx) :
  let c' := ssl_probe w past h c in
  exists n5,
    notes c' = notes c +:+ n5 /\
    ((n5 = "SSL check failed. " /\ results c' !! "SSL Days Left" = Some (PStr "Failed")) \/
     (n5 = "" /\ exists z, results c' !! "SSL Days Left" = Some (PInt z))).
Proof.
  cbv zeta. pose proof (ssl_fields h c) as Hf. cbv zeta in Hf.
  destruct (tls_cert w (past ++ trace c) h) as [[na |] |];
    [destruct (strptime_cert na) |..]; destruct Hf as (Hd & _ & Hn).
  - exists "". rewrite append_nil_r. split; [done |]. right. by eauto.
  - exists "SSL check failed. ". split; [done |]. by left.
  - exists "SSL check failed. ". split; [done |]. by left.
  - exists "SSL check failed. ". split; [done |]. by left.
Qed.

(** The end of the call: which state each of the last fields comes from. *)
Lemma finish_last_fields (site : gmap string pyval) (c : ctx) :
  let h := get_hostname (site_url site) in
  let c5 := ssl_probe w past h c in
  let c6 := domain_probe w past h c5 in
  let r := results (check_site_finish w cfg past site c) in
  r !! "SSL Days Left" = results c5 !! "SSL Days Left" /\
  r !! "SSL Expiry Date" = results c5 !! "SSL Expiry Date" /\
  r !! "Domain Days Left" = results c6 !! "Domain Days Left" /\
  r !! "Notes" = Some (PStr (strip (notes c6))).
Proof.
  cbv zeta. unfold check_site_finish. cbn [results set_result]. look.
  rewrite !mark_slow_results by done. rewrite mark_slow_notes.
  by rewrite !domain_results by done.
Qed.

(** The notes of a returned record: what each block added, with the field
    that tells it. *)
Lemma run_notes (site res : gmap string pyval) (evs : list event) :
  check_site w cfg past site = (RetResults res, evs) ->
  exists n1 n2 n3 n4 n5 n6 t x,
    res !! "Notes" = Some (PStr (strip (n1 +:+ n2 +:+ n3 +:+ n4 +:+ n5 +:+ n6))) /\
    site_timeout cfg site = Some t /\
    site_expected_status site = Some x /\
    EvGet (site_url site) t
      (http_get w (past ++ trace (before_http w cfg past site)) (site_url site) t) ∈ evs /\
    ((n1 = "DNS lookup failed. " /\ res !! "DNS Time (ms)" = Some (PStr "Failed")) \/
     (n1 = "" /\ exists q, res !! "DNS Time (ms)" = Some (PFloat q))) /\
    ((n2 = "ICMP ping failed. " /\ res !! "Ping (ms)" = Some (PStr "Error")) \/
     (n2 = "" /\ res !! "Ping (ms)" ≠ Some (PStr "Error"))) /\
    n3 = match http_get w (past ++ trace (before_http w cfg past site)) (site_url site) t with
         | HttpResponse r =>
           if (status_code r =? x)%Z then "" else status_note x (status_code r) +:+ " "
         | HttpRequestException _ => "HTTP request failed. "
         | HttpOtherError => ""
         end /\
    ((n4 = "" /\ res !! "Keyword Check" ≠ Some (PStr "Fail")) \/
     (exists kw, site !! "keyword" = Some (PStr kw) /\
                 n4 = "Keyword '" +:+ kw +:+ "' not found in content. " /\
                 res !! "Keyword Check" = Some (PStr "Fail"))) /\
    ((n5 = "SSL check failed. " /\ res !! "SSL Days Left" = Some (PStr "Failed")) \/
     (n5 = "" /\ exists z, res !! "SSL Days Left" = Some (PInt z))) /\
    ((n6 = "" /\ exists z, res !! "Domain Days Left" = Some (PInt z)) \/
     (exists s, n6 = "Domain check failed: " +:+ s +:+ ". " /\
                (s = "N/A" \/ s = "WHOIS Failed") /\
                res !! "Domain Days Left" = Some (PStr s))).
Proof.
  intros Hrun.
  destruct (run_record site res evs Hrun) as (t & x & c & Ht & Hx & Hc & -> & -> & _ & Hin).
  destruct (before_http_notes site) as (n1 & n2 & Hn12 & D1 & D2).
  destruct (before_http_initial site) as (_ & _ & _ & Hkw & _).
  destruct (http_probe_notes _ _ _ _ _ _ _ _ Hc Hkw) as (n3 & n4 & Hn34 & Hn3 & D4).
  destruct (http_probe_frame _ _ _ _ _ _ _ _ Hc) as (Hfr & _).
  destruct (finish_last_fields site c) as (Hs & _ & Hd & Hn).
  destruct (ssl_notes_exact (get_hostname (site_url site)) c) as (n5 & Hn5 & D5).
  pose proof (domain_notes_exact (get_hostname (site_url site))
                (ssl_probe w past (get_hostname (site_url site)) c)) as D6.
  cbv zeta in D5, D6.
  assert (forall k, k ≠ "HTTP Time (ms)" -> k ≠ "Redirects" -> k ≠ "Content Size (KB)" ->
                    k ≠ "Status" -> k ≠ "Keyword Check" ->
                    results c !! k = results (before_http w cfg past site) !! k) as Hfr'.
  { intros k ?????. apply Hfr. rewrite !not_elem_of_cons.
    split_and!; try done. apply not_elem_of_nil. }
  set (r := results (check_site_finish w cfg past site c)) in *.
  assert (r !! "DNS Time (ms)" = results (before_http w cfg past site) !! "DNS Time (ms)")
    as E1 by (unfold r; rewrite finish_results by done; by apply Hfr').
  assert (r !! "Ping (ms)" = results (before_http w cfg past site) !! "Ping (ms)")
    as E2 by (unfold r; rewrite finish_results by done; by apply Hfr').
  assert (r !! "Keyword Check" = results c !! "Keyword Check")
    as E4 by (unfold r; by rewrite finish_results by done).
  rewrite <- E1 in D1. rewrite <- E2 in D2. rewrite <- E4 in D4.
  rewrite <- Hs in D5. rewrite <- Hd in D6.
  destruct D6 as [(z & Hz & Hn6) | (s & Hz & Hor & Hn6)].
  - exists n1, n2, n3, n4, n5, "", t, x. split_and!; try done.
    + rewrite Hn, Hn6, Hn5, Hn34, Hn12. by rewrite ?append_nil_r, ?append_assoc.
    + left. by eauto.
  - exists n1, n2, n3, n4, n5, ("Domain check failed: " +:+ s +:+ ". "), t, x.
    split_and!; try done.
    + rewrite Hn, Hn6, Hn5, Hn34, Hn12. by rewrite ?append_assoc.
    + right. by eauto.
Qed.

(** X5. The Notes of a returned record are empty exactly when nothing went
    wrong: the name resolved, the ping did not raise, the status is ["Up"]
    or ["Up (Slow)"], the keyword was not missing, and the certificate and
    the domain both gave a number of days. *)
Theorem notes_empty_iff_clean (site res : gmap string pyval) (evs : list event) :
  check_site w cfg past site = (RetResults res, evs) ->
  res !! "Notes" = Some (PStr "") <->
  (exists q, res !! "DNS Time (ms)" = Some (PFloat q)) /\
  res !! "Ping (ms)" ≠ Some (PStr "Error") /\
  (res !! "Status" = Some (PStr "Up") \/ res !! "Status" = Some (PStr "Up (Slow)")) /\
  res !! "Keyword Check" ≠ Some (PStr "Fail") /\
  (exists z, res !! "SSL Days Left" = Some (PInt z)) /\
  (exists z, res !! "Domain Days Left" = Some (PInt z)).
Proof.
  intros Hrun.
  destruct (run_notes site res evs Hrun)
    as (n1 & n2 & n3 & n4 & n5 & n6 & t & x & Hn & Ht & Hx & Hin & D1 & D2 & Hn3 & D4 & D5 & D6).
  destruct (run_record site res evs Hrun) as (t' & _ & _ & Ht' & _ & _ & _ & _ & Hne & _).
  rewrite Ht in Ht'. injection Ht' as <-.
  assert ((n3 = "" /\
           (res !! "Status" = Some (PStr "Up") \/ res !! "Status" = Some (PStr "Up (Slow)"))) \/
          ((exists c m, is_space c = false /\ n3 = String c (m +:+ ". ")) /\
           res !! "Status" ≠ Some (PStr "Up") /\ res !! "Status" ≠ Some (PStr "Up (Slow)")))
    as D3.
  { destruct (http_get w _ (site_url site) t) as [r | e |]; [| | done].
    - destruct (record_of_response _ _ _ _ _ _ Hrun Hin)
        as (x' & c' & Hx' & _ & _ & _ & Hret & _ & _ & Hst & _).
      assert (res = results (check_site_finish w cfg past site c')) as -> by congruence.
      rewrite Hx in Hx'. injection Hx' as <-. rewrite Hst.
      destruct (status_code r =? x)%Z.
      + left. split; [done |]. destruct (Qltb _ _); by eauto.
      + right. split.
        * exists "E"%char,
            ("xpected status " +:+ str_of_Z x +:+ ", but got " +:+ str_of_Z (status_code r)).
          split; [done |]. rewrite Hn3. unfold status_note.
          by repeat first [rewrite append_cons | rewrite append_assoc].
        * unfold status_down. rewrite append_cons. split; intros [=].
    - destruct (record_of_request_exception _ _ _ _ _ _ Hrun Hin)
        as (res' & [= <-] & Hst & _).
      right. rewrite Hst. split; [| by split].
      exists "H"%char, "TTP request failed". by rewrite Hn3. }
  assert (n1 +:+ n2 +:+ n3 +:+ n4 +:+ n5 +:+ n6
          = foldr String.append "" [n1; n2; n3; n4; n5; n6]) as Hsum.
  { cbn [foldr]. by rewrite append_nil_r. }
  rewrite Hn. split.
  - intros [= E]. rewrite Hsum in E.
    assert (Forall (fun n => n = "") [n1; n2; n3; n4; n5; n6]) as Hall.
    { apply notes_all_empty; [| done].
      repeat apply Forall_cons_2; [..| apply Forall_nil_2].
      - destruct D1 as [[-> _] | [-> _]]; [right | by left].
        by exists "D"%char, "NS lookup failed".
      - destruct D2 as [[-> _] | [-> _]]; [right | by left].
        by exists "I"%char, "CMP ping failed".
      - destruct D3 as [[-> _] | [? _]]; [by left | by right].
      - destruct D4 as [[-> _] | (kw & _ & -> & _)]; [by left | right].
        exists "K"%char, ("eyword '" +:+ kw +:+ "' not found in content").
        split; [done |]. by repeat first [rewrite append_cons | rewrite append_assoc].
      - destruct D5 as [[-> _] | [-> _]]; [right | by left].
        by exists "S"%char, "SL check failed".
      - destruct D6 as [[-> _] | (s & -> & _)]; [by left | right].
        exists "D"%char, ("omain check failed: " +:+ s).
        split; [done |]. by repeat first [rewrite append_cons | rewrite append_assoc]. }
    apply Forall_cons in Hall as [-> Hall]. apply Forall_cons in Hall as [-> Hall].
    apply Forall_cons in Hall as [-> Hall]. apply Forall_cons in Hall as [-> Hall].
    apply Forall_cons in Hall as [-> Hall]. apply Forall_cons in Hall as [-> _].
    split_and!.
    + by destruct D1 as [[? _] | [_ ?]].
    + by destruct D2 as [[? _] | [_ ?]].
    + destruct D3 as [[_ ?] | [(c & m & _ & ?) _]]; done.
    + destruct D4 as [[_ ?] | (kw & _ & ? & _)]; [done |].
      by rewrite append_cons in *.
    + by destruct D5 as [[? _] | [_ ?]].
    + destruct D6 as [[_ ?] | (s & ? & _)]; [done |]. by rewrite append_cons in *.
  - intros ([q Hq] & Hp & Hs & Hk & [z5 Hz5] & [z6 Hz6]).
    destruct D1 as [[_ D1] | [-> _]]; [by rewrite Hq in D1 |].
    destruct D2 as [[_ D2] | [-> _]]; [done |].
    destruct D3 as [[-> _] | (_ & ? & ?)]; [| by destruct Hs].
    destruct D4 as [[-> _] | (kw & _ & _ & ?)]; [| done].
    destruct D5 as [[_ D5] | [-> _]]; [by rewrite Hz5 in D5 |].
    destruct D6 as [[-> _] | (s & _ & _ & D6)]; [| by rewrite Hz6 in D6].
    done.
Qed.

(** X6. A failed check leaves its note in the Notes of the record: the
    resolution, the ping, the keyword, the certificate and the domain. *)
Theorem every_failure_is_noted (site res : gmap string pyval) (evs : list event) :
  check_site w cfg past site = (RetResults res, evs) ->
  exists n,
    res !! "Notes" = Some (PStr n) /\
    (res !! "DNS Time (ms)" = Some (PStr "Failed") -> contains "DNS lookup failed." n) /\
    (res !! "Ping (ms)" = Some (PStr "Error") -> contains "ICMP ping failed." n) /\
    (res !! "Keyword Check" = Some (PStr "Fail") ->
       exists kw, site !! "keyword" = Some (PStr kw) /\
                  contains ("Keyword '" +:+ kw +:+ "' not found in content.") n) /\
    (res !! "SSL Days Left" = Some (PStr "Failed") -> contains "SSL check failed." n) /\
    (forall s, res !! "Domain Days Left" = Some (PStr s) ->
               (s = "N/A" \/ s = "WHOIS Failed") /\
               contains ("Domain check failed: " +:+ s +:+ ".") n).
Proof.
  intros Hrun.
  destruct (run_notes site res evs Hrun)
    as (n1 & n2 & n3 & n4 & n5 & n6 & t & x & Hn & _ & _ & _ & D1 & D2 & _ & D4 & D5 & D6).
  assert (n1 +:+ n2 +:+ n3 +:+ n4 +:+ n5 +:+ n6
          = foldr String.append "" [n1; n2; n3; n4; n5; n6]) as Hsum.
  { cbn [foldr]. by rewrite append_nil_r. }
  rewrite Hsum in Hn. eexists. split; [exact Hn |]. split_and!.
  - intros E. destruct D1 as [[-> _] | [_ [q Hq]]]; [| by rewrite E in Hq].
    apply (note_kept _ "D" "NS lookup failed"); [done |]. apply list_elem_of_here.
  - intros E. destruct D2 as [[-> _] | [_ ?]]; [| done].
    apply (note_kept _ "I" "CMP ping failed"); [done |].
    apply list_elem_of_further, list_elem_of_here.
  - intros E. destruct D4 as [[_ ?] | (kw & Hkw & -> & _)]; [done |].
    exists kw. split; [done |].
    pose proof (note_kept [n1; n2; n3;
                           "Keyword '" +:+ kw +:+ "' not found in content. "; n5; n6]
                  "K" ("eyword '" +:+ kw +:+ "' not found in content") eq_refl) as Hk.
    rewrite !append_cons, !append_assoc in Hk. rewrite !append_cons.
    apply Hk. do 3 apply list_elem_of_further. apply list_elem_of_here.
  - intros E. destruct D5 as [[-> _] | [_ [z Hz]]]; [| by rewrite E in Hz].
    apply (note_kept _ "S" "SL check failed"); [done |].
    do 4 apply list_elem_of_further. apply list_elem_of_here.
  - intros s E. destruct D6 as [[_ [z Hz]] | (s' & -> & Hor & Hs')]; [by rewrite E in Hz |].
    rewrite E in Hs'. injection Hs' as <-. split; [done |].
    pose proof (note_kept [n1; n2; n3; n4; n5; "Domain check failed: " +:+ s +:+ ". "]
                  "D" ("omain check failed: " +:+ s) eq_refl) as Hk.
    rewrite !append_cons, !append_assoc in Hk. rewrite !append_cons.
    apply Hk. do 5 apply list_elem_of_further. apply list_elem_of_here.
Qed.

(** *** The other fields of the record *)

(** X7. The SSL fields of a returned record come from the one TLS handshake
    of the call: with a [notAfter] that parses, the ISO date of the expiry
    taken as UTC and the whole days from the instant after the handshake to
    it, negative exactly when the certificate has expired; otherwise
    ["Failed"] and ["N/A"]. *)
Theorem ssl_fields_of_a_record (site res : gmap string pyval) (evs : list event) :
  check_site w cfg past site = (RetResults res, evs) ->
  let h := get_hostname (site_url site) in
  exists pre post,
    let tl := tls_cert w (past ++ pre) h in
    evs = (pre ++ EvTls h tl :: post)%list /\
    match tl with
    | TlsCert (Some not_after) =>
      match strptime_cert not_after with
      | Some expiry =>
        let now := now_utc w (past ++ pre ++ [EvTls h tl]) in
        res !! "SSL Days Left" = Some (PInt (days_until (replace_utc expiry) now)) /\
        res !! "SSL Expiry Date" = Some (PStr (isoformat (replace_utc expiry))) /\
        ((days_until (replace_utc expiry) now < 0)%Z <-> (dt_wall expiry < dt_wall now)%Z)
      | None =>
        res !! "SSL Days Left" = Some (PStr "Failed") /\
        res !! "SSL Expiry Date" = Some (PStr "N/A")
      end
    | _ =>
      res !! "SSL Days Left" = Some (PStr "Failed") /\
      res !! "SSL Expiry Date" = Some (PStr "N/A")
    end.
Proof.
  intros Hrun h.
  destruct (run_record site res evs Hrun) as (t & x & c & _ & _ & Hc & -> & -> & _).
  destruct (http_probe_frame _ _ _ _ _ _ _ _ Hc) as (Hfr & _).
  destruct (finish_last_fields site c) as (Hs & He & _).
  pose proof (ssl_fields h c) as Hf. cbv zeta in Hf.
  assert (results c !! "SSL Expiry Date" = Some (PStr "N/A")) as Hinit.
  { rewrite Hfr.
    - rewrite before_http_results by done. unfold init_results. by look.
    - rewrite !not_elem_of_cons. split_and!; try done. apply not_elem_of_nil. }
  exists (trace c), (get_domain_expiry w past (trace c ++ [EvTls h (tls_cert w (past ++ trace c) h)]) h).2.
  cbv zeta. split; [apply finish_trace |].
  fold h in Hs, He. rewrite Hs, He.
  destruct (tls_cert w (past ++ trace c) h) as [[na |] |];
    [destruct (strptime_cert na) |..]; destruct Hf as (Hd & Hx & _).
  - split; [done |]. split; [done |]. exact (days_until_neg (replace_utc d) _).
  - split; [done |]. by rewrite Hx.
  - split; [done |]. by rewrite Hx.
  - split; [done |]. by rewrite Hx.
Qed.

(** X8. The DNS time of a returned record is the measured time only when
    the resolver returned at least one answer: when it raised, and when it
    returned no answer, the field is ["Failed"]. *)
Theorem dns_time_of_a_record (site res : gmap string pyval) (evs : list event) :
  check_site w cfg past site = (RetResults res, evs) ->
  match resolve w past (get_hostname (site_url site)) with
  | DnsAnswers elapsed (_ :: _) =>
    res !! "DNS Time (ms)" = Some (PFloat (round2 (float_mul elapsed 1000)))
  | _ => res !! "DNS Time (ms)" = Some (PStr "Failed")
  end.
Proof.
  intros Hrun.
  destruct (run_record site res evs Hrun) as (t & x & c & _ & _ & Hc & -> & -> & _).
  destruct (http_probe_frame _ _ _ _ _ _ _ _ Hc) as (Hfr & _).
  rewrite finish_results by done. rewrite Hfr.
  - pose proof (before_http_dns site) as Hd. cbv zeta in Hd.
    destruct (resolve w past (get_hostname (site_url site))) as [el [|a l] |];
      by destruct Hd as [-> _].
  - rewrite !not_elem_of_cons. split_and!; try done. apply not_elem_of_nil.
Qed.



(** X10. A call that raises returns no record and sends no mail: either
    the timeout or the expected status of the site is not an integer and no
    probe ran, or the request raised something other than a
    [RequestException], and the call ended there, before the TLS handshake
    and the WHOIS lookup. *)
Theorem raised_call_stops (site : gmap string pyval) (evs : list event) :
  check_site w cfg past site = (Raised, evs) ->
  enabled site = true /\
  (((site_timeout cfg site = None \/ site_expected_status site = None) /\ evs = []) \/
   (exists t x,
      site_timeout cfg site = Some t /\ site_expected_status site = Some x /\
      evs = (trace (before_http w cfg past site) ++
             [EvGet (site_url site) t HttpOtherError])%list)) /\
  (forall e, e ∈ evs ->
     is_email e = false /\ (forall h o, e ≠ EvTls h o) /\ (forall h o, e ≠ EvWhois h o)).
Proof.
  rewrite check_site_cases. intros Hrun.
  destruct (enabled site); [| done]. split; [done |].
  assert (forall e, e ∈ trace (before_http w cfg past site) ->
            is_email e = false /\ (forall h o, e ≠ EvTls h o) /\ (forall h o, e ≠ EvWhois h o))
    as Hbefore.
  { intros e. rewrite before_http_trace. intros Hin.
    apply elem_of_cons in Hin as [-> | Hin]; [done |].
    destruct (ping_target _ _); [| by apply elem_of_nil in Hin].
    by apply list_elem_of_singleton in Hin as ->. }
  destruct (site_timeout cfg site) as [t|];
    [| apply pair_equal_spec in Hrun as [_ <-]; split; [by eauto |];
       intros e Hin; by apply elem_of_nil in Hin].
  destruct (site_expected_status site) as [x|];
    [| apply pair_equal_spec in Hrun as [_ <-]; split; [by eauto |];
       intros e Hin; by apply elem_of_nil in Hin].
  destruct (http_get w (past ++ trace (before_http w cfg past site)) (site_url site) t)
    as [r | e' |] eqn:E.
  - destruct (http_response site (site_name site) _ t x (site_check_keyword site) _ r E)
      as (c0 & Hc0 & _). by rewrite Hc0 in Hrun.
  - destruct (http_request_exception site (site_name site) _ t x
                (site_check_keyword site) _ e' E) as (c0 & body & Hc0 & _).
    by rewrite Hc0 in Hrun.
  - rewrite (http_other_error _ _ _ _ _ _ _ E) in Hrun.
    apply pair_equal_spec in Hrun as [_ <-]. split; [right; by eauto |].
    intros e Hin. apply elem_of_app in Hin as [Hin | Hin]; [by apply Hbefore |].
    by apply list_elem_of_singleton in Hin as ->.
Qed.

(** The redirects of a returned record are a number. *)
Lemma run_redirects (site res : gmap string pyval) (evs : list event) :
  check_site w cfg past site = (RetResults res, evs) ->
  exists z, res !! "Redirects" = Some (PInt z).
Proof.
  intros Hrun.
  destruct (run_record site res evs Hrun) as (t & x & c & _ & _ & _ & _ & _ & Hne & Hin).
  destruct (http_get w _ (site_url site) t) as [r | e |]; [| | done].
  - destruct (record_of_response _ _ _ _ _ _ Hrun Hin)
      as (x' & c' & _ & _ & _ & _ & Hret & _ & Hred & _).
    assert (res = results (check_site_finish w cfg past site c')) as -> by congruence.
    by eauto.
  - destruct (record_of_request_exception _ _ _ _ _ _ Hrun Hin)
      as (res' & [= <-] & _ & _ & Hred & _).
    by eauto.
Qed.

End Probes.

(** ** One round *)

Section Round.
Context `{PyLib}.
Variable w : World.
Variable cfg : Settings.

(** The events of the past stay in the trace of the round. *)
Lemma check_all_past (sites : list (gmap string pyval)) (past : list event)
    (rows : list (gmap string pyval)) (e : event) :
  e ∈ past -> e ∈ (check_all w cfg past sites rows).2.
Proof.
  revert past rows. induction sites as [|site rest IH]; intros past rows Hin; [done |].
  simpl. destruct (check_site w cfg past site) as [[| res |] evs];
    apply IH, elem_of_app; by left.
Qed.

(** Every row of a round is the record of one call of [check_site], whose
    events are in the trace of the round. *)
Lemma check_all_rows (sites : list (gmap string pyval)) (past : list event)
    (rows : list (gmap string pyval)) (row : gmap string pyval) :
  row ∈ (check_all w cfg past sites rows).1 ->
  row ∈ rows \/
  exists past' site evs,
    check_site w cfg past' site = (RetResults row, evs) /\
    forall e, e ∈ evs -> e ∈ (check_all w cfg past sites rows).2.
Proof.
  revert past rows. induction sites as [|site rest IH]; intros past rows Hin;
    [by left |].
  simpl in *. destruct (check_site w cfg past site) as [[| res |] evs] eqn:E;
    destruct (IH _ _ Hin) as [Hr | Hr]; try by eauto.
  apply elem_of_app in Hr as [Hr | Hr]; [by left |].
  apply list_elem_of_singleton in Hr as ->. right.
  exists past, site, evs. split; [done |].
  intros e He. apply check_all_past, elem_of_app. by right.
Qed.

(** C7. Without the WHOIS module the probe returns ["N/A"] without any
    lookup, and every row of the round has ["N/A"]; with the module, every
    row has one of three outcomes, by the lookup made for it: the days left
    and the ISO date of the first valid date, ["N/A"] when there is no usable
    date, ["WHOIS Failed"] when the lookup raised. *)
Theorem domain_expiry_outcomes (past : list event) (sites : list (gmap string pyval))
    (row : gmap string pyval) :
  row ∈ (check_all w cfg past sites []).1 ->
  match whois_lookup w with
  | None =>
    row !! "Domain Days Left" = Some (PStr "N/A") /\
    row !! "Domain Expiry Date" = Some (PStr "N/A") /\
    forall past' tr h, get_domain_expiry w past' tr h = ((None, PStr "N/A"), [])
  | Some whois =>
    exists h tr,
      EvWhois h (whois tr h) ∈ (check_all w cfg past sites []).2 /\
      match whois tr h with
      | WhoisEntry e =>
        match usable_date e with
        | Some d =>
          row !! "Domain Days Left"
          = Some (PInt (days_until (to_utc d)
                          (now_utc w (tr ++ [EvWhois h (whois tr h)])%list))) /\
          row !! "Domain Expiry Date" = Some (PStr (isoformat (to_utc d)))
        | None =>
          row !! "Domain Days Left" = Some (PStr "N/A") /\
          row !! "Domain Expiry Date" = Some (PStr "N/A")
        end
      | WhoisRaise =>
        row !! "Domain Days Left" = Some (PStr "WHOIS Failed") /\
        row !! "Domain Expiry Date" = Some (PStr "N/A")
      end
  end.
Proof.
  intros Hin.
  apply check_all_rows in Hin as [Hin | (past' & site & evs & Hrun & Hsub)];
    [by apply elem_of_nil in Hin |].
  pose proof (run_domain_outcome w cfg past' site row evs Hrun) as Hd.
  destruct (whois_lookup w) as [whois|] eqn:E.
  - destruct Hd as (h & pre & -> & Hd).
    exists h, (past' ++ pre)%list. split; [| done].
    apply Hsub, elem_of_app. right. by apply list_elem_of_singleton.
  - destruct Hd as [-> ->]. split_and!; try done.
    intros past'' tr h. by apply get_domain_expiry_unavailable.
Qed.

Lemma check_site_disabled (site : gmap string pyval) (past : list event) :
  enabled site = false -> check_site w cfg past site = (RetNone, []).
Proof. intros Hoff. unfold check_site. by rewrite Hoff. Qed.

(** A disabled site adds neither a row nor an event to the loop. *)
Lemma check_all_disabled (site : gmap string pyval) (pre post : list (gmap string pyval))
    (past : list event) (rows : list (gmap string pyval)) :
  enabled site = false ->
  check_all w cfg past (pre ++ site :: post) rows = check_all w cfg past (pre ++ post) rows.
Proof.
  intros Hoff. revert past rows.
  induction pre as [|s pre IH]; intros past rows; simpl.
  - rewrite (check_site_disabled site past Hoff). by rewrite app_nil_r.
  - by destruct (check_site w cfg past s) as [[| res |] evs].
Qed.

(** C8. A site with [enabled] false makes [check_site] return [None]
    before any probe: the round has no row for it, and the rows, the events
    and the log file of the round are those of the round without the site. *)
Theorem disabled_site_no_record (site : gmap string pyval) :
  enabled site = false ->
  (forall past, check_site w cfg past site = (RetNone, [])) /\
  (forall past pre post,
     check_all w cfg past (pre ++ site :: post) []
     = check_all w cfg past (pre ++ post) []) /\
  (forall past pre post file,
     run_checks_and_log w cfg (pre ++ site :: post) past file
     = run_checks_and_log w cfg (pre ++ post) past file).
Proof.
  intros Hoff. split_and!.
  - intros past. by apply check_site_disabled.
  - intros past pre post. by apply check_all_disabled.
  - intros past pre post file. unfold run_checks_and_log.
    by rewrite check_all_disabled.
Qed.

(** ** Sites that raise, and the log file *)

Lemma check_site_unreadable (site : gmap string pyval) (past : list event) :
  enabled site = true ->
  site_timeout cfg site = None \/ site_expected_status site = None ->
  check_site w cfg past site = (Raised, []).
Proof.
  intros Hen Hbad. rewrite check_site_cases, Hen.
  destruct Hbad as [-> | Hx]; [done |].
  destruct (site_timeout cfg site); [by rewrite Hx | done].
Qed.

(** A site whose call adds neither a row nor an event can be left out of
    the loop. *)
Lemma check_all_skip (site : gmap string pyval) (pre post : list (gmap string pyval))
    (past : list event) (rows : list (gmap string pyval)) :
  (forall past', check_site w cfg past' site = (Raised, [])) ->
  check_all w cfg past (pre ++ site :: post) rows = check_all w cfg past (pre ++ post) rows.
Proof.
  intros Hskip. revert past rows.
  induction pre as [|s pre IH]; intros past rows; simpl.
  - rewrite (Hskip past). by rewrite app_nil_r.
  - by destruct (check_site w cfg past s) as [[| res |] evs].
Qed.

(** X11. An enabled site whose timeout or expected status is not an
    integer is never checked: its call raises before any probe, the loop
    catches the exception, and the rows, the events and the log file of the
    round are those of the round without the site. *)
Theorem unreadable_site_is_skipped (site : gmap string pyval) :
  enabled site = true ->
  site_timeout cfg site = None \/ site_expected_status site = None ->
  (forall past, check_site w cfg past site = (Raised, [])) /\
  (forall past pre post file,
     run_checks_and_log w cfg (pre ++ site :: post) past file
     = run_checks_and_log w cfg (pre ++ post) past file).
Proof.
  intros Hen Hbad.
  assert (forall past, check_site w cfg past site = (Raised, [])) as Hskip.
  { intros past. by apply check_site_unreadable. }
  split; [done |].
  intros past pre post file. unfold run_checks_and_log.
  by rewrite check_all_skip.
Qed.

(** A round has at most one row for each site. *)
Lemma check_all_count (sites : list (gmap string pyval)) (past : list event)
    (rows : list (gmap string pyval)) :
  (length (check_all w cfg past sites rows).1 <= length rows + length sites)%nat.
Proof.
  revert past rows. induction sites as [|site rest IH]; intros past rows; simpl; [lia |].
  destruct (check_site w cfg past site) as [[| res |] evs].
  - specialize (IH (past ++ evs)%list rows). lia.
  - specialize (IH (past ++ evs)%list (rows ++ [res])%list).
    rewrite length_app in IH. simpl in IH. lia.
  - specialize (IH (past ++ evs)%list rows). lia.
Qed.

(** The row of a record is not the header line. *)
Lemma csv_row_not_header (res : gmap string pyval) (z : Z) :
  res !! "Redirects" = Some (PInt z) -> csv_row res <> map PStr fieldnames.
Proof.
  intros Hz E. apply (f_equal (fun l => nth 8 l PNone)) in E.
  unfold csv_row, fieldnames in E. cbn [map nth] in E.
  rewrite Hz in E. discriminate E.
Qed.

(** X12. The log file is only ever appended to, and keeps its shape: from
    an empty log or a log that is the header followed by rows, a round
    leaves a log of the same kind, adding at most one row for each site, and
    the header only to an empty log. *)
Theorem log_keeps_its_shape (sites : list (gmap string pyval)) (past : list event)
    (file : list (list pyval)) :
  log_ok file ->
  let file' := (run_checks_and_log w cfg sites past file).2 in
  log_ok file' /\
  exists added,
    file' = (file ++ added)%list /\
    (length added <= S (length sites))%nat /\
    (file <> [] -> Forall (fun l => l <> map PStr fieldnames) added).
Proof.
  intros Hok. cbv zeta. unfold run_checks_and_log.
  pose proof (check_all_count sites past []) as Hcount.
  assert (Forall (fun l => length l = 15%nat /\ l <> map PStr fieldnames)
            (map csv_row (check_all w cfg past sites []).1)) as Hrows.
  { apply Forall_forall. intros l Hl.
    apply list_elem_of_In, in_map_iff in Hl as (row & <- & Hl). split; [done |].
    apply list_elem_of_In, check_all_rows in Hl as [Hl | (past' & site & evs & Hrun & _)];
      [by apply elem_of_nil in Hl |].
    destruct (run_redirects w cfg past' site row evs Hrun) as [z Hz].
    by apply (csv_row_not_header row z). }
  destruct (check_all w cfg past sites []) as [rows tr]. cbn [fst snd] in *.
  assert (log_ok file /\
          exists added, file = (file ++ added)%list /\
                        (length added <= S (length sites))%nat /\
                        (file <> [] -> Forall (fun l => l <> map PStr fieldnames) added))
    as Hsame.
  { split; [done |]. exists []. rewrite app_nil_r. split; [done |]. split; [simpl; lia |].
    intros _. apply Forall_nil_2. }
  destruct rows as [|row rows]; [done |].
  destruct (log_writable w tr); [| done]. cbn [snd]. clear Hsame.
  assert (length (map csv_row (row :: rows)) <= length sites)%nat as Hlen.
  { rewrite length_map. simpl in *. lia. }
  destruct file as [|h recs].
  - split.
    + simpl. split; [done |]. exact Hrows.
    + eexists. split; [done |]. split; [| done]. simpl in *. lia.
  - destruct Hok as [-> Hrecs]. split.
    + simpl. split; [done |]. apply Forall_app. split; [done |]. exact Hrows.
    + eexists. split; [done |]. split; [simpl in *; lia |].
      intros _. simpl. eapply Forall_impl; [exact Hrows |]. by intros l [_ ?].
Qed.

End Round.

(** ** The properties on concrete calls *)

(** ** The mail transport *)

Section MailProperties.
Context `{PyLib}.

(** [split] never returns an empty list. *)
Lemma split_on_cons (sep : ascii) (s : string) :
  exists x r, split_on sep s = x :: r.
Proof.
  induction s as [|a s IH]; simpl; [by eauto |].
  destruct (Ascii.eqb a sep); [by eauto |].
  destruct IH as (x & r & ->). by eauto.
Qed.

(** A string without the separator is its own single piece. *)
Lemma split_on_single (sep : ascii) (s x : string) :
  split_on sep s = [x] -> x = s.
Proof.
  revert x. induction s as [|a s IH]; intros x; simpl; [by intros [= <-] |].
  destruct (split_on_cons sep s) as (y & r & E). rewrite E in *.
  destruct (Ascii.eqb a sep); [done |].
  intros [= <- ->]. by rewrite (IH y).
Qed.

(** The last piece is the end of the string and has no separator in it. *)
Lemma split_on_last (sep : ascii) (s : string) :
  (exists pre, s = pre +:+ List.last (split_on sep s) "") /\
  ~ In sep (list_ascii_of_string (List.last (split_on sep s) "")).
Proof.
  induction s as [|a s [[pre Hpre] Hno]]; [split; [by exists "" | by intros []] |].
  cbn [split_on].
  destruct (split_on_cons sep s) as (x & r & E). rewrite E in *.
  destruct (Ascii.eqb a sep) eqn:Ea.
  - split; [| exact Hno]. exists (String a pre). rewrite append_cons. by f_equal.
  - destruct r as [|y r].
    + cbn [List.last] in *. rewrite (split_on_single sep s x E) in *.
      split; [by exists "" |]. simpl. intros [-> | Hin]; [| done].
      by rewrite Ascii.eqb_refl in Ea.
    + split; [| exact Hno]. exists (String a pre). rewrite append_cons. by f_equal.
Qed.

(** [c in s] for a single character. *)
Lemma str_in_char (c : ascii) (s : string) :
  str_in (String c "") s = true <-> In c (list_ascii_of_string s).
Proof.
  induction s as [|a s IH]; simpl; [done |].
  destruct (ascii_dec c a) as [-> | Hne]; simpl.
  - destruct s; simpl; tauto.
  - rewrite IH. split; [by right | by intros [? | ?]].
Qed.

Lemma str_in_char_suffix (c : ascii) (pre s : string) :
  str_in (String c "") (pre +:+ s) = false -> str_in (String c "") s = false.
Proof.
  rewrite <- !not_true_iff_false, !str_in_char, list_of_append.
  intros Hno Hin. apply Hno, in_or_app. by right.
Qed.

(** A string without the separator is one piece. *)
Lemma split_on_absent (sep : ascii) (s : string) :
  ~ In sep (list_ascii_of_string s) -> split_on sep s = [s].
Proof.
  induction s as [|a s IH]; [done |]. simpl. intros Hno.
  destruct (Ascii.eqb a sep) eqn:Ea.
  - apply Ascii.eqb_eq in Ea. exfalso. apply Hno. by left.
  - rewrite IH; [done |]. intros Hin. apply Hno. by right.
Qed.

(** The last piece has no separator in it; it is the whole string when the
    string has none, and otherwise what follows a separator. *)
Lemma split_on_last_cases (sep : ascii) (s : string) :
  ~ In sep (list_ascii_of_string (List.last (split_on sep s) "")) /\
  ((~ In sep (list_ascii_of_string s) /\ List.last (split_on sep s) "" = s) \/
   exists pre, s = pre +:+ String sep (List.last (split_on sep s) "")).
Proof.
  split; [apply split_on_last |].
  induction s as [|a s IH]; [left; split; [by intros [] | done] |].
  cbn [split_on]. destruct (split_on_cons sep s) as (x & r & E).
  destruct (Ascii.eqb a sep) eqn:Ea.
  - apply Ascii.eqb_eq in Ea as ->. right. rewrite E in *.
    change (List.last ("" :: x :: r) "") with (List.last (x :: r) "").
    destruct IH as [[_ ->] | [pre Hpre]]; [by exists "" |].
    exists (String sep pre). rewrite append_cons. by f_equal.
  - destruct IH as [[Hno Hs] | [pre Hpre]].
    + left. rewrite (split_on_absent sep s Hno). split; [| done].
      simpl. intros [-> | Hin]; [by rewrite Ascii.eqb_refl in Ea | done].
    + right. rewrite E in *. destruct r as [|y r].
      * destruct (split_on_last sep s) as [_ Hno]. rewrite E in Hno.
        cbn [List.last] in Hno, Hpre. rewrite (split_on_single sep s x E) in *.
        exfalso. apply Hno.
        assert (In sep (list_ascii_of_string (pre +:+ String sep s))) as Hin.
        { rewrite list_of_append. apply in_or_app. right. by left. }
        by rewrite <- Hpre in Hin.
      * change (List.last (String a x :: y :: r) "") with (List.last (x :: y :: r) "").
        exists (String a pre). rewrite append_cons. by f_equal.
Qed.

(** X13. The host a sending connects to: [smtp.gmail.com] on port 465 over
    SSL whenever the server text contains ["gmail.com"], whatever else it
    holds and whatever [EMAIL_PORT] is, and otherwise the server text itself
    on [EMAIL_PORT], with STARTTLS. The server text is [EMAIL_SMTP] when it
    has no question mark; when it has one, it is what follows the last equals
    sign after the last question mark, or all that follows the last question
    mark when no equals sign follows it. *)
Theorem smtp_host_of_a_sending (c : Mail.Config) (subject body : string)
    (m : Mail.sending) :
  Mail.send_email c subject body = Some m ->
  let server := Mail.smtp_server (Mail.EMAIL_SMTP c) in
  Mail.conn m = (if str_in "gmail.com" server then Mail.SMTP_SSL "smtp.gmail.com" 465
                 else Mail.SMTP_starttls server (Mail.EMAIL_PORT c)) /\
  if str_in "?" (Mail.EMAIL_SMTP c) then
    exists pre q,
      Mail.EMAIL_SMTP c = pre +:+ "?" +:+ q /\
      str_in "?" q = false /\
      ((str_in "=" q = false /\ server = q) \/
       (exists pre', q = pre' +:+ "=" +:+ server /\ str_in "=" server = false))
  else server = Mail.EMAIL_SMTP c.
Proof.
  intros Hsend. cbv zeta. split.
  { unfold Mail.send_email in Hsend. case_match; [done |]. by injection Hsend as <-. }
  unfold Mail.smtp_server. destruct (str_in "?" (Mail.EMAIL_SMTP c)) eqn:Eq; [| done].
  destruct (split_on_last_cases "?" (Mail.EMAIL_SMTP c)) as [Hno1 [[Hno _] | [pre Hpre]]].
  { exfalso. apply Hno. by apply str_in_char. }
  set (q := List.last (split_on "?" (Mail.EMAIL_SMTP c)) "") in *.
  exists pre, q. split; [exact Hpre |].
  split; [apply not_true_iff_false; by rewrite str_in_char |].
  destruct (split_on_last_cases "=" q) as [Hno2 [[Hno Hq] | [pre' Hpre']]].
  - left. split; [apply not_true_iff_false; by rewrite str_in_char | done].
  - right. exists pre'. split; [exact Hpre' |].
    apply not_true_iff_false. by rewrite str_in_char.
Qed.

(** X14. With the configuration the module reads from the environment, the
    list of recipients is never empty, so the guard of [send_email] never
    stops on it: a mail is attempted exactly when mail is enabled and the
    user and the password are not empty, and with [EMAIL_TO] unset it goes
    to the single recipient [""]. *)
Theorem recipients_never_stop_the_mail (environ : gmap string string) (c : Mail.Config)
    (subject body : string) :
  Mail.load environ = Some c ->
  (is_Some (Mail.send_email c subject body) <->
   Mail.EMAIL_ENABLED c = true /\ Mail.EMAIL_USER c ≠ "" /\ Mail.EMAIL_PASS c ≠ "") /\
  (forall s, Mail.send_email c subject body = Some s -> Mail.to_addrs s ≠ []) /\
  (environ !! "EMAIL_TO" = None -> Mail.EMAIL_TO c = [""]).
Proof.
  unfold Mail.load. intros Hload.
  destruct (match environ !! "EMAIL_PORT" with
            | Some s => int_of_str s
            | None => Some 587%Z
            end) as [port |]; [| done].
  injection Hload as <-. unfold Mail.send_email.
  cbn [Mail.EMAIL_ENABLED Mail.EMAIL_TO Mail.EMAIL_USER Mail.EMAIL_PASS].
  destruct (split_on_cons "," (default "" (environ !! "EMAIL_TO"))) as (x & r & E).
  rewrite E. rewrite orb_false_r.
  split_and!.
  - rewrite <- !String.eqb_neq.
    match goal with |- context [negb ?b] => destruct b end;
      destruct (String.eqb (default "" (environ !! "EMAIL_USER")) "");
      destruct (String.eqb (default "" (environ !! "EMAIL_PASS")) "");
      cbn [negb orb]; split;
      first [ by intros [? [=]] | by intros (? & ? & ?) | by eauto ].
  - intros s Hs. repeat case_match; try done; injection Hs as <-; done.
  - intros Hto. rewrite Hto in E. simpl in E. by injection E as <- <-.
Qed.

End MailProperties.

(** ** The loop *)

Section LoopProperties.
Context {state : Type}.
Variable round : state -> state.

Lemma interval_due_spec (i last now : Z) :
  interval_due i (Some last) now = true <-> (i * 1000000 <= now - last)%Z.
Proof.
  unfold interval_due, total_seconds. rewrite Qle_bool_iff.
  unfold Qle. simpl. lia.
Qed.

(** Consecutive rounds of the interval loop, and the first one after the
    last run the loop started from. *)
Lemma interval_loop_sorted (i : Z) (last : option Z) (st : state) (nows : list Z) :
  let ran := (interval_loop round i last st nows).1 in
  Sorted (fun a b => (i * 1000000 <= b - a)%Z)
    (match last with Some l => l :: ran | None => ran end).
Proof.
  revert last st. induction nows as [|now rest IH]; intros last st; cbn [interval_loop].
  - destruct last; repeat constructor.
  - destruct (interval_due i last now) eqn:Edue.
    + specialize (IH (Some now) (round st)). cbv zeta in IH.
      destruct (interval_loop round i (Some now) (round st) rest) as [ran fin].
      cbn [fst] in *. destruct last as [l|]; [| exact IH].
      constructor; [exact IH |]. constructor. by apply interval_due_spec.
    + destruct last as [l|]; [| done]. apply (IH (Some l) st).
Qed.

Lemma interval_loop_sublist (i : Z) (last : option Z) (st : state) (nows : list Z) :
  sublist (interval_loop round i last st nows).1 nows.
Proof.
  revert last st. induction nows as [|now rest IH]; intros last st; cbn [interval_loop];
    [done |].
  destruct (interval_due i last now).
  - specialize (IH (Some now) (round st)).
    destruct (interval_loop round i (Some now) (round st) rest) as [ran fin].
    by apply sublist_skip.
  - by apply sublist_cons.
Qed.

Lemma in_window_spec (now : Z) (t : time_of_day) :
  in_window now t = true <-> (Z.abs (now - target_datetime now t) < 30000000)%Z.
Proof.
  unfold in_window, total_seconds. rewrite Qltb_lt.
  unfold Qlt. simpl. lia.
Qed.

(** Two times of day that are both within thirty seconds of a reading are
    the same time. *)
Lemma windows_apart (now : Z) (t1 t2 : time_of_day) :
  (0 <= minute t1 < 60)%Z -> (0 <= minute t2 < 60)%Z ->
  in_window now t1 = true -> in_window now t2 = true -> t1 = t2.
Proof.
  rewrite !in_window_spec. unfold target_datetime.
  destruct t1 as [h1 m1], t2 as [h2 m2]. simpl. intros ????.
  assert (h1 = h2) by lia. assert (m1 = m2) by lia. by subst.
Qed.

Lemma date_of_mono (a b : Z) : (a <= b)%Z -> (date_of a <= date_of b)%Z.
Proof. intros Hle. unfold date_of, us_per_day. by apply Z.div_le_mono. Qed.

(** The dict and the rounds of one pass over the items, without the
    state. *)
Lemma scheduled_tick_items (now : Z) (items : list (time_of_day * option Z)) (st : state) :
  (scheduled_tick round now items st).1.1
  = map (fun e => if in_window now e.1 && not_run_today e.2 now
                  then (e.1, Some now) else e) items.
Proof.
  revert st. induction items as [|[t last] items IH]; intros st; cbn [scheduled_tick map];
    [done |].
  cbn [fst snd]. destruct (in_window now t && not_run_today last now).
  - specialize (IH (round st)).
    destruct (scheduled_tick round now items (round st)) as [[items' st'] ran].
    cbn [fst] in *. by rewrite IH.
  - specialize (IH st).
    destruct (scheduled_tick round now items st) as [[items' st'] ran].
    cbn [fst] in *. by rewrite IH.
Qed.

Lemma scheduled_tick_ran (now : Z) (items : list (time_of_day * option Z)) (st : state) :
  (scheduled_tick round now items st).2
  = map fst (List.filter (fun e => in_window now e.1 && not_run_today e.2 now) items).
Proof.
  revert st. induction items as [|[t last] items IH]; intros st;
    cbn [scheduled_tick map List.filter]; [done |].
  cbn [fst snd]. destruct (in_window now t && not_run_today last now).
  - specialize (IH (round st)).
    destruct (scheduled_tick round now items (round st)) as [[items' st'] ran].
    cbn [snd map fst] in *. by rewrite IH.
  - specialize (IH st).
    destruct (scheduled_tick round now items st) as [[items' st'] ran].
    cbn [snd] in *. by rewrite IH.
Qed.

Lemma scheduled_tick_keys (now : Z) (items : list (time_of_day * option Z)) (st : state) :
  (scheduled_tick round now items st).1.1.*1 = items.*1.
Proof.
  rewrite scheduled_tick_items. induction items as [|[t last] items IH]; [done |].
  cbn [map fmap list_fmap fst snd]. f_equal; [by case_match | exact IH].
Qed.

(** The times whose round was run, among the keys: each within the window,
    and with no round yet on the day of the reading. *)
Lemma scheduled_tick_ran_elem (now : Z) (items : list (time_of_day * option Z))
    (st : state) (t : time_of_day) :
  t ∈ (scheduled_tick round now items st).2 <->
  exists last, (t, last) ∈ items /\ in_window now t = true /\
               not_run_today last now = true.
Proof.
  rewrite scheduled_tick_ran, list_elem_of_In, in_map_iff. split.
  - intros ([t' last] & <- & Hin). apply filter_In in Hin as [Hin Hdue].
    apply andb_true_iff in Hdue as [??]. exists last.
    by rewrite list_elem_of_In.
  - intros (last & Hin & Hw & Hn). exists (t, last). split; [done |].
    apply filter_In. rewrite <- list_elem_of_In. split; [done |]. simpl.
    by rewrite Hw, Hn.
Qed.

Lemma scheduled_tick_items_elem (now : Z) (items : list (time_of_day * option Z))
    (st : state) (t : time_of_day) (v : option Z) :
  (t, v) ∈ (scheduled_tick round now items st).1.1 <->
  exists last, (t, last) ∈ items /\
    if in_window now t && not_run_today last now then v = Some now else v = last.
Proof.
  rewrite scheduled_tick_items, list_elem_of_In, in_map_iff. split.
  - intros ([t' last] & E & Hin). apply list_elem_of_In in Hin. simpl in E.
    destruct (in_window now t' && not_run_today last now) eqn:Ed;
      injection E as <- <-; exists last; by rewrite Ed.
  - intros (last & Hin & Hv). exists (t, last). rewrite <- list_elem_of_In.
    split; [| done]. simpl.
    destruct (in_window now t && not_run_today last now); by subst.
Qed.

Lemma scheduled_tick_ran_NoDup (now : Z) (items : list (time_of_day * option Z))
    (st : state) :
  NoDup items.*1 -> NoDup (scheduled_tick round now items st).2.
Proof.
  rewrite scheduled_tick_ran. induction items as [|[t last] items IH]; [done |].
  cbn [fmap list_fmap fst List.filter snd]. intros Hnd.
  apply NoDup_cons in Hnd as [Hnotin Hnd].
  destruct (in_window now t && not_run_today last now); [| by apply IH].
  cbn [map fst]. apply NoDup_cons. split; [| by apply IH].
  intros Hin. apply Hnotin. apply list_elem_of_In, in_map_iff in Hin as ([t' l'] & <- & Hin).
  apply filter_In in Hin as [Hin _]. apply list_elem_of_In in Hin.
  by apply (list_elem_of_fmap_2 fst _ (t', l')).
Qed.

(** A key of the dict has one value. *)
Lemma key_unique (items : list (time_of_day * option Z)) (t : time_of_day)
    (a b : option Z) :
  NoDup items.*1 -> (t, a) ∈ items -> (t, b) ∈ items -> a = b.
Proof.
  induction items as [|[t' v] items IH]; intros Hnd Ha Hb; [by apply elem_of_nil in Ha |].
  cbn [fmap list_fmap fst] in Hnd. apply NoDup_cons in Hnd as [Hnotin Hnd].
  apply elem_of_cons in Ha as [[= -> ->] | Ha]; apply elem_of_cons in Hb as [[= ?] | Hb];
    subst; try done.
  - exfalso. apply Hnotin. by apply (list_elem_of_fmap_2 fst _ (t', b)).
  - exfalso. apply Hnotin. by apply (list_elem_of_fmap_2 fst _ (t', a)).
  - by apply IH.
Qed.

(** Every round of the scheduled loop was run at one of the readings, for
    one of the keys, within its window. *)
Lemma scheduled_loop_runs (items : list (time_of_day * option Z)) (st : state)
    (nows : list Z) (now : Z) (t : time_of_day) :
  (now, t) ∈ (scheduled_loop round items st nows).1 ->
  now ∈ nows /\ t ∈ items.*1 /\ in_window now t = true.
Proof.
  revert items st. induction nows as [|n rest IH]; intros items st; cbn [scheduled_loop].
  - intros Hin. by apply elem_of_nil in Hin.
  - pose proof (scheduled_tick_ran_elem n items st) as Hran.
    pose proof (scheduled_tick_keys n items st) as Hkeys.
    destruct (scheduled_tick round n items st) as [[items' st'] ran]. cbn [fst snd] in *.
    specialize (IH items' st').
    destruct (scheduled_loop round items' st' rest) as [runs fin]. cbn [fst] in *.
    intros Hin. apply elem_of_app in Hin as [Hin | Hin].
    + apply list_elem_of_In, in_map_iff in Hin as (t' & [= <- <-] & Hin).
      apply list_elem_of_In, Hran in Hin as (last & Hin & Hw & _).
      split; [by left |]. split; [| done].
      by apply (list_elem_of_fmap_2 fst _ (t', last)).
    + destruct (IH Hin) as (? & ? & ?). split; [by right |]. by rewrite <- Hkeys.
Qed.

(** With readings that do not go back, a round for a time is run on a later
    day than the last run stored for it, and than the rounds run for it
    before. *)
Lemma scheduled_loop_days (items : list (time_of_day * option Z)) (st : state)
    (nows : list Z) :
  NoDup items.*1 ->
  StronglySorted Z.le nows ->
  (forall t l n, (t, Some l) ∈ items -> n ∈ nows -> (l <= n)%Z) ->
  let runs := (scheduled_loop round items st nows).1 in
  (forall n t l, (n, t) ∈ runs -> (t, Some l) ∈ items -> (date_of l < date_of n)%Z) /\
  StronglySorted (fun r1 r2 => r1.2 = r2.2 -> (date_of r1.1 < date_of r2.1)%Z) runs.
Proof.
  revert items st. induction nows as [|now rest IH]; intros items st Hnd Hsort Hbound;
    cbn [scheduled_loop].
  - split; [| constructor]. intros n t l Hin. by apply elem_of_nil in Hin.
  - apply StronglySorted_cons in Hsort as [Hle Hsort]. rewrite Forall_forall in Hle.
    pose proof (scheduled_tick_ran_elem now items st) as Hran.
    pose proof (scheduled_tick_items_elem now items st) as Hitems.
    pose proof (scheduled_tick_keys now items st) as Hkeys.
    pose proof (scheduled_tick_ran_NoDup now items st Hnd) as Hrnd.
    destruct (scheduled_tick round now items st) as [[items' st'] ran]. cbn [fst snd] in *.
    destruct (IH items' st') as [IHa IHb]; [by rewrite Hkeys | done | |].
    { intros t l n Hin Hn. apply Hitems in Hin as (last & Hin & Hv).
      destruct (in_window now t && not_run_today last now).
      - injection Hv as <-. by apply Hle.
      - subst last. apply (Hbound t l n Hin). by right. }
    destruct (scheduled_loop round items' st' rest) as [runs fin]. cbn [fst] in *.
    assert (forall t l, (t, Some l) ∈ items -> (date_of l <= date_of now)%Z) as Hold.
    { intros t l Hin. apply date_of_mono, (Hbound t l now Hin). by left. }
    assert (forall t, t ∈ ran -> (now, t) ∈ map (pair now) ran) as Hpair.
    { intros t Hin. apply list_elem_of_In, in_map_iff. exists t.
      by rewrite <- list_elem_of_In. }
    assert (forall t, t ∈ ran -> (t, Some now) ∈ items') as Hnew.
    { intros t Hin. apply Hran in Hin as (last & Hin & Hw & Hn).
      apply Hitems. exists last. split; [done |]. by rewrite Hw, Hn. }
    split.
    + intros n t l Hin Hl. apply elem_of_app in Hin as [Hin | Hin].
      * apply list_elem_of_In, in_map_iff in Hin as (t' & [= <- <-] & Hin).
        apply list_elem_of_In, Hran in Hin as (last & Hin & _ & Hn).
        rewrite (key_unique items t' last (Some l) Hnd Hin Hl) in Hn.
        simpl in Hn. apply negb_true_iff, Z.eqb_neq in Hn.
        specialize (Hold t' l Hl). lia.
      * destruct (in_window now t && not_run_today (Some l) now) eqn:Ed.
        -- assert ((t, Some now) ∈ items') as Hin'.
           { apply Hitems. exists (Some l). split; [done |]. by rewrite Ed. }
           specialize (IHa n t now Hin Hin'). specialize (Hold t l Hl). lia.
        -- apply (IHa n t l Hin). apply Hitems. exists (Some l). split; [done |].
           by rewrite Ed.
    + apply StronglySorted_app_2; [| | done].
      * intros [n1 t1] [n2 t2] H1 H2. simpl. intros <-.
        apply list_elem_of_In, in_map_iff in H1 as (t' & [= <- <-] & H1).
        apply list_elem_of_In in H1. by apply (IHa n2 t' now H2), Hnew.
      * clear -Hrnd. induction Hrnd as [|t ran Hnotin Hrnd IHr]; [constructor |].
        cbn [map]. constructor; [done |].
        apply Forall_forall. intros [n t'] Hin. simpl. intros <-.
        apply list_elem_of_In, in_map_iff in Hin as (t'' & [= <- <-] & Hin).
        by apply list_elem_of_In in Hin.
Qed.

Lemma dict_keys_elem (l : list time_of_day) (t : time_of_day) :
  t ∈ dict_keys l -> t ∈ l.
Proof.
  induction l as [|x l IH]; [done |]. cbn [dict_keys].
  intros Hin. apply elem_of_cons in Hin as [-> | Hin]; [by left |].
  right. apply IH. by apply list_elem_of_filter in Hin as [_ ?].
Qed.

Lemma dict_keys_NoDup (l : list time_of_day) : NoDup (dict_keys l).
Proof.
  induction l as [|x l IH]; [constructor |]. cbn [dict_keys].
  apply NoDup_cons. split; [| by apply NoDup_filter].
  intros Hin. by apply list_elem_of_filter in Hin as [? _].
Qed.

End LoopProperties.

Section MonitorLoopProperties.
Context `{PyLib}.
Variable w : World.
Variable cfg : Settings.
Variable sites : list (gmap string pyval).

(** X15. In interval mode the first iteration runs a round, and two rounds
    in a row start at readings of the clock that are at least
    [MONITOR_INTERVAL] seconds apart; every round starts at one of the
    readings, in their order. *)
Theorem interval_rounds_are_spaced (MONITOR_INTERVAL : Z) (nows : list Z)
    (past : list event) (file : list (list pyval)) :
  let ran := (monitor_loop_interval w cfg sites MONITOR_INTERVAL nows past file).1 in
  Sorted (fun a b => (MONITOR_INTERVAL * 1000000 <= b - a)%Z) ran /\
  head ran = head nows /\
  sublist ran nows.
Proof.
  cbv zeta. unfold monitor_loop_interval. split_and!.
  - apply (interval_loop_sorted (one_round w cfg sites) MONITOR_INTERVAL None).
  - destruct nows as [|now rest]; [done |]. cbn [interval_loop interval_due].
    by destruct (interval_loop _ _ _ _ _).
  - apply interval_loop_sublist.
Qed.

(** X16. In scheduled mode every round is run at one of the readings of
    the clock, for one of the scheduled times, and less than thirty seconds
    away from that time on the day of the reading. *)
Theorem scheduled_rounds_in_window (scheduled_times : list time_of_day) (nows : list Z)
    (past : list event) (file : list (list pyval)) (now : Z) (t : time_of_day) :
  (now, t) ∈ (monitor_loop_scheduled w cfg sites scheduled_times nows past file).1 ->
  now ∈ nows /\ t ∈ scheduled_times /\
  (Z.abs (now - target_datetime now t) < 30 * 1000000)%Z.
Proof.
  unfold monitor_loop_scheduled. intros Hin.
  apply scheduled_loop_runs in Hin as (Hnow & Ht & Hw).
  split; [done |]. split; [| by apply in_window_spec].
  apply dict_keys_elem. rewrite <- list_fmap_compose in Ht.
  by rewrite list_fmap_id in Ht.
Qed.

(** X17. In scheduled mode, with readings of the clock that do not go
    back, a scheduled time gets at most one round a day: two rounds for the
    same time are run on different days, the later one on a later day. *)
Theorem one_scheduled_round_a_day (scheduled_times : list time_of_day) (nows : list Z)
    (past : list event) (file : list (list pyval)) :
  StronglySorted Z.le nows ->
  let runs := (monitor_loop_scheduled w cfg sites scheduled_times nows past file).1 in
  forall l1 r1 l2 r2 l3,
    runs = (l1 ++ r1 :: l2 ++ r2 :: l3)%list ->
    r1.2 = r2.2 -> (date_of r1.1 < date_of r2.1)%Z.
Proof.
  intros Hsort runs l1 r1 l2 r2 l3 Hruns.
  destruct (scheduled_loop_days (one_round w cfg sites)
              (map (fun t => (t, None)) (dict_keys scheduled_times)) (past, file) nows)
    as [_ Hss]; [| done | |].
  - rewrite <- list_fmap_compose, list_fmap_id. apply dict_keys_NoDup.
  - intros t l n Hin. by apply list_elem_of_In, in_map_iff in Hin as (? & [=] & _).
  - fold (monitor_loop_scheduled w cfg sites scheduled_times nows past file) in Hss.
    fold runs in Hss. rewrite Hruns in Hss.
    apply StronglySorted_app_1_r, StronglySorted_cons in Hss as [Hall _].
    rewrite Forall_forall in Hall. apply Hall, elem_of_app. right. by left.
Qed.

(** X18. One pass over the scheduled times runs at most one round: the
    times are the keys of a dict, so they differ, and with minutes below
    sixty two of them are at least a minute apart, too far for one reading to
    be within thirty seconds of both. *)
Theorem one_round_per_tick (now : Z) (items : list (time_of_day * option Z))
    (st : list event * list (list pyval)) :
  NoDup items.*1 ->
  Forall (fun t => 0 <= minute t < 60)%Z items.*1 ->
  (length (scheduled_tick (one_round w cfg sites) now items st).2 <= 1)%nat.
Proof.
  intros Hnd Hvalid.
  pose proof (scheduled_tick_ran_NoDup (one_round w cfg sites) now items st Hnd) as Hrnd.
  pose proof (scheduled_tick_ran_elem (one_round w cfg sites) now items st) as Hran.
  destruct (scheduled_tick (one_round w cfg sites) now items st).2 as [|a [|b ran]];
    [simpl; lia | simpl; lia |].
  exfalso. apply NoDup_cons in Hrnd as [Hne _]. apply Hne.
  destruct (proj1 (Hran a) ltac:(by left)) as (la & Hina & Hwa & _).
  destruct (proj1 (Hran b) ltac:(right; by left)) as (lb & Hinb & Hwb & _).
  rewrite Forall_forall in Hvalid.
  rewrite (windows_apart now a b); [by left | | | done | done].
  - apply Hvalid. by apply (list_elem_of_fmap_2 fst _ (a, la)).
  - apply Hvalid. by apply (list_elem_of_fmap_2 fst _ (b, lb)).
Qed.

End MonitorLoopProperties.

(** ** The helpers *)

Section Helpers.
Context `{PyLib}.

Lemma before_colon_spec (s : string) :
  ~ In ":"%char (list_ascii_of_string (before_colon s)) /\
  (s = before_colon s \/ exists rest, s = before_colon s +:+ ":" +:+ rest).
Proof.
  induction s as [|a s [Hno Hor]]; [split; [by intros [] | by left] |].
  cbn [before_colon]. destruct (Ascii.eqb a ":") eqn:Ea.
  - apply Ascii.eqb_eq in Ea as ->. split; [by intros [] |]. right. by exists s.
  - split.
    + simpl. intros [-> | Hin]; [by rewrite Ascii.eqb_refl in Ea | done].
    + destruct Hor as [Hs | [rest Hs]]; [left | right; exists rest];
        rewrite ?append_cons; by f_equal.
Qed.

(** X19. The host name that the DNS, TLS and WHOIS probes use is the part
    of the URL's network location before its first colon, so it never holds
    a port (nor anything after the first colon of a user name or of an IPv6
    literal); when the URL cannot be parsed it is the URL itself. *)
Theorem hostname_has_no_colon (url : pyval) :
  match urlparse_netloc url with
  | Some netloc =>
    exists h,
      get_hostname url = PStr h /\
      str_in ":" h = false /\
      (netloc = h \/ exists rest, netloc = h +:+ ":" +:+ rest)
  | None => get_hostname url = url
  end.
Proof.
  unfold get_hostname. destruct (urlparse_netloc url) as [netloc |]; [| done].
  destruct (before_colon_spec netloc) as [Hno Hor].
  exists (before_colon netloc). split; [done |]. split; [| done].
  apply not_true_iff_false. by rewrite str_in_char.
Qed.

(** X20. When [get_domain_expiry] returns a date, the date is aware and in
    UTC, and the days left are an integer: the whole days from the instant
    read after the lookup to the date, negative exactly when the domain has
    expired; when it returns no date, the days left are ["N/A"] or
    ["WHOIS Failed"]. It makes at most one lookup. *)
Theorem domain_expiry_is_utc (w : World) (past tr : list event) (hostname : pyval)
    (exp_dt : option datetime) (days_left : pyval) (evs : list event) :
  get_domain_expiry w past tr hostname = ((exp_dt, days_left), evs) ->
  match exp_dt with
  | Some d =>
    dt_tz d = Some 0%Z /\
    days_left = PInt (days_until d (now_utc w (past ++ tr ++ evs))) /\
    ((days_until d (now_utc w (past ++ tr ++ evs)) < 0)%Z
     <-> (dt_wall d < clock w (past ++ tr ++ evs))%Z)
  | None => days_left = PStr "N/A" \/ days_left = PStr "WHOIS Failed"
  end /\
  (length evs <= 1)%nat.
Proof.
  destruct (whois_lookup w) as [whois |] eqn:E.
  - rewrite (get_domain_expiry_available w past whois tr hostname E). cbv zeta.
    destruct (whois (past ++ tr)%list hostname) as [e |];
      [destruct (usable_date e) as [d |] |]; intros [= <- <- <-];
      (split; [| simpl; lia]); try by eauto.
    split; [| split; [done |]].
    + unfold to_utc. by destruct (dt_tz d).
    + exact (days_until_neg (to_utc d) _).
  - rewrite (get_domain_expiry_unavailable w past tr hostname E).
    intros [= <- <- <-]. split; [by left | simpl; lia].
Qed.

End Helpers.

Ltac look_site :=
  repeat first [ rewrite lookup_insert_eq | rewrite lookup_insert_ne by done
               | rewrite lookup_empty ].

Section Examples.
Import Sample.
#[local] Existing Instance lib.

Lemma site_is_enabled : enabled site = true.
Proof. unfold enabled, site. by look_site. Qed.

Lemma site_timeout_default : site_timeout settings site = Some 10%Z.
Proof. unfold site_timeout, site. by look_site. Qed.

Lemma site_expects_200 : site_expected_status site = Some 200%Z.
Proof. unfold site_expected_status, site. by look_site. Qed.

Lemma site_uses_icmp : site_use_icmp settings site = true.
Proof. unfold site_use_icmp, site. by look_site. Qed.

Lemma site_kw_is_enabled : enabled site_kw = true.
Proof. unfold enabled, site_kw, site. by look_site. Qed.

Lemma site_kw_timeout_default : site_timeout settings site_kw = Some 10%Z.
Proof. unfold site_timeout, site_kw, site. by look_site. Qed.

Lemma site_kw_expects_200 : site_expected_status site_kw = Some 200%Z.
Proof. unfold site_expected_status, site_kw, site. by look_site. Qed.

Lemma site_off_is_disabled : enabled site_off = false.
Proof. unfold enabled, site_off. by look_site. Qed.

(** The HTTP time is the rounding of the float the code computes, not of
    the exact quotient: 5 microseconds are recorded as 0.01 ms, and 5000005
    microseconds as 5000.01 ms, which is above a threshold of 5000. *)
Lemma http_time_rounds_the_float :
  round2 (float_mul (float_total_seconds 5) 1000) = (1 # 100)%Q /\
  round2 (float_mul (float_total_seconds 5000005) 1000) = (500001 # 100)%Q /\
  Qltb 5000 (round2 (float_mul (float_total_seconds 5000005) 1000)) = true /\
  round2 (float_mul (float_total_seconds 50000) 1000) = 50%Q.
Proof. by vm_compute. Qed.

(** Scenario A: 200 after 50 ms gives the float 50.0. *)
Lemma http_time_measured_or_failed_witness :
  exists res evs,
    check_site w_up settings [] site = (RetResults res, evs) /\
    (forall u t r, EvGet u t (HttpResponse r) ∈ evs -> (0 <= elapsed_us r)%Z) /\
    res !! "HTTP Time (ms)" = Some (PFloat 50).
Proof.
  destruct (check_site_returns w_up settings [] site 10 200 site_is_enabled
              site_timeout_default site_expects_200 ltac:(done))
    as (c & res & evs & _ & Hrun & Hin).
  assert (forall u t r, EvGet u t (HttpResponse r) ∈ evs -> r = resp 200 50000) as Hr.
  { intros u t r Hget.
    destruct (check_site_get _ _ _ _ _ _ _ _ _ Hrun Hget) as (_ & _ & _ & _ & Ho).
    by injection Ho as ->. }
  assert (forall u t r, EvGet u t (HttpResponse r) ∈ evs -> (0 <= elapsed_us r)%Z) as Hpos.
  { intros u t r Hget. by rewrite (Hr u t r Hget). }
  exists res, evs. split; [done |]. split; [done |].
  destruct (proj1 (http_time_measured_or_failed w_up settings [] site res evs Hrun Hpos))
    as [(u & t & r & Hget & -> & _) | (u & t & e & Hget & _)].
  - by rewrite (Hr u t r Hget).
  - destruct (check_site_get _ _ _ _ _ _ _ _ _ Hrun Hget) as (_ & _ & _ & _ & Ho).
    discriminate Ho.
Defined.

(** Scenario A after 5 s, with the threshold at 3000 ms: the record says
    ["Up (Slow)"]. *)
Lemma up_slow_iff_witness :
  exists c,
    enabled site = true /\
    check_site_http w_slow settings [] site = Done c /\
    exists res evs,
      check_site w_slow settings [] site = (RetResults res, evs) /\
      res !! "Status" = Some (PStr "Up (Slow)").
Proof.
  destruct (check_site_returns w_slow settings [] site 10 200 site_is_enabled
              site_timeout_default site_expects_200 ltac:(done))
    as (c & res0 & evs0 & Hc & Hrun0 & Hin).
  destruct (record_of_response _ _ _ _ _ _ _ _ _ Hrun0 Hin)
    as (x & c' & Hx & Hc' & Htime & Hst & _).
  rewrite Hc in Hc'. injection Hc' as <-.
  rewrite site_expects_200 in Hx. injection Hx as <-.
  exists c. split; [exact site_is_enabled |]. split; [exact Hc |].
  destruct (up_slow_iff w_slow settings [] site c site_is_enabled Hc)
    as (res & evs & Hrun & _ & Hiff).
  exists res, evs. split; [exact Hrun |].
  apply Hiff. do 2 eexists. split; [exact Hst |]. split; [reflexivity |].
  split; [exact Htime |]. reflexivity.
Defined.

(** Scenario C with ICMP enabled: the name does not resolve, no ping is
    sent, and the field is ["N/A"]. *)
Lemma no_address_no_ping_witness :
  exists res evs h,
    check_site w_503 settings [] site = (RetResults res, evs) /\
    site_use_icmp settings site = true /\
    EvResolve h DnsRaise ∈ evs /\
    first_answer DnsRaise = None /\
    (forall ip o, EvPing ip o ∉ evs) /\
    res !! "Ping (ms)" = Some (PStr "N/A").
Proof.
  destruct (check_site_returns w_503 settings [] site 10 200 site_is_enabled
              site_timeout_default site_expects_200 ltac:(done))
    as (c & res & evs & _ & Hrun & _).
  pose proof (run_has_resolve _ _ _ _ _ _ Hrun) as Hres.
  exists res, evs, (get_hostname (site_url site)).
  split; [exact Hrun |]. split; [exact site_uses_icmp |].
  split; [exact Hres |]. split; [reflexivity |].
  exact (no_address_no_ping w_503 settings [] site res evs _ DnsRaise Hrun
           site_uses_icmp Hres eq_refl).
Defined.

(** The same call against the claim as written: the field does not keep its
    initial ["Failed"]. *)
Lemma ping_field_not_left_failed :
  exists res evs h,
    check_site w_503 settings [] site = (RetResults res, evs) /\
    site_use_icmp settings site = true /\
    EvResolve h DnsRaise ∈ evs /\
    res !! "Ping (ms)" = Some (PStr "N/A") /\
    res !! "Ping (ms)" ≠ Some (PStr "Failed").
Proof.
  destruct (check_site_returns w_503 settings [] site 10 200 site_is_enabled
              site_timeout_default site_expects_200 ltac:(done))
    as (c & res & evs & _ & Hrun & _).
  pose proof (run_has_resolve _ _ _ _ _ _ Hrun) as Hres.
  pose proof (ping_na_without_address _ _ _ _ _ _ Hrun eq_refl) as Hping.
  exists res, evs, (get_hostname (site_url site)).
  split; [exact Hrun |]. split; [exact site_uses_icmp |].
  split; [exact Hres |]. split; [exact Hping |].
  rewrite Hping. discriminate.
Qed.

(** A ping that raises: the field is ["Error"] and the note is there. *)
Lemma ping_field_outcomes_witness :
  exists res evs,
    check_site w_error settings [] site = (RetResults res, evs) /\
    EvPing "93.184.216.34" PingRaise ∈ evs /\
    res !! "Ping (ms)" = Some (PStr "Error") /\
    exists n, res !! "Notes" = Some (PStr n) /\ contains "ICMP ping failed." n.
Proof.
  destruct (check_site_returns w_error settings [] site 10 200 site_is_enabled
              site_timeout_default site_expects_200 ltac:(done))
    as (c & res & evs & _ & Hrun & _).
  pose proof (run_has_resolve _ _ _ _ _ _ Hrun) as Hres.
  destruct (ping_field_outcomes w_error settings [] site res evs Hrun)
    as (_ & Hsent & _ & Hraise).
  destruct (Hsent site_uses_icmp _ dns_ok "93.184.216.34" Hres eq_refl ltac:(done))
    as [o Hin].
  destruct (run_ping _ _ _ _ _ _ _ _ Hrun Hin) as [_ Ho].
  change (o = PingRaise) in Ho. subst o.
  exists res, evs. split; [exact Hrun |]. split; [exact Hin |].
  exact (Hraise _ Hin).
Defined.


(** The request times out. *)
Lemma http_error_record_witness :
  exists ret evs u t,
    check_site w_error settings [] site_kw = (ret, evs) /\
    EvGet u t (HttpRequestException "timed out") ∈ evs /\
    exists res,
      ret = RetResults res /\
      res !! "Status" = Some (PStr "Down (HTTP Error)") /\
      res !! "HTTP Time (ms)" = Some (PStr "Failed") /\
      (exists n, res !! "Notes" = Some (PStr n) /\ contains "HTTP request failed." n) /\
      exists body, EvEmail (alert_subject (site_name site_kw)) body ∈ evs.
Proof.
  destruct (check_site_returns w_error settings [] site_kw 10 200 site_kw_is_enabled
              site_kw_timeout_default site_kw_expects_200 ltac:(done))
    as (c0 & res0 & evs & _ & Hrun & Hin).
  change (EvGet (site_url site_kw) 10 (HttpRequestException "timed out") ∈ evs) in Hin.
  exists (RetResults res0), evs, (site_url site_kw), 10%Z.
  split; [exact Hrun |]. split; [exact Hin |].
  exact (http_error_record w_error settings [] site_kw _ evs _ _ _ Hrun Hin).
Defined.

(** The request times out on a site that configures a keyword. *)
Lemma keyword_skipped_on_http_failure_witness :
  exists ret evs u t,
    check_site w_error settings [] site_kw = (ret, evs) /\
    site_kw !! "keyword" = Some (PStr "Odisha") /\
    EvGet u t (HttpRequestException "timed out") ∈ evs /\
    exists res, ret = RetResults res /\ res !! "Keyword Check" = Some (PStr "Skipped").
Proof.
  destruct (check_site_returns w_error settings [] site_kw 10 200 site_kw_is_enabled
              site_kw_timeout_default site_kw_expects_200 ltac:(done))
    as (c0 & res0 & evs & _ & Hrun & Hin).
  change (EvGet (site_url site_kw) 10 (HttpRequestException "timed out") ∈ evs) in Hin.
  exists (RetResults res0), evs, (site_url site_kw), 10%Z.
  split; [exact Hrun |].
  split; [unfold site_kw; by look_site |]. split; [exact Hin |].
  exact (proj1 (keyword_skipped_on_http_failure w_error settings [] site_kw _ evs Hrun)
           _ _ _ Hin).
Defined.

(** The request times out: the field holds the integer 0. *)
Lemma redirects_zero_on_http_failure_witness :
  exists ret evs u t,
    check_site w_error settings [] site_kw = (ret, evs) /\
    EvGet u t (HttpRequestException "timed out") ∈ evs /\
    exists res, ret = RetResults res /\ res !! "Redirects" = Some (PInt 0).
Proof.
  destruct (check_site_returns w_error settings [] site_kw 10 200 site_kw_is_enabled
              site_kw_timeout_default site_kw_expects_200 ltac:(done))
    as (c0 & res0 & evs & _ & Hrun & Hin).
  change (EvGet (site_url site_kw) 10 (HttpRequestException "timed out") ∈ evs) in Hin.
  exists (RetResults res0), evs, (site_url site_kw), 10%Z.
  split; [exact Hrun |]. split; [exact Hin |].
  exact (proj1 (redirects_zero_on_http_failure w_error settings [] site_kw _ evs Hrun)
           _ _ _ Hin).
Defined.

(** Scenario E: a round over a disabled and an enabled site without the
    [whois] module. *)
Lemma domain_expiry_outcomes_witness :
  exists row,
    row ∈ (check_all w_503 settings [] [site_off; site] []).1 /\
    row !! "Domain Days Left" = Some (PStr "N/A") /\
    row !! "Domain Expiry Date" = Some (PStr "N/A").
Proof.
  destruct (check_site_returns w_503 settings [] site 10 200 site_is_enabled
              site_timeout_default site_expects_200 ltac:(done))
    as (c & res & evs & _ & Hrun & _).
  assert (res ∈ (check_all w_503 settings [] [site_off; site] []).1) as Hin.
  { rewrite (check_all_disabled w_503 settings site_off [] [site] [] []
               site_off_is_disabled).
    cbn [check_all app]. rewrite Hrun. cbn [check_all app fst].
    apply list_elem_of_here. }
  exists res. split; [exact Hin |].
  destruct (domain_expiry_outcomes w_503 settings [] [site_off; site] res Hin)
    as (Hdays & Hdate & _).
  by split.
Defined.

(** A site switched off returns [None] before any probe. *)
Lemma disabled_site_no_record_witness :
  enabled site_off = false /\
  forall past, check_site w_up settings past site_off = (RetNone, []).
Proof.
  split; [exact site_off_is_disabled |].
  exact (proj1 (disabled_site_no_record w_up settings site_off site_off_is_disabled)).
Defined.

(** ** More about one call *)

(** The calls the examples below start from. *)
Lemma site_up_returns :
  exists res evs, check_site w_up settings [] site = (RetResults res, evs).
Proof.
  destruct (check_site_returns w_up settings [] site 10 200 site_is_enabled
              site_timeout_default site_expects_200 ltac:(done))
    as (c & res & evs & _ & Hrun & _).
  by exists res, evs.
Qed.

Lemma site_503_returns :
  exists res evs, check_site w_503 settings [] site = (RetResults res, evs).
Proof.
  destruct (check_site_returns w_503 settings [] site 10 200 site_is_enabled
              site_timeout_default site_expects_200 ltac:(done))
    as (c & res & evs & _ & Hrun & _).
  by exists res, evs.
Qed.

Lemma site_error_returns :
  exists res evs, check_site w_error settings [] site = (RetResults res, evs).
Proof.
  destruct (check_site_returns w_error settings [] site 10 200 site_is_enabled
              site_timeout_default site_expects_200 ltac:(done))
    as (c & res & evs & _ & Hrun & _).
  by exists res, evs.
Qed.

(** Scenario A: the events of the call begin with the resolution. *)
Lemma probes_in_order_witness :
  exists res evs d rest,
    check_site w_up settings [] site = (RetResults res, evs) /\
    evs = (EvResolve (get_hostname (site_url site)) d :: rest)%list.
Proof.
  destruct site_up_returns as (res & evs & Hrun).
  destruct (probes_in_order w_up settings [] site res evs Hrun)
    as (t & x & o & mails & tl & wh & _ & _ & _ & Hevs & _).
  exists res, evs. do 2 eexists. split; [exact Hrun | exact Hevs].
Defined.

(** Scenario C with mail off, as it is by default: [send_email] is called
    once and nothing is sent. *)
Lemma alert_iff_down_witness :
  exists res evs,
    check_site w_503 settings [] site = (RetResults res, evs) /\
    (length (List.filter is_email evs) <= 1)%nat /\
    sendings mail_off evs = [].
Proof.
  destruct site_503_returns as (res & evs & Hrun).
  destruct (alert_iff_down w_503 settings [] site res evs mail_off Hrun)
    as (s & _ & _ & Hlen & Hsent & _).
  exists res, evs. split; [exact Hrun |]. split; [exact Hlen |].
  destruct (sendings mail_off evs) as [|m l]; [reflexivity |].
  destruct (proj1 Hsent ltac:(discriminate)) as (_ & Hen & _). discriminate Hen.
Defined.

(** Scenario A: the row has fifteen cells. *)
Lemma record_has_the_columns_witness :
  exists res evs,
    check_site w_up settings [] site = (RetResults res, evs) /\
    length (csv_row res) = 15%nat.
Proof.
  destruct site_up_returns as (res & evs & Hrun).
  destruct (record_has_the_columns w_up settings [] site res evs Hrun) as (_ & Hlen & _).
  exists res, evs. split; [exact Hrun | exact Hlen].
Defined.

(** Scenario D: the status is not the initial ["Down"]. *)
Lemma status_of_a_record_witness :
  exists res evs s,
    check_site w_error settings [] site = (RetResults res, evs) /\
    res !! "Status" = Some (PStr s) /\ s ≠ "Down".
Proof.
  destruct site_error_returns as (res & evs & Hrun).
  destruct (status_of_a_record w_error settings [] site res evs Hrun) as (s & Hs & _ & Hne).
  exists res, evs, s. split; [exact Hrun |]. split; [exact Hs | exact Hne].
Defined.

Lemma site_bad_is_enabled : enabled site_bad = true.
Proof. unfold enabled, site_bad, site. by look_site. Qed.

Lemma site_bad_timeout : site_timeout settings site_bad = None.
Proof. unfold site_timeout, site_bad. by look_site. Qed.

(** Scenario A: if the notes are empty, the ping did not raise. *)
Lemma notes_empty_iff_clean_witness :
  exists res evs,
    check_site w_up settings [] site = (RetResults res, evs) /\
    (res !! "Notes" = Some (PStr "") -> res !! "Ping (ms)" ≠ Some (PStr "Error")).
Proof.
  destruct site_up_returns as (res & evs & Hrun).
  exists res, evs. split; [exact Hrun |]. intros Hn.
  exact (proj1 (proj2 (proj1 (notes_empty_iff_clean w_up settings [] site res evs Hrun) Hn))).
Defined.

(** Scenario C: the resolution failed, and the notes say so. *)
Lemma every_failure_is_noted_witness :
  exists res evs n,
    check_site w_503 settings [] site = (RetResults res, evs) /\
    res !! "Notes" = Some (PStr n) /\
    (res !! "DNS Time (ms)" = Some (PStr "Failed") -> contains "DNS lookup failed." n).
Proof.
  destruct site_503_returns as (res & evs & Hrun).
  destruct (every_failure_is_noted w_503 settings [] site res evs Hrun)
    as (n & Hn & Hdns & _).
  exists res, evs, n. split; [exact Hrun |]. split; [exact Hn | exact Hdns].
Defined.

(** Scenario A: the handshake is among the events of the call. *)
Lemma ssl_fields_of_a_record_witness :
  exists res evs pre post tl,
    check_site w_up settings [] site = (RetResults res, evs) /\
    evs = (pre ++ EvTls (get_hostname (site_url site)) tl :: post)%list.
Proof.
  destruct site_up_returns as (res & evs & Hrun).
  destruct (ssl_fields_of_a_record w_up settings [] site res evs Hrun)
    as (pre & post & Hevs & _).
  exists res, evs, pre, post. eexists. split; [exact Hrun | exact Hevs].
Defined.

(** Scenario C: the name does not resolve, the field says ["Failed"]. *)
Lemma dns_time_of_a_record_witness :
  exists res evs,
    check_site w_503 settings [] site = (RetResults res, evs) /\
    res !! "DNS Time (ms)" = Some (PStr "Failed").
Proof.
  destruct site_503_returns as (res & evs & Hrun).
  exists res, evs. split; [exact Hrun |].
  exact (dns_time_of_a_record w_503 settings [] site res evs Hrun).
Defined.


(** A timeout that is not a number: the call raises before any probe. *)
Lemma site_bad_raises (past : list event) :
  check_site w_up settings past site_bad = (Raised, []).
Proof.
  rewrite check_site_cases, site_bad_is_enabled. by rewrite site_bad_timeout.
Qed.

Lemma raised_call_stops_witness :
  check_site w_up settings [] site_bad = (Raised, []) /\
  enabled site_bad = true.
Proof.
  split; [exact (site_bad_raises []) |].
  exact (proj1 (raised_call_stops w_up settings [] site_bad [] (site_bad_raises []))).
Defined.

(** The round over that site and a good one is the round over the good
    one. *)
Lemma unreadable_site_is_skipped_witness :
  enabled site_bad = true /\
  site_timeout settings site_bad = None /\
  run_checks_and_log w_up settings [site_bad; site] [] []
  = run_checks_and_log w_up settings [site] [] [].
Proof.
  split; [exact site_bad_is_enabled |]. split; [exact site_bad_timeout |].
  exact (proj2 (unreadable_site_is_skipped w_up settings site_bad site_bad_is_enabled
                  (or_introl site_bad_timeout)) [] [] [site] []).
Defined.

(** A first round on an empty log. *)
Lemma log_keeps_its_shape_witness :
  log_ok [] /\ log_ok (run_checks_and_log w_up settings [site] [] []).2.
Proof.
  split; [exact I |].
  exact (proj1 (log_keeps_its_shape w_up settings [site] [] [] I)).
Defined.

(** ** The mail transport and the loop *)

(** A server given as a query string that names Gmail: the sending goes to
    [smtp.gmail.com] over SSL. *)
Lemma smtp_host_of_a_sending_witness :
  exists m,
    Mail.send_email mail_on "Alert" "body" = Some m /\
    Mail.conn m = Mail.SMTP_SSL "smtp.gmail.com" 465.
Proof.
  eexists. split; [reflexivity |].
  exact (proj1 (smtp_host_of_a_sending mail_on "Alert" "body" _ eq_refl)).
Defined.

(** Mail switched on and no [EMAIL_TO]: the single recipient is the empty
    string. *)
Lemma recipients_never_stop_the_mail_witness :
  exists c, Mail.load environ = Some c /\ Mail.EMAIL_TO c = [""].
Proof.
  assert (environ !! "EMAIL_PORT" = None) as Hport by (unfold environ; by look_site).
  assert (environ !! "EMAIL_TO" = None) as Hto by (unfold environ; by look_site).
  assert (exists c, Mail.load environ = Some c) as [c Hload].
  { unfold Mail.load. rewrite Hport. by eexists. }
  exists c. split; [exact Hload |].
  exact (proj2 (proj2 (recipients_never_stop_the_mail environ c "" "" Hload)) Hto).
Defined.

(** One scheduled time, 09:00, and a reading at 09:00:10 of the first day:
    the round is run. *)
Lemma scheduled_rounds_in_window_witness :
  (32410000000%Z, Time 9 0)
    ∈ (monitor_loop_scheduled w_up settings [] [Time 9 0] [32410000000%Z] [] []).1 /\
  (Z.abs (32410000000 - target_datetime 32410000000 (Time 9 0)) < 30 * 1000000)%Z.
Proof.
  assert ((32410000000%Z, Time 9 0)
            ∈ (monitor_loop_scheduled w_up settings [] [Time 9 0] [32410000000%Z] [] []).1)
    as Hin by apply list_elem_of_here.
  split; [exact Hin |].
  exact (proj2 (proj2 (scheduled_rounds_in_window w_up settings [] [Time 9 0]
                         [32410000000%Z] [] [] _ _ Hin))).
Defined.

(** Readings at 09:00:10 of two days in a row: one round on each day. *)
Lemma one_scheduled_round_a_day_witness :
  StronglySorted Z.le [32410000000%Z; 118810000000%Z] /\
  (date_of 32410000000 < date_of 118810000000)%Z.
Proof.
  assert (StronglySorted Z.le [32410000000%Z; 118810000000%Z]) as Hsort.
  { repeat constructor. done. }
  split; [exact Hsort |].
  exact (one_scheduled_round_a_day w_up settings [] [Time 9 0]
           [32410000000%Z; 118810000000%Z] [] [] Hsort
           [] (32410000000%Z, Time 9 0) [] (118810000000%Z, Time 9 0) []
           eq_refl eq_refl).
Defined.

(** 09:00 and 09:01 at 09:00:29: one round. *)
Lemma one_round_per_tick_witness :
  NoDup [Time 9 0; Time 9 1] /\
  (length (scheduled_tick (one_round w_up settings []) 32429000000
             [(Time 9 0, None); (Time 9 1, None)] ([], [])).2 <= 1)%nat.
Proof.
  assert (NoDup [(Time 9 0, None : option Z); (Time 9 1, None)].*1) as Hnd.
  { apply NoDup_cons. split; [| apply NoDup_singleton].
    intros Hin. by apply list_elem_of_singleton in Hin. }
  split; [exact Hnd |].
  apply (one_round_per_tick w_up settings [] 32429000000
           [(Time 9 0, None); (Time 9 1, None)] ([], []) Hnd).
  repeat constructor; simpl; lia.
Defined.

(** Scenario A: the lookup finds 1900000000 s after the epoch, in UTC. *)
Lemma domain_expiry_is_utc_witness :
  exists d days_left evs,
    get_domain_expiry w_up [] [] (PStr "example.org") = ((Some d, days_left), evs) /\
    dt_tz d = Some 0%Z.
Proof.
  assert (exists d days_left evs,
            get_domain_expiry w_up [] [] (PStr "example.org") = ((Some d, days_left), evs))
    as (d & days_left & evs & Hrun).
  { rewrite (get_domain_expiry_available w_up [] (fun _ _ => whois_ok) [] _ eq_refl).
    by eexists _, _, _. }
  exists d, days_left, evs. split; [exact Hrun |].
  exact (proj1 (proj1 (domain_expiry_is_utc w_up [] [] _ _ _ _ Hrun))).
Defined.

End Examples.
